(** * InformationSecurity: key exchange, replay guard and session-key store

    A shallow embedding of the handshake core of the chat application:

    - [ReplayProtection]: backend/utils/replayProtection.js (nonce,
      timestamp and sequence-number checks over module-level maps);
    - [Controller]: the endpoints [initiateKeyExchange] and
      [respondToKeyExchange] of
      backend/controllers/keyExchange.controller.js;
    - [KeyExchange]: frontend/src/utils/keyExchange.js (envelopes, session
      key derivation, confirmation tag, IndexedDB session-key store) and the
      responder path of frontend/src/hooks/useKeyExchange.js.

    JavaScript values are typed: ids, nonces and conversation ids are
    strings, timestamps and sequence numbers are integers ([Z]; every value
    that occurs is an exact integer far below 2^53), a missing property is
    [None].  A function that can throw returns an [Outcome]; module-level
    mutable state is threaded explicitly.  [Date.now()] is an explicit
    argument [now] of every function that reads the clock. *)

From Stdlib Require Import ZArith String List Lia Bool Ascii.
From Stdlib.Strings Require Import Byte.
From Stdlib Require Import DecimalString.
From stdpp Require Import gmap strings list fin_maps.

Local Open Scope string_scope.
Local Open Scope list_scope.
Local Open Scope Z_scope.

(** ** JavaScript preliminaries *)

(** Errors that the modelled code can raise. *)
Inductive JsError : Type :=
  | ReferenceError (name : string)      (* unresolvable identifier *)
  | TypeError (message : string)        (* property access on undefined *)
  | DOMException (message : string)     (* raised by a Web API *)
  | Error (message : string).           (* [new Error(message)] *)

(** [error.message]. *)
Definition message_of (e : JsError) : string :=
  match e with
  | ReferenceError name => name +:+ " is not defined"
  | TypeError message => message
  | DOMException message => message
  | Error message => message
  end.

(** The result of running a function body: a returned value or a thrown
    error (for an [async] function: a fulfilled or a rejected promise). *)
Inductive Outcome (A : Type) : Type :=
  | Returns (a : A)
  | Throws (e : JsError).
Arguments Returns {A} a.
Arguments Throws {A} e.

Definition is_throw {A} (o : Outcome A) : bool :=
  match o with Throws _ => true | Returns _ => false end.

(** Stateful, fallible computations.  Mutations made before a throw stay. *)
Definition M (S A : Type) : Type := S -> Outcome A * S.

Definition ret {S A} (a : A) : M S A := fun s => (Returns a, s).
Definition throw {S A} (e : JsError) : M S A := fun s => (Throws e, s).
Definition bind {S A B} (m : M S A) (k : A -> M S B) : M S B :=
  fun s => match m s with
           | (Returns a, s') => k a s'
           | (Throws e, s') => (Throws e, s')
           end.
Definition get {S} : M S S := fun s => (Returns s, s).
Definition modify {S} (f : S -> S) : M S unit := fun s => (Returns tt, f s).

(** Pure fallible computations. *)
Definition obind {A B} (o : Outcome A) (k : A -> Outcome B) : Outcome B :=
  match o with
  | Returns a => k a
  | Throws e => Throws e
  end.
Definition lift {S A} (o : Outcome A) : M S A := fun s => (o, s).

(** [try { body } catch (error) { throw new Error(prefix + error.message) }] *)
Definition rethrow {A} (prefix : string) (body : Outcome A) : Outcome A :=
  match body with
  | Returns a => Returns a
  | Throws e => Throws (Error (prefix +:+ message_of e))
  end.
Definition rethrowM {S A} (prefix : string) (body : M S A) : M S A :=
  fun s => match body s with
           | (Returns a, s') => (Returns a, s')
           | (Throws e, s') => (Throws (Error (prefix +:+ message_of e)), s')
           end.
(** [try { body } catch (error) { return handler(error) }] *)
Definition catchM {S A} (body : M S A) (handler : JsError -> A) : S -> A * S :=
  fun s => match body s with
           | (Returns a, s') => (a, s')
           | (Throws e, s') => (handler e, s')
           end.

Declare Scope outcome_scope.
Delimit Scope outcome_scope with out.
Notation "x <- m ;; k" := (obind m (fun x => k))
  (at level 100, m at next level, right associativity) : outcome_scope.

Declare Scope js_scope.
Delimit Scope js_scope with js.
Notation "x <- m ;; k" := (bind m (fun x => k))
  (at level 100, m at next level, right associativity) : js_scope.
Notation "m ;;; k" := (bind m (fun _ => k))
  (at level 100, right associativity) : js_scope.

(** Truthiness of the values that the code tests with [!x], [x && ...] or
    [x || ...]. *)
Definition truthy_string (s : string) : bool := negb (String.eqb s "").
Definition truthy_number (n : Z) : bool := negb (n =? 0).
Definition truthy_opt {A} (t : A -> bool) (o : option A) : bool :=
  match o with Some a => t a | None => false end.

(** ** backend/utils/replayProtection.js *)

Module ReplayProtection.

(** Configuration. *)
Definition TIMESTAMP_TOLERANCE : Z := 5 * 60 * 1000.
Definition MAX_TIMESTAMPS_PER_CONVERSATION : nat := 1000.
Definition SEQUENCE_WINDOW : Z := 100.

(** Entries of the security log (utils/securityLogger.js): the ones
    written by [logReplayAttack] and by [logKeyExchangeAttempt]. *)
Inductive LogEntry : Type :=
  | ReplayAttackEntry (conversationId attackType reason : string)
  | KeyExchangeEntry (senderId receiverId conversationId : string) (success : bool).

(** The module-level maps, and the security log. *)
Record State : Type := mkState {
  seenNonces : gmap string (gset string);
  seenTimestamps : gmap string (list Z);
  sequenceNumbers : gmap string Z;
  messageHistory : gmap string (gmap Z (option string));
  securityLog : list LogEntry
}.

Definition empty_state : State := mkState ∅ ∅ ∅ ∅ [].

Definition set_seenNonces (f : gmap string (gset string) -> gmap string (gset string))
    (st : State) : State :=
  mkState (f (seenNonces st)) (seenTimestamps st) (sequenceNumbers st)
          (messageHistory st) (securityLog st).
Definition set_seenTimestamps (f : gmap string (list Z) -> gmap string (list Z))
    (st : State) : State :=
  mkState (seenNonces st) (f (seenTimestamps st)) (sequenceNumbers st)
          (messageHistory st) (securityLog st).
Definition set_sequenceNumbers (f : gmap string Z -> gmap string Z)
    (st : State) : State :=
  mkState (seenNonces st) (seenTimestamps st) (f (sequenceNumbers st))
          (messageHistory st) (securityLog st).
Definition set_messageHistory
    (f : gmap string (gmap Z (option string)) -> gmap string (gmap Z (option string)))
    (st : State) : State :=
  mkState (seenNonces st) (seenTimestamps st) (sequenceNumbers st)
          (f (messageHistory st)) (securityLog st).

Definition set_securityLog (f : list LogEntry -> list LogEntry) (st : State) : State :=
  mkState (seenNonces st) (seenTimestamps st) (sequenceNumbers st)
          (messageHistory st) (f (securityLog st)).

Definition logReplayAttack (conversationId attackType reason : string) : M State unit :=
  modify (set_securityLog
            (fun log => log ++ [ReplayAttackEntry conversationId attackType reason])).

(** The callback of the hourly [setInterval]: a conversation's set of more
    than 10000 nonces is replaced by an empty set.  It runs between calls
    of the functions below, never inside one. *)
Definition cleanupNonces (st : State) : State :=
  set_seenNonces
    (fmap (fun nonceSet : gset string =>
             if Z.of_nat (size nonceSet) >? 10000 then ∅ else nonceSet)) st.

Local Open Scope js_scope.

(** [validateNonce]: true iff the nonce was not seen before in this
    conversation; a fresh nonce is added to the conversation's set. *)
Definition validateNonce (conversationId nonce : string) : M State bool :=
  if negb (truthy_string conversationId) || negb (truthy_string nonce) then ret false
  else
    st <- get ;;
    (match seenNonces st !! conversationId with
     | None => modify (set_seenNonces <[conversationId := ∅]>)
     | Some _ => ret tt
     end) ;;;
    st <- get ;;
    match seenNonces st !! conversationId with
    | None => throw (TypeError "nonceSet is undefined")
    | Some nonceSet =>
        if bool_decide (nonce ∈ nonceSet) then
          logReplayAttack conversationId "nonce" "Duplicate nonce detected" ;;;
          ret false
        else
          modify (set_seenNonces <[conversationId := nonceSet ∪ {[nonce]}]>) ;;;
          ret true
    end.

(** [validateTimestamp]: reads the clock once ([now]). *)
Definition validateTimestamp (now : Z) (conversationId : string) (timestamp : Z)
    : M State bool :=
  if negb (truthy_string conversationId) || negb (truthy_number timestamp) then ret false
  else
    let messageTime := timestamp in
    if messageTime >? now + TIMESTAMP_TOLERANCE then
      logReplayAttack conversationId "timestamp" "Future timestamp detected" ;;;
      ret false
    else if messageTime <? now - TIMESTAMP_TOLERANCE then
      logReplayAttack conversationId "timestamp" "Timestamp too old" ;;;
      ret false
    else
      st <- get ;;
      (match seenTimestamps st !! conversationId with
       | None => modify (set_seenTimestamps <[conversationId := []]>)
       | Some _ => ret tt
       end) ;;;
      st <- get ;;
      match seenTimestamps st !! conversationId with
      | None => throw (TypeError "timestampArray is undefined")
      | Some timestampArray =>
          let pushed := timestampArray ++ [messageTime] in
          let kept := if (MAX_TIMESTAMPS_PER_CONVERSATION <? length pushed)%nat
                      then tail pushed else pushed in
          modify (set_seenTimestamps <[conversationId := kept]>) ;;;
          ret true
      end.

(** [validateSequenceNumber].  The branch for a sequence number that lies
    below the window passes the identifier [conversationId] to
    [logReplayAttack]; the function's parameter is [sequenceContextId] and
    the module binds no [conversationId], so evaluating the argument
    raises a ReferenceError before anything is logged or returned. *)
Definition validateSequenceNumber (sequenceContextId : string)
    (sequenceNumber : option Z) (messageId : option string) : M State bool :=
  match sequenceNumber with
  | None => ret false
  | Some sequenceNumber =>
    if negb (truthy_string sequenceContextId) then ret false
    else
      st <- get ;;
      (match sequenceNumbers st !! sequenceContextId with
       | None =>
           modify (set_sequenceNumbers <[sequenceContextId := 0]>) ;;;
           modify (set_messageHistory <[sequenceContextId := ∅]>)
       | Some _ => ret tt
       end) ;;;
      st <- get ;;
      match sequenceNumbers st !! sequenceContextId,
            messageHistory st !! sequenceContextId with
      | Some lastSequence, Some history =>
          if bool_decide (is_Some (history !! sequenceNumber)) then
            logReplayAttack sequenceContextId "sequence"
                            "Duplicate sequence number detected" ;;;
            ret false
          else if sequenceNumber <? lastSequence - SEQUENCE_WINDOW then
            throw (ReferenceError "conversationId")
          else
            (if sequenceNumber >? lastSequence
             then modify (set_sequenceNumbers <[sequenceContextId := sequenceNumber]>)
             else ret tt) ;;;
            let stored := <[sequenceNumber := messageId]> history in
            let minSequence := sequenceNumber - SEQUENCE_WINDOW in
            let cleaned := filter (fun kv => minSequence <= kv.1) stored in
            modify (set_messageHistory <[sequenceContextId := cleaned]>) ;;;
            ret true
      | _, _ => throw (TypeError "history is undefined")
      end
  end.

(** The value returned by [validateReplayProtection]. *)
Record Validation : Type := mkValidation {
  valid : bool;
  reason : option string
}.

Definition Accepted : Validation := mkValidation true None.
Definition Rejected (r : string) : Validation := mkValidation false (Some r).

Definition reason_nonce : string := "Invalid or duplicate nonce".
Definition reason_timestamp : string :=
  "Invalid timestamp (outside tolerance window or future timestamp)".
Definition reason_sequence : string :=
  "Invalid sequence number (duplicate or outside window)".

(** [validateReplayProtection]: the three checks in order, each skipped
    when its input is falsy (sequence: undefined or null). *)
Definition validateReplayProtection (now : Z) (conversationId : string)
    (nonce : option string) (timestamp : option Z) (sequenceNumber : option Z)
    (messageId : option string) (sequenceContextId : option string)
    : M State Validation :=
  nonceOk <- (match nonce with
              | Some n => if truthy_string n then validateNonce conversationId n
                          else ret true
              | None => ret true
              end) ;;
  if negb nonceOk then ret (Rejected reason_nonce)
  else
    timestampOk <- (match timestamp with
                    | Some t => if truthy_number t
                                then validateTimestamp now conversationId t
                                else ret true
                    | None => ret true
                    end) ;;
    if negb timestampOk then ret (Rejected reason_timestamp)
    else
      match sequenceNumber with
      | None => ret Accepted
      | Some _ =>
          let ctx := match sequenceContextId with
                     | Some c => if truthy_string c then c else conversationId
                     | None => conversationId
                     end in
          sequenceOk <- validateSequenceNumber ctx sequenceNumber messageId ;;
          if negb sequenceOk then ret (Rejected reason_sequence)
          else ret Accepted
      end.

(** [generateNonce]: the 16 bytes of [crypto.getRandomValues], each printed
    as two lower-case hexadecimal digits; [randomValues] is the array that
    the platform filled. *)
Definition hex_digit (n : N) : ascii :=
  match n with
  | 0%N => "0" | 1%N => "1" | 2%N => "2" | 3%N => "3" | 4%N => "4" | 5%N => "5"
  | 6%N => "6" | 7%N => "7" | 8%N => "8" | 9%N => "9" | 10%N => "a" | 11%N => "b"
  | 12%N => "c" | 13%N => "d" | 14%N => "e" | _ => "f"
  end%char.

(** [byte.toString(16).padStart(2, '0')] *)
Definition hex_of_byte (b : byte) : string :=
  String (hex_digit (Byte.to_N b / 16)) (String (hex_digit (Byte.to_N b mod 16)) "").

Definition generateNonce (randomValues : list byte) : string :=
  String.concat "" (map hex_of_byte randomValues).

(** [resetReplayProtection] *)
Definition resetReplayProtection (conversationId : string) (st : State) : State :=
  mkState (delete conversationId (seenNonces st))
          (delete conversationId (seenTimestamps st))
          (delete conversationId (sequenceNumbers st))
          (delete conversationId (messageHistory st))
          (securityLog st).

(** The object returned by [getReplayProtectionStats]. *)
Record Stats : Type := mkStats {
  stats_seenNonces : Z;
  stats_seenTimestamps : Z;
  stats_lastSequenceNumber : Z;
  stats_messageHistorySize : Z
}.

(** [getReplayProtectionStats]: [x?.size || 0] is the size, or 0 when the
    conversation has no entry. *)
Definition getReplayProtectionStats (conversationId : string) (st : State) : Stats :=
  mkStats
    (from_option (fun nonceSet => Z.of_nat (size nonceSet)) 0
                 (seenNonces st !! conversationId))
    (from_option (fun timestamps => Z.of_nat (length timestamps)) 0
                 (seenTimestamps st !! conversationId))
    (from_option (fun last => last) 0 (sequenceNumbers st !! conversationId))
    (from_option (fun history => Z.of_nat (size history)) 0
                 (messageHistory st !! conversationId)).

End ReplayProtection.

(** ** Handshake envelopes

    The JSON object that travels between the peers through the server.
    A property that may be absent is an [option]. *)

Module Message.
Record t : Type := mk {
  type : string;
  senderId : string;
  receiverId : string;
  conversationId : option string;
  ecdhPublicKey : string;
  timestamp : option Z;
  nonce : option string;
  confirmationHash : option string;
  deviceInfo : string;
  appVersion : string;
  signature : option string
}.

(** [delete messageCopy.signature] on a shallow copy. *)
Definition without_signature (m : t) : t :=
  mk (type m) (senderId m) (receiverId m) (conversationId m) (ecdhPublicKey m)
     (timestamp m) (nonce m) (confirmationHash m) (deviceInfo m) (appVersion m) None.

(** [messageData.signature = signatureBase64]. *)
Definition with_signature (m : t) (sig : string) : t :=
  mk (type m) (senderId m) (receiverId m) (conversationId m) (ecdhPublicKey m)
     (timestamp m) (nonce m) (confirmationHash m) (deviceInfo m) (appVersion m)
     (Some sig).
End Message.

(** [a || b] on an optional string and on an optional number. *)
Definition or_string (a : option string) (b : string) : string :=
  match a with
  | Some s => if truthy_string s then s else b
  | None => b
  end.
Definition or_number (a : option Z) (b : Z) : Z :=
  match a with
  | Some n => if truthy_number n then n else b
  | None => b
  end.

(** ** backend/controllers/keyExchange.controller.js *)

Module Controller.

(** An entry of [keyExchangeStore]. *)
Record Exchange : Type := mkExchange {
  init : option Message.t;
  initTimestamp : option Z;
  response : option Message.t;
  responseTimestamp : option Z
}.

Definition empty_exchange : Exchange := mkExchange None None None None.

Record State : Type := mkState {
  replay : ReplayProtection.State;
  keyExchangeStore : gmap string Exchange
}.

(** What the endpoint answers: the status and the JSON body's [error] and
    [conversationId]. *)
Record HttpResponse : Type := mkResponse {
  status : Z;
  error : option string;
  conversationId : option string
}.

Definition logKeyExchangeAttempt (senderId receiverId conversationId : string)
    (success : bool) (st : ReplayProtection.State) : ReplayProtection.State :=
  ReplayProtection.set_securityLog
    (fun log => log ++ [ReplayProtection.KeyExchangeEntry senderId receiverId
                          conversationId success]) st.

(** [initiateKeyExchange].  The clock is read three times: for the default
    of [message.timestamp] ([nowDefault]), inside [validateTimestamp]
    ([nowValidate]) and for [store.initTimestamp] ([nowStore]).  A throw
    inside the [try] block is answered with status 500. *)
Definition initiateKeyExchange (nowDefault nowValidate nowStore : Z)
    (message : Message.t) (authUserId : string) (st : State)
    : HttpResponse * State :=
  if negb (truthy_string (Message.type message))
     || negb (String.eqb (Message.type message) "KEY_EXCHANGE_INIT")
  then (mkResponse 400 (Some "Invalid message type") None, st)
  else if negb (String.eqb (Message.senderId message) authUserId)
  then (mkResponse 403 (Some "Sender ID mismatch") None, st)
  else
    let conversationId :=
      or_string (Message.conversationId message)
                (Message.senderId message +:+ "_" +:+ Message.receiverId message) in
    match ReplayProtection.validateReplayProtection nowValidate conversationId
            (Message.nonce message)
            (Some (or_number (Message.timestamp message) nowDefault))
            None None None (replay st) with
    | (Throws _, rp) => (mkResponse 500 (Some "Internal server error") None,
                         mkState rp (keyExchangeStore st))
    | (Returns validation, rp) =>
        if negb (ReplayProtection.valid validation) then
          (mkResponse 400
             (Some ("Replay attack detected in key exchange: "
                    +:+ default "undefined" (ReplayProtection.reason validation)))
             None,
           mkState rp (keyExchangeStore st))
        else
          let store := default empty_exchange (keyExchangeStore st !! conversationId) in
          let store' := mkExchange (Some message) (Some nowStore)
                                   (response store) (responseTimestamp store) in
          (mkResponse 200 None (Some conversationId),
           mkState (logKeyExchangeAttempt (Message.senderId message)
                      (Message.receiverId message) conversationId true rp)
                   (<[conversationId := store']> (keyExchangeStore st)))
    end.

(** [respondToKeyExchange]: the same steps for a Response envelope. *)
Definition respondToKeyExchange (nowDefault nowValidate nowStore : Z)
    (message : Message.t) (authUserId : string) (st : State)
    : HttpResponse * State :=
  if negb (truthy_string (Message.type message))
     || negb (String.eqb (Message.type message) "KEY_EXCHANGE_RESPONSE")
  then (mkResponse 400 (Some "Invalid message type") None, st)
  else if negb (String.eqb (Message.senderId message) authUserId)
  then (mkResponse 403 (Some "Sender ID mismatch") None, st)
  else
    let conversationId :=
      or_string (Message.conversationId message)
                (Message.receiverId message +:+ "_" +:+ Message.senderId message) in
    match ReplayProtection.validateReplayProtection nowValidate conversationId
            (Message.nonce message)
            (Some (or_number (Message.timestamp message) nowDefault))
            None None None (replay st) with
    | (Throws _, rp) => (mkResponse 500 (Some "Internal server error") None,
                         mkState rp (keyExchangeStore st))
    | (Returns validation, rp) =>
        if negb (ReplayProtection.valid validation) then
          (mkResponse 400
             (Some ("Replay attack detected in key exchange response: "
                    +:+ default "undefined" (ReplayProtection.reason validation)))
             None,
           mkState rp (keyExchangeStore st))
        else
          let store := default empty_exchange (keyExchangeStore st !! conversationId) in
          let store' := mkExchange (init store) (initTimestamp store)
                                   (Some message) (Some nowStore) in
          (mkResponse 200 None (Some conversationId),
           mkState (logKeyExchangeAttempt (Message.senderId message)
                      (Message.receiverId message) conversationId true rp)
                   (<[conversationId := store']> (keyExchangeStore st)))
    end.

(** The JSON body of [getKeyExchangeResponse]; a property that the answer
    does not carry is [None], and [response: null] is [Some None]. *)
Record PollResult : Type := mkPollResult {
  poll_init : option Message.t;
  poll_response : option (option Message.t);
  poll_found : option bool
}.

(** [getKeyExchangeResponse] (the polling endpoint); always status 200. *)
Definition getKeyExchangeResponse (conversationId userId : string) (st : State)
    : PollResult * State :=
  match keyExchangeStore st !! conversationId with
  | None => (mkPollResult None (Some None) None, st)
  | Some store =>
      let deliver :=
        match response store with
        | Some r => String.eqb (Message.receiverId r) userId
        | None => false
        end in
      if deliver then
        (mkPollResult None (Some (response store)) (Some true),
         mkState (replay st) (delete conversationId (keyExchangeStore st)))
      else
        match init store with
        | Some i =>
            (mkPollResult (Some i) (Some (response store))
                          (Some (bool_decide (is_Some (response store)))), st)
        | None => (mkPollResult None (Some None) (Some false), st)
        end
  end.

(** [getPendingKeyExchanges]: the stored Inits addressed to the user that
    have no Response yet, by conversation id.  (The JSON array lists them
    in the insertion order of the store; that order is not represented.) *)
Definition getPendingKeyExchanges (userId : string) (st : State)
    : gmap string Message.t :=
  omap (fun store =>
          match init store, response store with
          | Some i, None =>
              if String.eqb (Message.receiverId i) userId then Some i else None
          | _, _ => None
          end) (keyExchangeStore st).

End Controller.

(** ** backend/controllers/message.controller.js *)

Module MessageController.

(** The fields of the request body that [sendMessage] reads. *)
Record Body : Type := mkBody {
  ciphertext : option string;
  iv : option string;
  authTag : option string;
  messageType : option string;
  sequenceNumber : option Z;
  messageTimestamp : option Z;
  nonce : option string;
  fileName : option string;
  fileType : option string;
  fileSize : option Z;
  message : option string          (* a plaintext [message], if it is a string *)
}.

(** A document of the Message collection. *)
Record StoredMessage : Type := mkStoredMessage {
  stored_id : string;
  stored_senderId : string;
  stored_receiverId : string;
  stored_ciphertext : string;
  stored_iv : string;
  stored_authTag : string;
  stored_messageType : string;
  stored_sequenceNumber : Z;
  stored_messageTimestamp : Z;
  stored_fileName : option string;
  stored_fileType : option string;
  stored_fileSize : option Z
}.

(** Server state: the replay guard and the messages saved so far, per
    conversation id. *)
Record State : Type := mkState {
  replay : ReplayProtection.State;
  messages : gmap string (list StoredMessage)
}.

Record HttpResponse : Type := mkResponse {
  status : Z;
  error : option string;
  body : option StoredMessage
}.

Definition falsy_opt_string (x : option string) : bool :=
  negb (truthy_opt truthy_string x).

(** [x || null] for the optional file properties. *)
Definition or_null_string (x : option string) : option string :=
  match x with
  | Some s => if truthy_string s then Some s else None
  | None => None
  end.
Definition or_null_number (x : option Z) : option Z :=
  match x with
  | Some n => if truthy_number n then Some n else None
  | None => None
  end.

(** [sendMessage].  The database is taken by what it answers:
    [conversationId] is the id of the conversation that [findOne] found or
    [create] made for the two participants, [newMessageId] the id of the
    new Message document; saving succeeds.  [nowDefault] and [nowStored]
    are the two evaluations of [messageTimestamp || Date.now()],
    [nowValidate] is the reading inside [validateTimestamp].  Any throw
    inside the [try] block is answered with status 500. *)
Definition sendMessage (nowDefault nowValidate nowStored : Z)
    (conversationId newMessageId : string)
    (body : Body) (receiverId senderId : string) (st : State)
    : HttpResponse * State :=
  if falsy_opt_string (ciphertext body) || falsy_opt_string (iv body)
     || falsy_opt_string (authTag body)
  then (mkResponse 400
          (Some "Encrypted message data required (ciphertext, iv, authTag). Plaintext messages are not allowed.")
          None, st)
  else if truthy_opt truthy_string (message body)
  then (mkResponse 400
          (Some "Plaintext messages are not allowed. All messages must be encrypted client-side.")
          None, st)
  else
    let sequenceContextId := conversationId +:+ "_" +:+ senderId in
    match ReplayProtection.validateReplayProtection nowValidate conversationId
            (nonce body)
            (Some (or_number (messageTimestamp body) nowDefault))
            (sequenceNumber body) None (Some sequenceContextId) (replay st) with
    | (Throws _, rp) =>
        (mkResponse 500 (Some "Internal server error") None, mkState rp (messages st))
    | (Returns validation, rp) =>
        if negb (ReplayProtection.valid validation) then
          (mkResponse 400
             (Some ("Replay attack detected: "
                    +:+ default "undefined" (ReplayProtection.reason validation)))
             None,
           mkState rp (messages st))
        else
          let newMessage :=
            mkStoredMessage newMessageId senderId receiverId
              (default "" (ciphertext body)) (default "" (iv body))
              (default "" (authTag body))
              (default "text" (messageType body))
              (or_number (sequenceNumber body) 0)
              (or_number (messageTimestamp body) nowStored)
              (or_null_string (fileName body)) (or_null_string (fileType body))
              (or_null_number (fileSize body)) in
          let saved :=
            <[conversationId :=
                default [] (messages st !! conversationId) ++ [newMessage]]>
              (messages st) in
          match sequenceNumber body with
          | None => (mkResponse 201 None (Some newMessage), mkState rp saved)
          | Some _ =>
              match ReplayProtection.validateSequenceNumber sequenceContextId
                      (sequenceNumber body) (Some newMessageId) rp with
              | (Throws _, rp') =>
                  (mkResponse 500 (Some "Internal server error") None,
                   mkState rp' saved)
              | (Returns _, rp') =>
                  (mkResponse 201 None (Some newMessage), mkState rp' saved)
              end
          end
    end.

End MessageController.

(** ** SHA-256 and base64

    [crypto.subtle.digest("SHA-256", data)] is the function of FIPS 180-4,
    written out here on byte lists so that digests can be computed.
    [Base64.btoa] is the standard base64 encoder (RFC 4648). *)

#[global] Instance byte_eq_decision : EqDecision byte := byte_eq_dec.

Definition byte_to_Z (b : byte) : Z := Z.of_N (Byte.to_N b).
Definition Z_to_byte (z : Z) : byte :=
  default x00 (Byte.of_N (Z.to_N (z mod 256))).

Module SHA256.

Definition wrap (x : Z) : Z := x mod 2 ^ 32.
Definition add (x y : Z) : Z := wrap (x + y).
Definition rotr (n x : Z) : Z := wrap (Z.lor (Z.shiftr x n) (Z.shiftl x (32 - n))).
Definition shr (n x : Z) : Z := Z.shiftr x n.
Definition lnot32 (x : Z) : Z := Z.lxor x 0xFFFFFFFF.

Definition Ch (x y z : Z) : Z := Z.lxor (Z.land x y) (Z.land (lnot32 x) z).
Definition Maj (x y z : Z) : Z :=
  Z.lxor (Z.lxor (Z.land x y) (Z.land x z)) (Z.land y z).
Definition Sigma0 (x : Z) : Z := Z.lxor (Z.lxor (rotr 2 x) (rotr 13 x)) (rotr 22 x).
Definition Sigma1 (x : Z) : Z := Z.lxor (Z.lxor (rotr 6 x) (rotr 11 x)) (rotr 25 x).
Definition sigma0 (x : Z) : Z := Z.lxor (Z.lxor (rotr 7 x) (rotr 18 x)) (shr 3 x).
Definition sigma1 (x : Z) : Z := Z.lxor (Z.lxor (rotr 17 x) (rotr 19 x)) (shr 10 x).

(** The round constants are the first 32 bits of the fractional parts of
    the cube roots of the first 64 primes, the initial hash value those of
    the square roots of the first 8 primes (FIPS 180-4, 4.2.2 and 5.3.3). *)
Definition primes : list Z :=
  [2; 3; 5; 7; 11; 13; 17; 19; 23; 29; 31; 37; 41; 43; 47; 53; 59; 61; 67; 71;
   73; 79; 83; 89; 97; 101; 103; 107; 109; 113; 127; 131; 137; 139; 149; 151;
   157; 163; 167; 173; 179; 181; 191; 193; 197; 199; 211; 223; 227; 229; 233;
   239; 241; 251; 257; 263; 269; 271; 277; 281; 283; 293; 307; 311].

(** Integer cube root by bisection: the largest [r] in [[lo, hi)] with
    [r ^ 3 <= n]. *)
Fixpoint cube_root_between (fuel : nat) (n lo hi : Z) : Z :=
  match fuel with
  | O => lo
  | S fuel' =>
      if hi - lo <=? 1 then lo
      else
        let mid := (lo + hi) / 2 in
        if mid * mid * mid <=? n
        then cube_root_between fuel' n mid hi
        else cube_root_between fuel' n lo mid
  end.

Definition cube_root_fraction (p : Z) : Z :=
  wrap (cube_root_between 40 (p * 2 ^ 96) 0 (2 ^ 35)).
Definition square_root_fraction (p : Z) : Z :=
  wrap (Z.sqrt (p * 2 ^ 64)).

Definition K : list Z := Eval vm_compute in map cube_root_fraction primes.

(** The eight working variables / the intermediate hash value. *)
Record Hash : Type := mkHash {
  ha : Z; hb : Z; hc : Z; hd : Z; he : Z; hf : Z; hg : Z; hh : Z
}.

Definition H0 : Hash :=
  Eval vm_compute in
    match map square_root_fraction (take 8 primes) with
    | [a; b; c; d; e; f; g; h] => mkHash a b c d e f g h
    | _ => mkHash 0 0 0 0 0 0 0 0
    end.

(** Padding: 0x80, zeros up to 56 mod 64, the bit length on 64 bits. *)
Definition be_bytes (n : nat) (x : Z) : list Z :=
  map (fun i => Z.shiftr x (8 * Z.of_nat i) mod 256) (rev (seq 0 n)).

Definition pad (msg : list Z) : list Z :=
  let len := Z.of_nat (length msg) in
  let zeros := Z.to_nat ((55 - len) mod 64) in
  msg ++ [0x80] ++ repeat 0 zeros ++ be_bytes 8 (8 * len).

Definition word_of_bytes (b : list Z) : Z :=
  fold_left (fun acc x => acc * 256 + x) b 0.

Fixpoint words (fuel : nat) (bytes : list Z) : list Z :=
  match fuel, bytes with
  | S fuel', b0 :: b1 :: b2 :: b3 :: rest =>
      word_of_bytes [b0; b1; b2; b3] :: words fuel' rest
  | _, _ => []
  end.

(** The message schedule, most recent word first. *)
Fixpoint extend (n : nat) (w : list Z) : list Z :=
  match n with
  | O => w
  | S n' =>
      let next := add (add (sigma1 (nth 1 w 0)) (nth 6 w 0))
                      (add (sigma0 (nth 14 w 0)) (nth 15 w 0)) in
      extend n' (next :: w)
  end.

Definition schedule (block : list Z) : list Z :=
  rev (extend 48 (rev block)).

Definition round (h : Hash) (kw : Z * Z) : Hash :=
  let '(k, w) := kw in
  let t1 := add (add (add (add (hh h) (Sigma1 (he h))) (Ch (he h) (hf h) (hg h))) k) w in
  let t2 := add (Sigma0 (ha h)) (Maj (ha h) (hb h) (hc h)) in
  mkHash (add t1 t2) (ha h) (hb h) (hc h) (add (hd h) t1) (he h) (hf h) (hg h).

Definition compress (h : Hash) (block : list Z) : Hash :=
  let r := fold_left round (combine K (schedule block)) h in
  mkHash (add (ha h) (ha r)) (add (hb h) (hb r)) (add (hc h) (hc r))
         (add (hd h) (hd r)) (add (he h) (he r)) (add (hf h) (hf r))
         (add (hg h) (hg r)) (add (hh h) (hh r)).

Fixpoint blocks (fuel : nat) (ws : list Z) (h : Hash) : Hash :=
  match fuel, ws with
  | S fuel', _ :: _ => blocks fuel' (drop 16 ws) (compress h (take 16 ws))
  | _, _ => h
  end.

Definition digest_words (msg : list Z) : Hash :=
  let padded := pad msg in
  let ws := words (length padded) padded in
  blocks (length ws) ws H0.

Definition word_bytes (x : Z) : list byte :=
  [Z_to_byte (Z.shiftr x 24); Z_to_byte (Z.shiftr x 16);
   Z_to_byte (Z.shiftr x 8); Z_to_byte x].

Definition digest (msg : list byte) : list byte :=
  let h := digest_words (map byte_to_Z msg) in
  word_bytes (ha h) ++ word_bytes (hb h) ++ word_bytes (hc h) ++ word_bytes (hd h)
  ++ word_bytes (he h) ++ word_bytes (hf h) ++ word_bytes (hg h) ++ word_bytes (hh h).

End SHA256.

Module Base64.

Definition alphabet : string :=
  "ABCDEFGHIJKLMNOPQRSTUVWXYZabcdefghijklmnopqrstuvwxyz0123456789+/".

Definition char (sextet : Z) : ascii :=
  default "="%char (String.get (Z.to_nat sextet) alphabet).

(** Three bytes give four characters; one or two trailing bytes are
    padded with "=". *)
Fixpoint encode (bytes : list Z) : string :=
  match bytes with
  | [] => ""
  | [a] =>
      String (char (a / 4)) (String (char (a mod 4 * 16)) "==")
  | [a; b] =>
      String (char (a / 4)) (String (char (a mod 4 * 16 + b / 16))
        (String (char (b mod 16 * 4)) "="))
  | a :: b :: c :: rest =>
      String (char (a / 4)) (String (char (a mod 4 * 16 + b / 16))
        (String (char (b mod 16 * 4 + c / 64)) (String (char (c mod 64))
          (encode rest))))
  end.

(** [btoa(String.fromCharCode(...bytes))] *)
Definition btoa (bytes : list byte) : string := encode (map byte_to_Z bytes).

End Base64.

Arguments SHA256.digest : simpl never.
Arguments Base64.btoa : simpl never.

(** [crypto.subtle.digest("SHA-256", data)] *)
Definition subtle_digest_SHA256 (data : list byte) : list byte := SHA256.digest data.
Arguments subtle_digest_SHA256 : simpl never.

(** ** frontend/src/utils/keyExchange.js *)

(** [TextEncoder().encode(s)] *)
Definition utf8 (s : string) : list byte := list_byte_of_string s.

(** [n.toString()] and [`${n}`] for an integer. *)
Definition Z_to_string (n : Z) : string := NilZero.string_of_int (Z.to_int n).

(** [`${x}`] for a property that may be undefined. *)
Definition template_number (x : option Z) : string :=
  match x with Some n => Z_to_string n | None => "undefined" end.

(** [[a, b].sort()]: the default comparator orders strings by code unit;
    the pair is swapped exactly when [b] is smaller than [a]. *)
Definition sort2 (a b : string) : string * string :=
  if String.ltb b a then (b, a) else (a, b).

Module KeyExchange.

Definition TIMESTAMP_TOLERANCE : Z := 5 * 60 * 1000.
Definition SESSION_KEY_EXPIRY : Z := 7 * 24 * 60 * 60 * 1000.

(** An AES-GCM [CryptoKey], given by its raw key bytes. *)
Definition CryptoKey : Type := list byte.

(** [subtle.importKey("raw", data, {name: "AES-GCM"}, ...)]: the data must
    be 128, 192 or 256 bits long. *)
Definition importKey_raw_AES (data : list byte) : Outcome CryptoKey :=
  if bool_decide (length data = 16%nat ∨ length data = 24%nat ∨ length data = 32%nat)
  then Returns data
  else Throws (DOMException "Invalid key length").

(** [subtle.exportKey("raw", key)] *)
Definition exportKey_raw (key : CryptoKey) : list byte := key.

(** A record of the IndexedDB object store "sessionKeys". *)
Record KeyData : Type := mkKeyData {
  key : list byte;
  timestamp : Z;
  expiresAt : Z
}.

(** Client state: the module-level nonce set (a nonce read from a message
    may be undefined) and the object store "sessionKeys" of the database
    "ChatAppKeysDB", indexed by [`sessionKey-${conversationId}`]. *)
Record State : Type := mkState {
  seenNonces : gset (option string);
  sessionKeys : gmap string KeyData
}.

Definition empty_state : State := mkState ∅ ∅.

Definition set_seenNonces (f : gset (option string) -> gset (option string))
    (st : State) : State := mkState (f (seenNonces st)) (sessionKeys st).
Definition set_sessionKeys (f : gmap string KeyData -> gmap string KeyData)
    (st : State) : State := mkState (seenNonces st) (f (sessionKeys st)).

(** The callback of the module's [setInterval] (every minute): more than
    1000 nonces are cleared. *)
Definition cleanupNonces (st : State) : State :=
  if Z.of_nat (size (seenNonces st)) >? 1000 then set_seenNonces (fun _ => ∅) st
  else st.

Definition storeKey (conversationId : string) : string :=
  "sessionKey-" +:+ conversationId.

Local Open Scope js_scope.

(** [storeSessionKey].  [timestamp || Date.now()] is evaluated twice, for
    the [timestamp] and for the [expiresAt] property ([now1], [now2]).
    The database is opened at version 2, where the object store exists;
    the code's fallback that reopens the database to create the store puts
    the same record. *)
Definition storeSessionKey (now1 now2 : Z) (conversationId : string)
    (sessionKey : CryptoKey) (timestamp : option Z) : M State bool :=
  let exported := exportKey_raw sessionKey in
  let keyData := mkKeyData exported (or_number timestamp now1)
                           (or_number timestamp now2 + SESSION_KEY_EXPIRY) in
  modify (set_sessionKeys <[storeKey conversationId := keyData]>) ;;;
  ret true.

(** [retrieveSessionKey]: [None] is JavaScript's [null]. *)
Definition retrieveSessionKey (now : Z) (conversationId : string)
    : M State (option CryptoKey) :=
  st <- get ;;
  match sessionKeys st !! storeKey conversationId with
  | None => ret None
  | Some result =>
      if truthy_number (expiresAt result) && (now >? expiresAt result) then
        modify (set_sessionKeys (delete (storeKey conversationId))) ;;;
        ret None
      else
        match importKey_raw_AES (key result) with
        | Returns sessionKey => ret (Some sessionKey)
        | Throws _ => ret None
        end
  end.

(** *** Handshake functions

    ECDH, RSA signatures, base64 transport and JSON serialisation are
    provided by the browser, not by this repository: they are parameters
    of the model.  A platform function that can raise returns an
    [Outcome].  [importPrivateKey] and [importPublicKey]
    (utils/keyStorage.js) decode base64 and call [subtle.importKey]; they
    are taken by their result. *)

Class Platform : Type := {
  ECPublic : Type;                     (* ECDH P-256 public CryptoKey *)
  ECPrivate : Type;                    (* ECDH P-256 private CryptoKey *)
  RSAPublic : Type;                    (* RSASSA-PKCS1-v1_5 verification key *)
  RSAPrivate : Type;                   (* RSASSA-PKCS1-v1_5 signing key *)
  subtle_exportKey_spki : ECPublic -> list byte;
  subtle_importKey_spki : list byte -> Outcome ECPublic;
  subtle_deriveBits : ECPrivate -> ECPublic -> list byte;
  subtle_sign : RSAPrivate -> list byte -> list byte;
  subtle_verify : RSAPublic -> list byte -> list byte -> bool;
  importPrivateKey : string -> Outcome RSAPrivate;
  importPublicKey : string -> Outcome RSAPublic;
  btoa : list byte -> string;          (* btoa(String.fromCharCode(...bytes)) *)
  atob : string -> Outcome (list byte);
  JSON_stringify : Message.t -> string
}.

Section Handshake.

Context {platform : Platform}.

Definition exportECDHPublicKey (publicKey : ECPublic) : string :=
  btoa (subtle_exportKey_spki publicKey).

Definition importECDHPublicKey (publicKeyBase64 : string) : Outcome ECPublic :=
  rethrow "Failed to import ECDH public key: "
    (keyBuffer <- atob publicKeyBase64 ;;
     subtle_importKey_spki keyBuffer)%out.

Definition deriveSharedSecret (myPrivateKey : ECPrivate) (theirPublicKey : ECPublic)
    : list byte :=
  subtle_deriveBits myPrivateKey theirPublicKey.

Definition signData (privateKeyBase64 : string) (data : string) : Outcome (list byte) :=
  rethrow "Failed to sign data: "
    (privateKey <- importPrivateKey privateKeyBase64 ;;
     Returns (subtle_sign privateKey (utf8 data)))%out.

(** [verifySignature] catches every error and answers [false]. *)
Definition verifySignature (publicKeyBase64 : string) (signature : list byte)
    (data : string) : bool :=
  match importPublicKey publicKeyBase64 with
  | Returns publicKey => subtle_verify publicKey signature (utf8 data)
  | Throws _ => false
  end.

(** [deriveSessionKeySHA256]: SHA-256 of
    sharedSecret || senderId || receiverId || timestamp.toString(),
    imported as an AES-GCM key. *)
Definition deriveSessionKeySHA256 (sharedSecret : list byte)
    (senderId receiverId : string) (timestamp : option Z) : Outcome CryptoKey :=
  rethrow "Failed to derive session key: "
    (timestampString <-
       match timestamp with
       | Some t => Returns (Z_to_string t)
       | None => Throws (TypeError "Cannot read properties of undefined (reading 'toString')")
       end ;;
     let combined := sharedSecret ++ utf8 senderId ++ utf8 receiverId
                     ++ utf8 timestampString in
     let hash := subtle_digest_SHA256 combined in
     importKey_raw_AES hash)%out.

(** The hash-based confirmation: base64 of the SHA-256 of
    [`KEY_CONFIRMED_${first}_${second}_${timestamp}`]. *)
Definition confirmationData (first second : string) (timestamp : option Z) : string :=
  "KEY_CONFIRMED_" +:+ first +:+ "_" +:+ second +:+ "_" +:+ template_number timestamp.

Definition confirmationHashBase64 (first second : string) (timestamp : option Z)
    : string :=
  btoa (subtle_digest_SHA256 (utf8 (confirmationData first second timestamp))).

(** [navigator.userAgent || "Unknown"] *)
Definition deviceInfo_of (userAgent : string) : string :=
  if truthy_string userAgent then userAgent else "Unknown".

(** [createKeyExchangeInit]; [nonce] is the value of [generateNonce()]. *)
Definition createKeyExchangeInit (now : Z) (nonce userAgent : string)
    (ecdhPublicKey : ECPublic) (receiverId myPrivateKeyBase64 senderId : string)
    (conversationId : option string) : Outcome Message.t :=
  rethrow "Failed to create key exchange initiation: "
    (let ecdhPublicKeyBase64 := exportECDHPublicKey ecdhPublicKey in
     let timestamp := now in
     let messageData :=
       Message.mk "KEY_EXCHANGE_INIT" senderId receiverId conversationId
                  ecdhPublicKeyBase64 (Some timestamp) (Some nonce) None
                  (deviceInfo_of userAgent) "1.0.0" None in
     let messageString := JSON_stringify messageData in
     signature <- signData myPrivateKeyBase64 messageString ;;
     Returns (Message.with_signature messageData (btoa signature)))%out.

(** The object returned by [validateKeyExchangeInit], discriminated by its
    [valid] property. *)
Inductive InitValidation : Type :=
  | Invalid (error : string)
  | Valid (ecdhPublicKey : ECPublic) (senderId : string)
          (conversationId : option string) (timestamp : option Z).

Definition valid (v : InitValidation) : bool :=
  match v with Valid _ _ _ _ => true | Invalid _ => false end.

(** [Math.abs(now - messageTime) > TIMESTAMP_TOLERANCE]; with an undefined
    timestamp the difference is NaN and the comparison is false. *)
Definition out_of_tolerance (now : Z) (messageTime : option Z) : bool :=
  match messageTime with
  | Some t => Z.abs (now - t) >? TIMESTAMP_TOLERANCE
  | None => false
  end.

Definition validateKeyExchangeInit_body (now : Z) (message : Message.t)
    (senderPublicKeyBase64 : string) : M State InitValidation :=
  match Message.signature message with
  | None => ret (Invalid "Missing signature")
  | Some signatureBase64 =>
    if negb (truthy_string signatureBase64) then ret (Invalid "Missing signature")
    else
      let messageCopy := Message.without_signature message in
      let messageString := JSON_stringify messageCopy in
      signature <- lift (atob signatureBase64) ;;
      if negb (verifySignature senderPublicKeyBase64 signature messageString)
      then ret (Invalid "Invalid signature")
      else if out_of_tolerance now (Message.timestamp message)
      then ret (Invalid "Message timestamp out of tolerance")
      else
        let nonce := Message.nonce message in
        st <- get ;;
        if bool_decide (nonce ∈ seenNonces st)
        then ret (Invalid "Nonce already seen (replay attack)")
        else
          modify (set_seenNonces (fun seen => seen ∪ {[nonce]})) ;;;
          ecdhPublicKey <- lift (importECDHPublicKey (Message.ecdhPublicKey message)) ;;
          ret (Valid ecdhPublicKey (Message.senderId message)
                     (Message.conversationId message) (Message.timestamp message))
  end.

(** [validateKeyExchangeInit]: every error is caught and reported as an
    invalid result. *)
Definition validateKeyExchangeInit (now : Z) (message : Message.t)
    (senderPublicKeyBase64 : string) : State -> InitValidation * State :=
  catchM (validateKeyExchangeInit_body now message senderPublicKeyBase64)
         (fun error => Invalid ("Validation error: " +:+ message_of error)).

(** The object returned by [createKeyExchangeResponse]. *)
Record ResponseResult : Type := mkResponseResult {
  response : Message.t;
  sessionKey : CryptoKey;
  responseTimestamp : Z
}.

(** [createKeyExchangeResponse], run by the responder: [senderId] is the
    initiator, [receiverId] the responder itself.  [now] is the reading
    that becomes the response timestamp; [now1], [now2] are the readings
    of [storeSessionKey]. *)
Definition createKeyExchangeResponse (now now1 now2 : Z) (nonce userAgent : string)
    (myECDHPublicKey theirECDHPublicKey : ECPublic) (myECDHPrivateKey : ECPrivate)
    (senderId myPrivateKeyBase64 receiverId : string)
    (conversationId : option string) : M State ResponseResult :=
  rethrowM "Failed to create key exchange response: "
    (let sharedSecret := deriveSharedSecret myECDHPrivateKey theirECDHPublicKey in
     let timestamp := now in
     let ids := sort2 senderId receiverId in
     sessionKey <- lift (deriveSessionKeySHA256 sharedSecret ids.1 ids.2
                                                (Some timestamp)) ;;
     let myECDHPublicKeyBase64 := exportECDHPublicKey myECDHPublicKey in
     let confirmationHash :=
       confirmationHashBase64 receiverId senderId (Some timestamp) in
     let responseData :=
       Message.mk "KEY_EXCHANGE_RESPONSE" receiverId senderId conversationId
                  myECDHPublicKeyBase64 (Some timestamp) (Some nonce)
                  (Some confirmationHash) (deviceInfo_of userAgent) "1.0.0" None in
     let messageString := JSON_stringify responseData in
     signature <- lift (signData myPrivateKeyBase64 messageString) ;;
     let responseData := Message.with_signature responseData (btoa signature) in
     let convId := or_string conversationId (senderId +:+ "_" +:+ receiverId) in
     storeSessionKey now1 now2 convId sessionKey (Some timestamp) ;;;
     ret (mkResponseResult responseData sessionKey timestamp)).

(** [completeKeyExchange], run by the initiator on the Response. *)
Definition completeKeyExchange (now now1 now2 : Z) (responseMessage : Message.t)
    (myECDHPrivateKey : ECPrivate) (theirPublicKeyBase64 myId theirId : string)
    (conversationId : string) : M State CryptoKey :=
  rethrowM "Failed to complete key exchange: "
    (signatureBase64 <-
       match Message.signature responseMessage with
       | Some sig => if truthy_string sig then ret sig
                     else throw (Error "Missing signature in response")
       | None => throw (Error "Missing signature in response")
       end ;;
     let messageCopy := Message.without_signature responseMessage in
     let messageString := JSON_stringify messageCopy in
     signature <- lift (atob signatureBase64) ;;
     if negb (verifySignature theirPublicKeyBase64 signature messageString)
     then throw (Error "Invalid signature in response")
     else if out_of_tolerance now (Message.timestamp responseMessage)
     then throw (Error "Response timestamp out of tolerance")
     else
       let nonce := Message.nonce responseMessage in
       st <- get ;;
       if bool_decide (nonce ∈ seenNonces st)
       then throw (Error "Nonce already seen (replay attack)")
       else
         modify (set_seenNonces (fun seen => seen ∪ {[nonce]})) ;;;
         theirECDHPublicKey <-
           lift (importECDHPublicKey (Message.ecdhPublicKey responseMessage)) ;;
         let sharedSecret := deriveSharedSecret myECDHPrivateKey theirECDHPublicKey in
         let timestamp := Message.timestamp responseMessage in
         let ids := sort2 theirId myId in
         sessionKey <- lift (deriveSessionKeySHA256 sharedSecret ids.1 ids.2 timestamp) ;;
         let expectedHashBase64 := confirmationHashBase64 theirId myId timestamp in
         if negb (bool_decide (Message.confirmationHash responseMessage
                               = Some expectedHashBase64))
         then throw (Error "Confirmation hash mismatch")
         else
           storeSessionKey now1 now2 conversationId sessionKey timestamp ;;;
           ret sessionKey).

(** *** frontend/src/hooks/useKeyExchange.js: the responder path *)

(** React state of the hook. *)
Record HookState : Type := mkHookState {
  sessionKeysState : gmap string CryptoKey;
  errorState : option string;
  isExchanging : bool
}.

(** The outcome of [fetch('/api/keyexchange/respond', ...)]: a response
    with [ok], a response without [ok] carrying the body's [error], or a
    network failure. *)
Inductive FetchResult : Type :=
  | FetchOk
  | FetchNotOk (error : option string)
  | FetchRejected (e : JsError).

(** [a || b] where both may be undefined. *)
Definition or_opt_string (a b : option string) : option string :=
  match a with
  | Some s => if truthy_string s then Some s else b
  | None => b
  end.

(** Property name of [{...prev, [convId]: sessionKey}]. *)
Definition property_name (convId : option string) : string :=
  default "undefined" convId.

(** [handleKeyExchangeMessage].  [authUser] and [privateKeyBase64] come
    from the hook's context ([authUser] by its [_id]); [nowValidate] is
    the clock reading of [validateKeyExchangeInit], [myKeyPair] the outcome
    of [generateECDHKeyPair()], [serverResponse] the outcome of the POST. *)
Definition handleKeyExchangeMessage
    (authUser privateKeyBase64 : option string)
    (nowValidate now now1 now2 : Z) (nonce userAgent : string)
    (myKeyPair : Outcome (ECPublic * ECPrivate)) (serverResponse : FetchResult)
    (message : Message.t) (senderId senderPublicKeyBase64 : string)
    (conversationId : option string)
    (hook : HookState) (st : State) : bool * HookState * State :=
  let notAuthenticated :=
    (false, mkHookState (sessionKeysState hook)
              (Some "Not authenticated or private key not available")
              (isExchanging hook), st) in
  (* setIsExchanging(true); setError(null); finally setIsExchanging(false) *)
  let failed (err : JsError) (st' : State) :=
    (false, mkHookState (sessionKeysState hook) (Some (message_of err)) false, st') in
  match authUser, privateKeyBase64 with
  | Some authUserId, Some privateKey =>
    if negb (truthy_string privateKey) then notAuthenticated
    else
      match validateKeyExchangeInit nowValidate message senderPublicKeyBase64 st with
      | (Invalid error, st1) =>
          failed (Error (if truthy_string error then error
                         else "Invalid key exchange message")) st1
      | (Valid theirECDHPublicKey _ validationConversationId _, st1) =>
          match myKeyPair with
          | Throws e => failed e st1
          | Returns (myECDHPublicKey, myECDHPrivateKey) =>
            let convId := or_opt_string conversationId validationConversationId in
            match createKeyExchangeResponse now now1 now2 nonce userAgent
                    myECDHPublicKey theirECDHPublicKey myECDHPrivateKey
                    senderId privateKey authUserId convId st1 with
            | (Throws e, st2) => failed e st2
            | (Returns responseResult, st2) =>
                match serverResponse with
                | FetchRejected e => failed e st2
                | FetchNotOk error =>
                    failed (Error (or_string error
                                     "Failed to send key exchange response")) st2
                | FetchOk =>
                    (true,
                     mkHookState (<[property_name convId := sessionKey responseResult]>
                                    (sessionKeysState hook))
                                 None false,
                     st2)
                end
            end
          end
      end
  | _, _ => notAuthenticated
  end.

End Handshake.

(** *** frontend/src/hooks/useKeyExchange.js: looking a session key up *)

(** [getSessionKey]: the key held in the hook's React state, else the one
    in the IndexedDB store, which is then put into the React state.  (The
    React state is a plain object indexed by conversation ids; the names
    that every object inherits, such as "constructor", are not
    conversation ids.) *)
Definition getSessionKey (now : Z) (conversationId : string)
    (hook : HookState) (st : State) : option CryptoKey * HookState * State :=
  match sessionKeysState hook !! conversationId with
  | Some cached => (Some cached, hook, st)
  | None =>
      match retrieveSessionKey now conversationId st with
      | (Returns (Some key), st') =>
          (Some key,
           mkHookState (<[conversationId := key]> (sessionKeysState hook))
                       (errorState hook) (isExchanging hook),
           st')
      | (Returns None, st') => (None, hook, st')
      | (Throws _, st') => (None, hook, st')
      end
  end.

(** [needsKeyExchange] *)
Definition needsKeyExchange (now : Z) (conversationId : string)
    (hook : HookState) (st : State) : bool * HookState * State :=
  let '(key, hook', st') := getSessionKey now conversationId hook st in
  (bool_decide (key = None), hook', st').

End KeyExchange.

(** ** The confirmation tag as the specification words it

    "confirmationTag = Hash("KEY_CONFIRMED" || sorted(peerId, selfId) ||
    timestamp)": the same string as [KeyExchange.confirmationData], with
    the two ids in sorted order. *)

Definition spec_confirmationData (peerId selfId : string) (timestamp : Z) : string :=
  let ids := sort2 peerId selfId in
  KeyExchange.confirmationData ids.1 ids.2 (Some timestamp).

Definition spec_confirmationTag (btoa : list byte -> string)
    (peerId selfId : string) (timestamp : Z) : string :=
  btoa (subtle_digest_SHA256 (utf8 (spec_confirmationData peerId selfId timestamp))).

(** ** A small instance of the platform

    Used to run the handshake on concrete inputs.  ECDH keys are natural
    numbers with the shared secret of [a] and [b] determined by [a * b]; an
    RSA key pair is a name, and a signature is the name followed by the
    signed bytes; base64 transport is the identity on bytes; the JSON
    printer does not escape (the examples use plain identifiers). *)

Module Toy.

Definition publicOf (privateKey : nat) : nat := privateKey.
Definition exportKey_spki (publicKey : nat) : list byte := repeat x41 publicKey.
Definition importKey_spki (data : list byte) : Outcome nat := Returns (length data).
Definition deriveBits (privateKey publicKey : nat) : list byte :=
  repeat x02 (privateKey * publicKey).

Definition sign (privateKey : string) (data : list byte) : list byte :=
  utf8 privateKey ++ [x00] ++ data.
Definition verify (publicKey : string) (signature data : list byte) : bool :=
  bool_decide (signature = utf8 publicKey ++ [x00] ++ data).
Definition importKey (keyBase64 : string) : Outcome string :=
  if truthy_string keyBase64 then Returns keyBase64
  else Throws (Error "Failed to import key: key is required").

Definition btoa (bytes : list byte) : string := string_of_list_byte bytes.
Definition atob (s : string) : Outcome (list byte) := Returns (list_byte_of_string s).

Definition dquote : string := String (ascii_of_nat 34) EmptyString.
Definition quoted (s : string) : string := dquote +:+ s +:+ dquote.
Definition property (name value : string) : string := quoted name +:+ ":" +:+ value.
Definition optional {A} (name : string) (print : A -> string) (value : option A)
    : list string :=
  match value with
  | Some v => [property name (print v)]
  | None => []
  end.

Definition JSON_stringify (m : Message.t) : string :=
  "{" +:+ String.concat ","
    ([property "type" (quoted (Message.type m));
      property "senderId" (quoted (Message.senderId m));
      property "receiverId" (quoted (Message.receiverId m))]
     ++ optional "conversationId" quoted (Message.conversationId m)
     ++ [property "ecdhPublicKey" (quoted (Message.ecdhPublicKey m))]
     ++ optional "timestamp" Z_to_string (Message.timestamp m)
     ++ optional "nonce" quoted (Message.nonce m)
     ++ optional "confirmationHash" quoted (Message.confirmationHash m)
     ++ [property "deviceInfo" (quoted (Message.deviceInfo m));
         property "appVersion" (quoted (Message.appVersion m))]
     ++ optional "signature" quoted (Message.signature m))
  +:+ "}".

#[export] Instance platform : KeyExchange.Platform := {|
  KeyExchange.ECPublic := nat;
  KeyExchange.ECPrivate := nat;
  KeyExchange.RSAPublic := string;
  KeyExchange.RSAPrivate := string;
  KeyExchange.subtle_exportKey_spki := exportKey_spki;
  KeyExchange.subtle_importKey_spki := importKey_spki;
  KeyExchange.subtle_deriveBits := deriveBits;
  KeyExchange.subtle_sign := sign;
  KeyExchange.subtle_verify := verify;
  KeyExchange.importPrivateKey := importKey;
  KeyExchange.importPublicKey := importKey;
  KeyExchange.btoa := btoa;
  KeyExchange.atob := atob;
  KeyExchange.JSON_stringify := JSON_stringify
|}.

(** The same instance with the real base64 encoder (no decoder: for
    computing tags only). *)
Definition platform_base64 : KeyExchange.Platform := {|
  KeyExchange.ECPublic := nat;
  KeyExchange.ECPrivate := nat;
  KeyExchange.RSAPublic := string;
  KeyExchange.RSAPrivate := string;
  KeyExchange.subtle_exportKey_spki := exportKey_spki;
  KeyExchange.subtle_importKey_spki := importKey_spki;
  KeyExchange.subtle_deriveBits := deriveBits;
  KeyExchange.subtle_sign := sign;
  KeyExchange.subtle_verify := verify;
  KeyExchange.importPrivateKey := importKey;
  KeyExchange.importPublicKey := importKey;
  KeyExchange.btoa := Base64.btoa;
  KeyExchange.atob := fun _ => Throws (DOMException "not provided");
  KeyExchange.JSON_stringify := JSON_stringify
|}.

End Toy.

(** ** Properties of the platform

    What the statements assume of the browser's primitives, each as a
    predicate on the platform that a statement can take as a hypothesis. *)

Section Laws.
Import KeyExchange.
Context {platform : Platform}.

(** [atob] inverts [btoa]. *)
Definition base64_round_trip : Prop :=
  forall bytes, atob (btoa bytes) = Returns bytes.

(** The two base64 strings are the halves of one RSA key pair: both import,
    a signature made with the private half verifies under the public half
    on the signed bytes, and its base64 form is a non-empty string. *)
Definition rsa_key_pair (privateKeyBase64 publicKeyBase64 : string) : Prop :=
  exists privateKey publicKey,
    importPrivateKey privateKeyBase64 = Returns privateKey /\
    importPublicKey publicKeyBase64 = Returns publicKey /\
    (forall data, subtle_verify publicKey (subtle_sign privateKey data) data = true) /\
    (forall data, truthy_string (btoa (subtle_sign privateKey data)) = true).

(** A signature made with the private half verifies under the public half
    on the signed bytes only. *)
Definition rsa_signature_binds (privateKeyBase64 publicKeyBase64 : string) : Prop :=
  exists privateKey publicKey,
    importPrivateKey privateKeyBase64 = Returns privateKey /\
    importPublicKey publicKeyBase64 = Returns publicKey /\
    (forall data data',
        subtle_verify publicKey (subtle_sign privateKey data) data' = true ->
        data' = data) /\
    (forall data, truthy_string (btoa (subtle_sign privateKey data)) = true).

(** An exported ECDH public key imports to the same key. *)
Definition spki_round_trip (publicKey : ECPublic) : Prop :=
  subtle_importKey_spki (subtle_exportKey_spki publicKey) = Returns publicKey.

(** Diffie-Hellman agreement of two key pairs: each private key with the
    other pair's public key gives the same bits. *)
Definition ecdh_agree (publicA : ECPublic) (privateA : ECPrivate)
    (publicB : ECPublic) (privateB : ECPrivate) : Prop :=
  subtle_deriveBits privateA publicB = subtle_deriveBits privateB publicA.

(** The base64 signature that an honest sender attaches to [content]. *)
Definition signatureBase64_of (privateKey : RSAPrivate) (content : Message.t) : string :=
  btoa (subtle_sign privateKey (utf8 (JSON_stringify content))).

End Laws.

(** ** Observations used in the statements *)

(** A 256-bit AES key. *)
Definition example_key : KeyExchange.CryptoKey := repeat x2a 32.

(** The nonce is in the set recorded for the conversation. *)
Definition nonce_recorded (st : ReplayProtection.State) (conversationId nonce : string)
    : bool :=
  match ReplayProtection.seenNonces st !! conversationId with
  | Some nonceSet => bool_decide (nonce ∈ nonceSet)
  | None => false
  end.

(** A replay-guard state in which sequence 200 has been accepted for the
    context "c1_alice" (conversation "c1", sender "alice"). *)
Definition state_after_200 : ReplayProtection.State :=
  (ReplayProtection.validateReplayProtection 1700000000000 "c1" (Some "nonce-1")
     (Some 1700000000000) (Some 200) None (Some "c1_alice")
     ReplayProtection.empty_state).2.

(** An Init envelope that omits its nonce and its timestamp. *)
Definition bare_init : Message.t :=
  Message.mk "KEY_EXCHANGE_INIT" "alice" "bob" (Some "c1") "QUFB" None None None
             "Mozilla" "1.0.0" (Some "c2lnbmF0dXJl").

(** The envelopes that the honest parties build, before signing. *)
Definition unsigned_init `{KeyExchange.Platform} (now : Z) (nonce userAgent : string)
    (ecdhPublicKey : KeyExchange.ECPublic) (receiverId senderId : string)
    (conversationId : option string) : Message.t :=
  Message.mk "KEY_EXCHANGE_INIT" senderId receiverId conversationId
             (KeyExchange.exportECDHPublicKey ecdhPublicKey) (Some now) (Some nonce)
             None (KeyExchange.deviceInfo_of userAgent) "1.0.0" None.

Definition unsigned_response `{KeyExchange.Platform} (now : Z) (nonce userAgent : string)
    (myECDHPublicKey : KeyExchange.ECPublic) (senderId receiverId : string)
    (conversationId : option string) : Message.t :=
  Message.mk "KEY_EXCHANGE_RESPONSE" receiverId senderId conversationId
             (KeyExchange.exportECDHPublicKey myECDHPublicKey) (Some now) (Some nonce)
             (Some (KeyExchange.confirmationHashBase64 receiverId senderId (Some now)))
             (KeyExchange.deviceInfo_of userAgent) "1.0.0" None.

(** The session key derived from a shared secret, two ids in the given
    order and a timestamp. *)
Definition derived_key (sharedSecret : list byte) (first second : string)
    (timestamp : Z) : KeyExchange.CryptoKey :=
  subtle_digest_SHA256
    (sharedSecret ++ utf8 first ++ utf8 second ++ utf8 (Z_to_string timestamp)).

(** ** A concrete handshake between "alice" (initiator) and "bob"
    (responder) on the small platform *)

Module Scenario.
Import KeyExchange.

Definition alicePrivateECDH : nat := 3.
Definition bobPrivateECDH : nat := 5.
Definition mallorysPrivateECDH : nat := 7.

(** The Init that alice builds, before signing, and the same content with
    the ephemeral public key replaced by mallory's. *)
Definition init_content : Message.t :=
  unsigned_init (H := Toy.platform) 1700000000000 "nonce-a" "Mozilla"
    (Toy.publicOf alicePrivateECDH) "bob" "alice" (Some "c1").

Definition tampered_init : Message.t :=
  Message.mk (Message.type init_content) (Message.senderId init_content)
    (Message.receiverId init_content) (Message.conversationId init_content)
    (exportECDHPublicKey (platform := Toy.platform) (Toy.publicOf mallorysPrivateECDH))
    (Message.timestamp init_content) (Message.nonce init_content)
    (Message.confirmationHash init_content) (Message.deviceInfo init_content)
    (Message.appVersion init_content)
    (Some (signatureBase64_of (platform := Toy.platform) "alice-rsa" init_content)).

(** A Response that bob signs although its confirmation hash is not the
    expected one. *)
Definition wrong_tag_content : Message.t :=
  Message.mk "KEY_EXCHANGE_RESPONSE" "bob" "alice" (Some "c1")
    (exportECDHPublicKey (platform := Toy.platform) (Toy.publicOf bobPrivateECDH))
    (Some 1700000000200) (Some "nonce-b") (Some "bogus") "Mozilla" "1.0.0" None.

Definition wrong_tag_response : Message.t :=
  Message.with_signature wrong_tag_content
    (signatureBase64_of (platform := Toy.platform) "bob-rsa" wrong_tag_content).

End Scenario.

(** A call of [validateReplayProtection]. *)
Record Call : Type := mkCall {
  call_now : Z;
  call_conversationId : string;
  call_nonce : option string;
  call_timestamp : option Z;
  call_sequenceNumber : option Z;
  call_messageId : option string;
  call_sequenceContextId : option string
}.

Definition run_call (c : Call) (st : ReplayProtection.State)
    : Outcome ReplayProtection.Validation * ReplayProtection.State :=
  ReplayProtection.validateReplayProtection (call_now c) (call_conversationId c)
    (call_nonce c) (call_timestamp c) (call_sequenceNumber c) (call_messageId c)
    (call_sequenceContextId c) st.

(** The state after a series of calls, whatever each of them answered. *)
Definition run_calls (calls : list Call) (st : ReplayProtection.State)
    : ReplayProtection.State :=
  fold_left (fun st c => (run_call c st).2) calls st.

(** The context under which a call's sequence number is tracked:
    [sequenceContextId || conversationId]. *)
Definition sequence_context (c : Call) : string :=
  or_string (call_sequenceContextId c) (call_conversationId c).

(** The sequence number is consumed for the context: it is in the
    context's history, or below the context's high-water mark by more than
    the window. *)
Definition sequence_consumed (st : ReplayProtection.State) (ctx : string) (n : Z)
    : Prop :=
  exists lastSequence,
    ReplayProtection.sequenceNumbers st !! ctx = Some lastSequence /\
    ((exists history, ReplayProtection.messageHistory st !! ctx = Some history /\
                      is_Some (history !! n)) \/
     n < lastSequence - ReplayProtection.SEQUENCE_WINDOW).

(** Every recorded sequence number of every context lies within 200
    below the context's high-water mark, and a context has a history
    exactly when it has a mark. *)
Definition sequence_state_ok (st : ReplayProtection.State) : Prop :=
  forall ctx,
    match ReplayProtection.sequenceNumbers st !! ctx,
          ReplayProtection.messageHistory st !! ctx with
    | Some lastSequence, Some history =>
        forall k, is_Some (history !! k) -> lastSequence - 200 <= k <= lastSequence
    | None, None => True
    | _, _ => False
    end.

(** No conversation keeps more than 1000 timestamps. *)
Definition timestamps_bounded (st : ReplayProtection.State) : Prop :=
  forall conversationId timestamps,
    ReplayProtection.seenTimestamps st !! conversationId = Some timestamps ->
    (length timestamps <= ReplayProtection.MAX_TIMESTAMPS_PER_CONVERSATION)%nat.

(** Calls used as examples: sequence number 200, then 500, for the
    context "c1_alice". *)
Definition call_200 : Call :=
  mkCall 1700000000000 "c1" (Some "nonce-1") (Some 1700000000000) (Some 200) None
         (Some "c1_alice").
Definition call_500 : Call :=
  mkCall 1700000000100 "c1" (Some "nonce-2") (Some 1700000000100) (Some 500) None
         (Some "c1_alice").
Definition call_200_again : Call :=
  mkCall 1700000000200 "c1" (Some "nonce-3") (Some 1700000000200) (Some 200)
         (Some "m-9") (Some "c1_alice").

(** A request to [sendMessage]: the clock readings and database answers of
    one run, the request body, the receiver of the route and the
    authenticated sender. *)
Record Request : Type := mkRequest {
  req_nowDefault : Z;
  req_nowValidate : Z;
  req_nowStored : Z;
  req_conversationId : string;
  req_newMessageId : string;
  req_body : MessageController.Body;
  req_receiverId : string;
  req_senderId : string
}.

Definition serve (r : Request) (st : MessageController.State)
    : MessageController.HttpResponse * MessageController.State :=
  MessageController.sendMessage (req_nowDefault r) (req_nowValidate r)
    (req_nowStored r) (req_conversationId r) (req_newMessageId r) (req_body r)
    (req_receiverId r) (req_senderId r) st.

(** The server state after a series of requests, whatever each of them was
    answered. *)
Definition serve_all (requests : list Request) (st : MessageController.State)
    : MessageController.State :=
  fold_left (fun st r => (serve r st).2) requests st.

(** An encrypted text message with a nonce, a timestamp and a sequence
    number. *)
Definition encrypted_body (nonce : string) (timestamp sequenceNumber : Z)
    : MessageController.Body :=
  MessageController.mkBody (Some "Y2lwaGVy") (Some "aXY=") (Some "dGFn") (Some "text")
    (Some sequenceNumber) (Some timestamp) (Some nonce) None None None None.


(** * Verification *)

(** ** Replay guard *)

Section ReplayGuard.
Import ReplayProtection.

Ltac run := unfold bind, ret, get, modify, throw, logReplayAttack; simpl.

Lemma validateNonce_recorded st conversationId nonce :
  truthy_string nonce = true ->
  nonce_recorded st conversationId nonce = true ->
  exists st',
    validateNonce conversationId nonce st = (Returns false, st') /\
    seenNonces st' = seenNonces st /\ seenTimestamps st' = seenTimestamps st /\
    sequenceNumbers st' = sequenceNumbers st /\ messageHistory st' = messageHistory st.
Proof.
  intros Hn Hrec. unfold nonce_recorded in Hrec. unfold validateNonce.
  rewrite Hn. destruct (truthy_string conversationId); simpl.
  - run. destruct (seenNonces st !! conversationId) as [nonceSet|] eqn:E; [|discriminate].
    simpl. rewrite E, Hrec. eauto 10.
  - eauto 10.
Qed.

Lemma validateNonce_fresh st conversationId nonce :
  truthy_string conversationId = true ->
  truthy_string nonce = true ->
  nonce_recorded st conversationId nonce = false ->
  exists st',
    validateNonce conversationId nonce st = (Returns true, st') /\
    nonce_recorded st' conversationId nonce = true /\
    seenTimestamps st' = seenTimestamps st /\
    sequenceNumbers st' = sequenceNumbers st /\ messageHistory st' = messageHistory st /\
    securityLog st' = securityLog st.
Proof.
  intros Hc Hn Hrec. unfold nonce_recorded in *. unfold validateNonce.
  rewrite Hc, Hn. simpl. run.
  destruct (seenNonces st !! conversationId) as [nonceSet|] eqn:E; simpl.
  - rewrite E, Hrec. eexists; split; [reflexivity|]. simpl.
    rewrite lookup_insert_eq. repeat split; auto.
    apply bool_decide_eq_true. set_solver.
  - rewrite lookup_insert_eq. rewrite bool_decide_eq_false_2 by set_solver.
    eexists; split; [reflexivity|]. simpl.
    rewrite lookup_insert_eq. repeat split; auto.
    apply bool_decide_eq_true. set_solver.
Qed.

Lemma validateTimestamp_out_of_tolerance now st conversationId t :
  Z.abs (now - t) > TIMESTAMP_TOLERANCE ->
  exists st',
    validateTimestamp now conversationId t st = (Returns false, st') /\
    seenNonces st' = seenNonces st /\ seenTimestamps st' = seenTimestamps st /\
    sequenceNumbers st' = sequenceNumbers st /\ messageHistory st' = messageHistory st.
Proof.
  intros Habs. unfold validateTimestamp.
  destruct (negb (truthy_string conversationId) || negb (truthy_number t)); [eauto 10|].
  simpl. destruct (t >? now + TIMESTAMP_TOLERANCE) eqn:Hfuture; [run; eauto 10|].
  destruct (t <? now - TIMESTAMP_TOLERANCE) eqn:Hold; [run; eauto 10|].
  exfalso. rewrite Z.gtb_ltb in Hfuture.
  apply Z.ltb_ge in Hfuture. apply Z.ltb_ge in Hold. lia.
Qed.

(** The periodic cleanup keeps a recorded nonce as long as the
    conversation has at most 10000 of them. *)
Lemma cleanupNonces_keeps_recorded st conversationId nonce nonceSet :
  seenNonces st !! conversationId = Some nonceSet ->
  Z.of_nat (size nonceSet) <= 10000 ->
  nonce_recorded (cleanupNonces st) conversationId nonce
  = nonce_recorded st conversationId nonce.
Proof.
  intros Hget Hsize. unfold nonce_recorded, cleanupNonces. simpl.
  rewrite lookup_fmap, Hget. simpl.
  destruct (Z.of_nat (size nonceSet) >? 10000) eqn:E; [|reflexivity].
  rewrite Z.gtb_ltb in E. apply Z.ltb_lt in E. lia.
Qed.

(** C3.  The nonce check runs first.  A call whose non-empty nonce is
    already recorded for the conversation is rejected with the nonce reason
    whatever its timestamp and sequence number are, and the timestamp and
    sequence state is not touched; a call with a fresh nonce records it,
    whatever the later checks decide. *)
Theorem replayed_nonce_rejected :
  forall now st conversationId nonce timestamp sequenceNumber messageId
         sequenceContextId,
    truthy_string nonce = true ->
    (nonce_recorded st conversationId nonce = true ->
     exists st',
       validateReplayProtection now conversationId (Some nonce) timestamp
         sequenceNumber messageId sequenceContextId st
       = (Returns (Rejected reason_nonce), st') /\
       seenNonces st' = seenNonces st /\ seenTimestamps st' = seenTimestamps st /\
       sequenceNumbers st' = sequenceNumbers st /\
       messageHistory st' = messageHistory st) /\
    (truthy_string conversationId = true ->
     nonce_recorded st conversationId nonce = false ->
     nonce_recorded
       (validateReplayProtection now conversationId (Some nonce) timestamp
          sequenceNumber messageId sequenceContextId st).2
       conversationId nonce = true).
Proof.
  intros now st conv nonce ts seq mid sctx Hn. split.
  - intros Hrec.
    destruct (validateNonce_recorded st conv nonce Hn Hrec) as (st' & Hv & Hst).
    exists st'. split; [|exact Hst].
    unfold validateReplayProtection. rewrite Hn. unfold bind at 1. rewrite Hv.
    reflexivity.
  - intros Hc Hfresh.
    destruct (validateNonce_fresh st conv nonce Hc Hn Hfresh)
      as (st' & Hv & Hrec & _).
    assert (Hkeep : forall (m : M State Validation),
               (forall s, seenNonces (m s).2 = seenNonces s) ->
               nonce_recorded (m st').2 conv nonce = true).
    { intros m Hm. unfold nonce_recorded in *. rewrite Hm. exact Hrec. }
    unfold validateReplayProtection. rewrite Hn. unfold bind at 1. rewrite Hv.
    simpl negb. cbv iota. apply Hkeep. clear. intros s.
    assert (Hts : forall t s0, seenNonces (validateTimestamp now conv t s0).2
                               = seenNonces s0).
    { intros t s0. unfold validateTimestamp.
      destruct (negb (truthy_string conv) || negb (truthy_number t)); [reflexivity|].
      simpl. destruct (t >? _); [reflexivity|]. destruct (t <? _); [reflexivity|].
      run. destruct (seenTimestamps s0 !! conv) eqn:E; simpl.
      - rewrite E. reflexivity.
      - rewrite lookup_insert_eq. reflexivity. }
    assert (Hseq : forall c q s0, seenNonces (validateSequenceNumber c q mid s0).2
                                  = seenNonces s0).
    { intros c q s0. unfold validateSequenceNumber. destruct q as [q|]; [|reflexivity].
      destruct (negb (truthy_string c)); [reflexivity|]. run.
      destruct (sequenceNumbers s0 !! c) eqn:E; simpl.
      - rewrite E. destruct (messageHistory s0 !! c); [|reflexivity].
        destruct (bool_decide _); [reflexivity|].
        destruct (q <? _); [reflexivity|]. destruct (q >? _); reflexivity.
      - rewrite !lookup_insert_eq.
        destruct (bool_decide _); [reflexivity|].
        destruct (q <? _); [reflexivity|]. destruct (q >? _); reflexivity. }
    unfold bind.
    destruct ts as [t|]; simpl.
    + destruct (truthy_number t).
      * specialize (Hts t s). destruct (validateTimestamp now conv t s) as [[[]|] s1];
          simpl in *; auto.
        destruct seq as [q|]; [|exact Hts]. rewrite <- Hts.
        match goal with |- context [validateSequenceNumber ?c ?q mid s1] =>
          specialize (Hseq c q s1);
          destruct (validateSequenceNumber c q mid s1) as [[[]|] s2] end; exact Hseq.
      * destruct seq as [q|]; [|reflexivity]. cbv beta iota delta [ret negb].
        match goal with |- context [validateSequenceNumber ?c ?q mid s] =>
          specialize (Hseq c q s);
          destruct (validateSequenceNumber c q mid s) as [[[]|] s2] end; exact Hseq.
    + destruct seq as [q|]; [|reflexivity]. cbv beta iota delta [ret negb].
      match goal with |- context [validateSequenceNumber ?c ?q mid s] =>
        specialize (Hseq c q s);
        destruct (validateSequenceNumber c q mid s) as [[[]|] s2] end; exact Hseq.
Qed.

Lemma validateNonce_no_conversation st conversationId nonce :
  truthy_string conversationId = false ->
  validateNonce conversationId nonce st = (Returns false, st).
Proof. intros Hc. unfold validateNonce. rewrite Hc. reflexivity. Qed.

(** C7.  A non-zero timestamp further than the tolerance window from the
    clock, in the past or in the future, makes the call a rejection; the
    sequence state is not reached.  When the conversation id is non-empty
    and the nonce is absent, empty or fresh, the reason is the timestamp
    reason. *)
Theorem timestamp_outside_window_rejected :
  forall now st conversationId nonce t sequenceNumber messageId sequenceContextId,
    t <> 0 ->
    Z.abs (now - t) > TIMESTAMP_TOLERANCE ->
    exists r st',
      validateReplayProtection now conversationId nonce (Some t) sequenceNumber
        messageId sequenceContextId st
      = (Returns (Rejected r), st') /\
      seenTimestamps st' = seenTimestamps st /\
      sequenceNumbers st' = sequenceNumbers st /\
      messageHistory st' = messageHistory st /\
      (truthy_string conversationId = true ->
       (forall n, nonce = Some n -> nonce_recorded st conversationId n = false) ->
       r = reason_timestamp).
Proof.
  intros now st conv nonce t seq mid sctx Ht Habs.
  assert (Htruthy : truthy_number t = true).
  { unfold truthy_number. apply negb_true_iff, Z.eqb_neq. exact Ht. }
  assert (Hskip : forall st0,
             seenTimestamps st0 = seenTimestamps st ->
             sequenceNumbers st0 = sequenceNumbers st ->
             messageHistory st0 = messageHistory st ->
             exists st',
               (timestampOk <- validateTimestamp now conv t ;;
                if negb timestampOk then ret (Rejected reason_timestamp)
                else
                  match seq with
                  | None => ret Accepted
                  | Some _ =>
                      let ctx := match sctx with
                                 | Some c => if truthy_string c then c else conv
                                 | None => conv
                                 end in
                      sequenceOk <- validateSequenceNumber ctx seq mid ;;
                      if negb sequenceOk then ret (Rejected reason_sequence)
                      else ret Accepted
                  end)%js st0
               = (Returns (Rejected reason_timestamp), st') /\
               seenTimestamps st' = seenTimestamps st /\
               sequenceNumbers st' = sequenceNumbers st /\
               messageHistory st' = messageHistory st).
  { intros st0 H1 H2 H3.
    destruct (validateTimestamp_out_of_tolerance now st0 conv t Habs)
      as (st' & Hv & _ & E1 & E2 & E3).
    exists st'. unfold bind at 1. rewrite Hv. simpl.
    repeat split; congruence. }
  unfold validateReplayProtection. rewrite Htruthy.
  destruct nonce as [n|].
  - destruct (truthy_string n) eqn:Hn.
    + destruct (nonce_recorded st conv n) eqn:Hrec.
      * destruct (validateNonce_recorded st conv n Hn Hrec)
          as (st' & Hv & _ & E1 & E2 & E3).
        exists reason_nonce, st'. unfold bind at 1. rewrite Hv. simpl.
        repeat split; auto. intros _ Hfresh.
        specialize (Hfresh n eq_refl). congruence.
      * destruct (truthy_string conv) eqn:Hc.
        -- destruct (validateNonce_fresh st conv n Hc Hn Hrec)
             as (st1 & Hv & _ & E1 & E2 & E3 & _).
           destruct (Hskip st1 E1 E2 E3) as (st' & Hrun & F).
           exists reason_timestamp, st'. unfold bind at 1. rewrite Hv.
           simpl negb. cbv iota. split; [exact Hrun|]. tauto.
        -- exists reason_nonce, st. unfold bind at 1.
           rewrite (validateNonce_no_conversation st conv n Hc). simpl.
           repeat split; auto. discriminate.
    + destruct (Hskip st eq_refl eq_refl eq_refl) as (st' & Hrun & F).
      exists reason_timestamp, st'. unfold bind at 1. unfold ret at 1.
      simpl negb. cbv iota. split; [exact Hrun|]. tauto.
  - destruct (Hskip st eq_refl eq_refl eq_refl) as (st' & Hrun & F).
    exists reason_timestamp, st'. unfold bind at 1. unfold ret at 1.
    simpl negb. cbv iota. split; [exact Hrun|]. tauto.
Qed.

(** The defect behind C6: a sequence number that was not seen before and
    lies below the high-water mark minus the window makes
    [validateSequenceNumber] raise a ReferenceError. *)
Lemma validateSequenceNumber_below_window st sequenceContextId sequenceNumber
    messageId lastSequence history :
  truthy_string sequenceContextId = true ->
  sequenceNumbers st !! sequenceContextId = Some lastSequence ->
  messageHistory st !! sequenceContextId = Some history ->
  history !! sequenceNumber = None ->
  sequenceNumber < lastSequence - SEQUENCE_WINDOW ->
  validateSequenceNumber sequenceContextId (Some sequenceNumber) messageId st
  = (Throws (ReferenceError "conversationId"), st).
Proof.
  intros Hc Hlast Hhist Hnew Hlow. unfold validateSequenceNumber.
  rewrite Hc. simpl. run. rewrite Hlast. simpl. rewrite Hlast, Hhist, Hnew.
  rewrite bool_decide_eq_false_2 by (intros [? ?]; discriminate).
  apply Z.ltb_lt in Hlow. rewrite Hlow. reflexivity.
Qed.

(** C6 (evaluation at the failing input).  After sequence number 200 was
    accepted for the context "c1_alice", a message with the unseen
    sequence number 50 does not get a rejection: the call raises. *)
Theorem sequence_below_window_raises :
  sequenceNumbers state_after_200 !! "c1_alice" = Some 200 /\
  (validateReplayProtection 1700000000001 "c1" (Some "nonce-2")
     (Some 1700000000001) (Some 50) None (Some "c1_alice") state_after_200).1
  = Throws (ReferenceError "conversationId").
Proof. split; vm_compute; reflexivity. Qed.

Lemma validateTimestamp_within_tolerance now st conversationId t :
  truthy_string conversationId = true ->
  t <> 0 ->
  Z.abs (now - t) <= TIMESTAMP_TOLERANCE ->
  exists st',
    validateTimestamp now conversationId t st = (Returns true, st') /\
    seenNonces st' = seenNonces st /\
    sequenceNumbers st' = sequenceNumbers st /\ messageHistory st' = messageHistory st.
Proof.
  intros Hc Ht Habs. unfold validateTimestamp, truthy_number. rewrite Hc.
  apply Z.eqb_neq in Ht. rewrite Ht. simpl.
  assert (Hf : (t >? now + TIMESTAMP_TOLERANCE) = false).
  { rewrite Z.gtb_ltb. apply Z.ltb_ge. lia. }
  assert (Ho : (t <? now - TIMESTAMP_TOLERANCE) = false).
  { apply Z.ltb_ge. lia. }
  rewrite Hf, Ho. run.
  destruct (seenTimestamps st !! conversationId) eqn:E; simpl.
  - rewrite E. eauto 10.
  - rewrite lookup_insert_eq. eauto 10.
Qed.

Lemma validateReplayProtection_all_skipped now st conversationId nonce timestamp
    messageId sequenceContextId :
  truthy_opt truthy_string nonce = false ->
  truthy_opt truthy_number timestamp = false ->
  validateReplayProtection now conversationId nonce timestamp None messageId
    sequenceContextId st
  = (Returns Accepted, st).
Proof.
  intros Hn Ht. unfold validateReplayProtection.
  destruct nonce as [n|]; simpl in Hn; [rewrite Hn|];
    (destruct timestamp as [t|]; simpl in Ht; [rewrite Ht|]); reflexivity.
Qed.

(** C3 on concrete inputs: the nonce of the accepted message of [state_after_200],
    replayed with a stale timestamp, and a fresh nonce sent with it. *)
Lemma replayed_nonce_rejected_witness :
  truthy_string "nonce-1" = true /\
  nonce_recorded state_after_200 "c1" "nonce-1" = true /\
  (exists st',
     validateReplayProtection 1700000000500 "c1" (Some "nonce-1") (Some 5)
       (Some 201) None (Some "c1_alice") state_after_200
     = (Returns (Rejected reason_nonce), st') /\
     seenNonces st' = seenNonces state_after_200 /\
     seenTimestamps st' = seenTimestamps state_after_200 /\
     sequenceNumbers st' = sequenceNumbers state_after_200 /\
     messageHistory st' = messageHistory state_after_200) /\
  truthy_string "c1" = true /\
  nonce_recorded state_after_200 "c1" "nonce-9" = false /\
  nonce_recorded
    (validateReplayProtection 1700000000500 "c1" (Some "nonce-9") (Some 5)
       (Some 201) None (Some "c1_alice") state_after_200).2
    "c1" "nonce-9" = true.
Proof.
  split; [reflexivity|]. split; [vm_compute; reflexivity|]. split.
  - apply (replayed_nonce_rejected 1700000000500 state_after_200 "c1" "nonce-1"
             (Some 5) (Some 201) None (Some "c1_alice") eq_refl).
    vm_compute; reflexivity.
  - split; [reflexivity|]. split; [vm_compute; reflexivity|].
    apply (replayed_nonce_rejected 1700000000500 state_after_200 "c1" "nonce-9"
             (Some 5) (Some 201) None (Some "c1_alice") eq_refl).
    + reflexivity.
    + vm_compute; reflexivity.
Defined.

(** C7 on concrete inputs: a fresh nonce with a timestamp ten minutes old. *)
Lemma timestamp_outside_window_rejected_witness :
  1699999400000 <> 0 /\
  Z.abs (1700000000000 - 1699999400000) > TIMESTAMP_TOLERANCE /\
  exists r st',
    validateReplayProtection 1700000000000 "c1" (Some "nonce-9")
      (Some 1699999400000) None None None state_after_200
    = (Returns (Rejected r), st') /\
    seenTimestamps st' = seenTimestamps state_after_200 /\
    sequenceNumbers st' = sequenceNumbers state_after_200 /\
    messageHistory st' = messageHistory state_after_200 /\
    (truthy_string "c1" = true ->
     (forall n, Some "nonce-9" = Some n ->
                nonce_recorded state_after_200 "c1" n = false) ->
     r = reason_timestamp).
Proof.
  assert (H1 : 1699999400000 <> 0) by discriminate.
  assert (H2 : Z.abs (1700000000000 - 1699999400000) > TIMESTAMP_TOLERANCE)
    by reflexivity.
  split; [exact H1|]. split; [exact H2|].
  exact (timestamp_outside_window_rejected 1700000000000 state_after_200 "c1"
           (Some "nonce-9") 1699999400000 None None None H1 H2).
Defined.

End ReplayGuard.

(** ** Key-exchange endpoints *)

Section Endpoints.
Import ReplayProtection.

Lemma truthy_joined a b : truthy_string (a +:+ "_" +:+ b) = true.
Proof. destruct a; reflexivity. Qed.

Lemma truthy_or_string a b :
  truthy_string b = true -> truthy_string (or_string a b) = true.
Proof.
  intros Hb. unfold or_string. destruct a as [s|]; [|exact Hb].
  destruct (truthy_string s) eqn:E; [exact E|exact Hb].
Qed.

(** The replay validation that both endpoints run on an envelope without
    nonce: it accepts whenever the two clock readings are within the
    tolerance, and leaves the nonce sets alone. *)
Lemma endpoint_validation_accepts nowDefault nowValidate conversationId timestamp st :
  truthy_string conversationId = true ->
  truthy_opt truthy_number timestamp = false ->
  Z.abs (nowValidate - nowDefault) <= TIMESTAMP_TOLERANCE ->
  exists st',
    validateReplayProtection nowValidate conversationId None
      (Some (or_number timestamp nowDefault)) None None None st
    = (Returns Accepted, st') /\
    seenNonces st' = seenNonces st.
Proof.
  intros Hc Ht Hclock.
  assert (Hdef : or_number timestamp nowDefault = nowDefault).
  { unfold or_number. destruct timestamp as [t|]; simpl in Ht; [rewrite Ht|]; reflexivity. }
  rewrite Hdef. unfold validateReplayProtection.
  destruct (truthy_number nowDefault) eqn:Hnow.
  - assert (Hnz : nowDefault <> 0).
    { unfold truthy_number in Hnow. apply negb_true_iff, Z.eqb_neq in Hnow. exact Hnow. }
    destruct (validateTimestamp_within_tolerance nowValidate st conversationId
                nowDefault Hc Hnz Hclock) as (st' & Hv & E & _).
    exists st'. unfold bind, ret. cbv beta iota delta [negb]. rewrite Hv. auto.
  - exists st. split; reflexivity.
Qed.

(** C9.  With a missing or empty nonce, a missing or zero timestamp and no
    sequence number, [validateReplayProtection] answers [{valid: true}]
    and changes nothing.  Both key-exchange endpoints accept (status 200)
    and store an envelope that omits its nonce and its timestamp: no nonce
    is checked or recorded, and the omitted timestamp is replaced by the
    server's own clock reading. *)
Theorem omitted_nonce_and_timestamp_accepted :
  (forall now st conversationId nonce timestamp messageId sequenceContextId,
     truthy_opt truthy_string nonce = false ->
     truthy_opt truthy_number timestamp = false ->
     validateReplayProtection now conversationId nonce timestamp None messageId
       sequenceContextId st
     = (Returns Accepted, st)) /\
  (forall nowDefault nowValidate nowStore message authUserId st,
     Message.senderId message = authUserId ->
     Message.nonce message = None ->
     Message.timestamp message = None ->
     Z.abs (nowValidate - nowDefault) <= TIMESTAMP_TOLERANCE ->
     (Message.type message = "KEY_EXCHANGE_INIT" ->
      exists conversationId exchange st',
        Controller.initiateKeyExchange nowDefault nowValidate nowStore message
          authUserId st
        = (Controller.mkResponse 200 None (Some conversationId), st') /\
        Controller.keyExchangeStore st' !! conversationId = Some exchange /\
        Controller.init exchange = Some message /\
        seenNonces (Controller.replay st') = seenNonces (Controller.replay st)) /\
     (Message.type message = "KEY_EXCHANGE_RESPONSE" ->
      exists conversationId exchange st',
        Controller.respondToKeyExchange nowDefault nowValidate nowStore message
          authUserId st
        = (Controller.mkResponse 200 None (Some conversationId), st') /\
        Controller.keyExchangeStore st' !! conversationId = Some exchange /\
        Controller.response exchange = Some message /\
        seenNonces (Controller.replay st') = seenNonces (Controller.replay st))).
Proof.
  split.
  - intros. apply validateReplayProtection_all_skipped; assumption.
  - intros nowDefault nowValidate nowStore message user st Hsender Hnonce Hts Hclock.
    split; intros Htype.
    + unfold Controller.initiateKeyExchange.
      rewrite Htype, Hsender, Hnonce, Hts, !String.eqb_refl. simpl.
      set (conv := or_string (Message.conversationId message)
                     (user +:+ "_" +:+ Message.receiverId message)).
      assert (Hc : truthy_string conv = true)
        by (apply truthy_or_string, truthy_joined).
      destruct (endpoint_validation_accepts nowDefault nowValidate conv None
                  (Controller.replay st) Hc eq_refl Hclock) as (rp & Hv & E).
      simpl in Hv. rewrite Hv. simpl.
      eexists conv, _, _. split; [reflexivity|]. simpl.
      rewrite lookup_insert_eq. repeat split; auto.
    + unfold Controller.respondToKeyExchange.
      rewrite Htype, Hsender, Hnonce, Hts, !String.eqb_refl. simpl.
      set (conv := or_string (Message.conversationId message)
                     (Message.receiverId message +:+ "_" +:+ user)).
      assert (Hc : truthy_string conv = true)
        by (apply truthy_or_string, truthy_joined).
      destruct (endpoint_validation_accepts nowDefault nowValidate conv None
                  (Controller.replay st) Hc eq_refl Hclock) as (rp & Hv & E).
      simpl in Hv. rewrite Hv. simpl.
      eexists conv, _, _. split; [reflexivity|]. simpl.
      rewrite lookup_insert_eq. repeat split; auto.
Qed.

(** C9 on concrete inputs: an Init envelope of "alice" for "bob" without nonce and
    timestamp, posted to a server whose replay guard is [state_after_200]. *)
Lemma omitted_nonce_and_timestamp_accepted_witness :
  validateReplayProtection 1700000000000 "c1" (Some "") (Some 0) None None None
    state_after_200
  = (Returns Accepted, state_after_200) /\
  exists conversationId exchange st',
    Controller.initiateKeyExchange 1700000000000 1700000000001 1700000000002
      bare_init "alice" (Controller.mkState state_after_200 ∅)
    = (Controller.mkResponse 200 None (Some conversationId), st') /\
    Controller.keyExchangeStore st' !! conversationId = Some exchange /\
    Controller.init exchange = Some bare_init /\
    seenNonces (Controller.replay st') = seenNonces state_after_200.
Proof.
  split.
  - apply (proj1 omitted_nonce_and_timestamp_accepted); reflexivity.
  - apply (proj2 omitted_nonce_and_timestamp_accepted 1700000000000 1700000000001
             1700000000002 bare_init "alice"
             (Controller.mkState state_after_200 ∅));
      try reflexivity.
    vm_compute. discriminate.
Defined.

End Endpoints.

(** ** Session-key store *)

Section SessionStore.
Import KeyExchange.

Lemma storeSessionKey_run now1 now2 conversationId sessionKey timestamp st :
  storeSessionKey now1 now2 conversationId sessionKey timestamp st
  = (Returns true,
     set_sessionKeys
       <[storeKey conversationId :=
           mkKeyData sessionKey (or_number timestamp now1)
                     (or_number timestamp now2 + SESSION_KEY_EXPIRY)]> st).
Proof. reflexivity. Qed.

(** What [retrieveSessionKey] does with a stored record whose expiry is
    set. *)
Lemma retrieveSessionKey_stored now conversationId st data :
  sessionKeys st !! storeKey conversationId = Some data ->
  expiresAt data <> 0 ->
  importKey_raw_AES (key data) = Returns (key data) ->
  retrieveSessionKey now conversationId st
  = if now >? expiresAt data
    then (Returns None, set_sessionKeys (delete (storeKey conversationId)) st)
    else (Returns (Some (key data)), st).
Proof.
  intros Hget Hexp Himport. unfold retrieveSessionKey, bind, get, modify, ret.
  rewrite Hget. unfold truthy_number.
  apply Z.eqb_neq in Hexp. rewrite Hexp. simpl.
  destruct (now >? expiresAt data); [reflexivity|]. rewrite Himport. reflexivity.
Qed.

(** C5.  A session key stored with creation time [createdAt] (the
    handshake timestamp, or the clock when none is given; a time since the
    epoch, so not negative) is returned by [retrieveSessionKey] at every
    instant up to and including [createdAt + SESSION_KEY_EXPIRY]; at any
    later instant the answer is null and the record is deleted. *)
Theorem session_key_expires_after_ttl :
  forall now1 now2 conversationId (sessionKey : CryptoKey) timestamp st now,
    let createdAt := or_number timestamp now1 in
    let stored := (storeSessionKey now1 now2 conversationId sessionKey timestamp st).2 in
    or_number timestamp now2 = createdAt ->
    0 <= createdAt ->
    importKey_raw_AES sessionKey = Returns sessionKey ->
    (KeyExchange.timestamp <$> sessionKeys stored !! storeKey conversationId)
    = Some createdAt /\
    (now > createdAt + SESSION_KEY_EXPIRY ->
     retrieveSessionKey now conversationId stored
     = (Returns None, set_sessionKeys (delete (storeKey conversationId)) stored) /\
     sessionKeys (retrieveSessionKey now conversationId stored).2
       !! storeKey conversationId = None) /\
    (now <= createdAt + SESSION_KEY_EXPIRY ->
     retrieveSessionKey now conversationId stored = (Returns (Some sessionKey), stored)).
Proof.
  intros now1 now2 conv k ts st now createdAt stored Hsame Hpos Hvalid.
  subst stored. rewrite storeSessionKey_run. cbn [snd]. fold createdAt.
  set (data := mkKeyData k createdAt (or_number ts now2 + SESSION_KEY_EXPIRY)).
  set (st1 := set_sessionKeys _ st).
  assert (Hget : sessionKeys st1 !! storeKey conv = Some data)
    by (subst st1; simpl; apply lookup_insert_eq).
  assert (Hexp : expiresAt data = createdAt + SESSION_KEY_EXPIRY)
    by (simpl; rewrite Hsame; reflexivity).
  assert (Hnz : expiresAt data <> 0)
    by (rewrite Hexp; unfold SESSION_KEY_EXPIRY; lia).
  pose proof (retrieveSessionKey_stored now conv st1 data Hget Hnz Hvalid) as Hr.
  rewrite Hexp in Hr. split; [rewrite Hget; reflexivity|]. split.
  - intros Hlate. apply Z.gt_lt, Z.gtb_lt in Hlate. rewrite Hlate in Hr.
    rewrite Hr. split; [reflexivity|]. simpl. apply lookup_delete_eq.
  - intros Hearly. destruct (now >? createdAt + SESSION_KEY_EXPIRY) eqn:E.
    + apply Z.gtb_lt in E. lia.
    + exact Hr.
Qed.

(** C5 on concrete inputs: a 256-bit key stored at the handshake timestamp
    1700000000000, read back at the last valid instant and one
    millisecond later. *)
Lemma session_key_expires_after_ttl_witness :
  or_number (Some 1700000000000) 1700000000007 = or_number (Some 1700000000000) 1700000000005 /\
  0 <= or_number (Some 1700000000000) 1700000000005 /\
  importKey_raw_AES example_key = Returns example_key /\
  retrieveSessionKey (1700000000000 + SESSION_KEY_EXPIRY) "c1"
    (storeSessionKey 1700000000005 1700000000007 "c1" example_key
       (Some 1700000000000) empty_state).2
  = (Returns (Some example_key),
     (storeSessionKey 1700000000005 1700000000007 "c1" example_key
        (Some 1700000000000) empty_state).2) /\
  sessionKeys
    (retrieveSessionKey (1700000000000 + SESSION_KEY_EXPIRY + 1) "c1"
       (storeSessionKey 1700000000005 1700000000007 "c1" example_key
          (Some 1700000000000) empty_state).2).2
    !! storeKey "c1" = None.
Proof.
  assert (H1 : or_number (Some 1700000000000) 1700000000007
               = or_number (Some 1700000000000) 1700000000005) by reflexivity.
  assert (H2 : 0 <= or_number (Some 1700000000000) 1700000000005)
    by (vm_compute; discriminate).
  assert (H3 : importKey_raw_AES example_key = Returns example_key) by reflexivity.
  split; [exact H1|]. split; [exact H2|]. split; [exact H3|]. split.
  - apply (session_key_expires_after_ttl 1700000000005 1700000000007 "c1"
             example_key (Some 1700000000000) empty_state
             (1700000000000 + SESSION_KEY_EXPIRY) H1 H2 H3).
    vm_compute; discriminate.
  - apply (session_key_expires_after_ttl 1700000000005 1700000000007 "c1"
             example_key (Some 1700000000000) empty_state
             (1700000000000 + SESSION_KEY_EXPIRY + 1) H1 H2 H3).
    vm_compute; reflexivity.
Defined.

End SessionStore.

(** ** SHA-256 and base64: test vectors *)

Example sha256_constants :
  nth 0 SHA256.K 0 = 0x428a2f98 /\ nth 63 SHA256.K 0 = 0xc67178f2 /\
  SHA256.ha SHA256.H0 = 0x6a09e667 /\ SHA256.hh SHA256.H0 = 0x5be0cd19.
Proof. repeat split. Qed.

(** FIPS 180-4 examples: the empty message, "abc" (one block) and the
    56-byte message (two blocks), shown in base64. *)
Example sha256_empty :
  Base64.btoa (SHA256.digest []) = "47DEQpj8HBSa+/TImW+5JCeuQeRkm5NMpJWZG3hSuFU=".
Proof. vm_compute. reflexivity. Qed.

Example sha256_abc :
  Base64.btoa (SHA256.digest (utf8 "abc"))
  = "ungWv48Bz+pBQUDeXa4iI7ADYaOWF3qctBD/YfIAFa0=".
Proof. vm_compute. reflexivity. Qed.

Example sha256_two_blocks :
  Base64.btoa (SHA256.digest
                 (utf8 "abcdbcdecdefdefgefghfghighijhijkijkljklmklmnlmnomnopnopq"))
  = "JI1qYdIGOLjlwCaTDD5gOaM85Flk/yFn9uzt1BnbBsE=".
Proof. vm_compute. reflexivity. Qed.

Lemma digest_length data : length (subtle_digest_SHA256 data) = 32%nat.
Proof. reflexivity. Qed.

Lemma digest_is_aes_key data :
  KeyExchange.importKey_raw_AES (subtle_digest_SHA256 data)
  = Returns (subtle_digest_SHA256 data).
Proof.
  unfold KeyExchange.importKey_raw_AES. rewrite digest_length. reflexivity.
Qed.

(** ** Handshake *)

Section HandshakeProofs.
Import KeyExchange.
Context {platform : Platform}.

Lemma sort2_swap a b : sort2 a b = sort2 b a.
Proof.
  unfold sort2, String.ltb. rewrite (String.compare_antisym b a).
  destruct (String.compare a b) eqn:E; simpl; try reflexivity.
  apply String.compare_eq_iff in E. subst. reflexivity.
Qed.

Lemma utf8_inj a b : utf8 a = utf8 b -> a = b.
Proof.
  unfold utf8. intros H. apply (f_equal string_of_list_byte) in H.
  rewrite !string_of_list_byte_of_string in H. exact H.
Qed.

Lemma signData_returns privateKeyBase64 privateKey data :
  importPrivateKey privateKeyBase64 = Returns privateKey ->
  signData privateKeyBase64 data = Returns (subtle_sign privateKey (utf8 data)).
Proof. intros H. unfold signData. rewrite H. reflexivity. Qed.

Lemma deriveSessionKeySHA256_returns sharedSecret senderId receiverId t :
  deriveSessionKeySHA256 sharedSecret senderId receiverId (Some t)
  = Returns (derived_key sharedSecret senderId receiverId t).
Proof.
  unfold deriveSessionKeySHA256, derived_key, obind, rethrow.
  rewrite digest_is_aes_key. reflexivity.
Qed.

Lemma importECDHPublicKey_exported publicKey :
  base64_round_trip -> spki_round_trip publicKey ->
  importECDHPublicKey (exportECDHPublicKey publicKey) = Returns publicKey.
Proof.
  intros Hb Hk. unfold importECDHPublicKey, exportECDHPublicKey, obind.
  rewrite Hb, Hk. reflexivity.
Qed.

Lemma createKeyExchangeInit_returns now nonce userAgent ecdhPublicKey receiverId
    myPrivateKeyBase64 senderId conversationId privateKey :
  importPrivateKey myPrivateKeyBase64 = Returns privateKey ->
  let unsigned := unsigned_init now nonce userAgent ecdhPublicKey receiverId senderId
                                conversationId in
  createKeyExchangeInit now nonce userAgent ecdhPublicKey receiverId
    myPrivateKeyBase64 senderId conversationId
  = Returns (Message.with_signature unsigned (signatureBase64_of privateKey unsigned)).
Proof.
  intros H unsigned. unfold createKeyExchangeInit.
  fold (unsigned_init now nonce userAgent ecdhPublicKey receiverId senderId
          conversationId). fold unsigned.
  rewrite (signData_returns _ _ _ H). reflexivity.
Qed.

Lemma createKeyExchangeResponse_returns now now1 now2 nonce userAgent myECDHPublicKey
    theirECDHPublicKey myECDHPrivateKey senderId myPrivateKeyBase64 receiverId
    conversationId privateKey st :
  importPrivateKey myPrivateKeyBase64 = Returns privateKey ->
  let unsigned := unsigned_response now nonce userAgent myECDHPublicKey senderId
                                    receiverId conversationId in
  let sessionKey :=
    derived_key (subtle_deriveBits myECDHPrivateKey theirECDHPublicKey)
                (sort2 senderId receiverId).1 (sort2 senderId receiverId).2 now in
  createKeyExchangeResponse now now1 now2 nonce userAgent myECDHPublicKey
    theirECDHPublicKey myECDHPrivateKey senderId myPrivateKeyBase64 receiverId
    conversationId st
  = (Returns (mkResponseResult
                (Message.with_signature unsigned (signatureBase64_of privateKey unsigned))
                sessionKey now),
     set_sessionKeys
       <[storeKey (or_string conversationId (senderId +:+ "_" +:+ receiverId)) :=
           mkKeyData sessionKey (or_number (Some now) now1)
                     (or_number (Some now) now2 + SESSION_KEY_EXPIRY)]> st).
Proof.
  intros H unsigned sessionKey. unfold createKeyExchangeResponse.
  fold (unsigned_response now nonce userAgent myECDHPublicKey senderId receiverId
          conversationId). fold unsigned.
  unfold rethrowM, bind, lift, deriveSharedSecret.
  rewrite deriveSessionKeySHA256_returns. fold sessionKey.
  rewrite (signData_returns _ _ _ H). rewrite storeSessionKey_run. reflexivity.
Qed.

Lemma verifySignature_own privateKey publicKey publicKeyBase64 data :
  importPublicKey publicKeyBase64 = Returns publicKey ->
  (forall bytes, subtle_verify publicKey (subtle_sign privateKey bytes) bytes = true) ->
  verifySignature publicKeyBase64 (subtle_sign privateKey (utf8 data)) data = true.
Proof. intros Hk Hv. unfold verifySignature. rewrite Hk. apply Hv. Qed.

(** [completeKeyExchange] once the signature, timestamp, nonce and key
    import checks have passed: the derived key is stored and returned when
    the confirmation hash equals the expected one, and the call aborts
    otherwise. *)
Lemma completeKeyExchange_after_checks now now1 now2 responseMessage
    myECDHPrivateKey theirPublicKeyBase64 myId theirId conversationId st
    signatureBase64 signature theirECDHPublicKey t :
  Message.signature responseMessage = Some signatureBase64 ->
  truthy_string signatureBase64 = true ->
  atob signatureBase64 = Returns signature ->
  verifySignature theirPublicKeyBase64 signature
    (JSON_stringify (Message.without_signature responseMessage)) = true ->
  out_of_tolerance now (Message.timestamp responseMessage) = false ->
  Message.nonce responseMessage ∉ seenNonces st ->
  importECDHPublicKey (Message.ecdhPublicKey responseMessage)
  = Returns theirECDHPublicKey ->
  Message.timestamp responseMessage = Some t ->
  let st1 := set_seenNonces (fun seen => seen ∪ {[Message.nonce responseMessage]}) st in
  let sessionKey :=
    derived_key (subtle_deriveBits myECDHPrivateKey theirECDHPublicKey)
                (sort2 theirId myId).1 (sort2 theirId myId).2 t in
  completeKeyExchange now now1 now2 responseMessage myECDHPrivateKey
    theirPublicKeyBase64 myId theirId conversationId st
  = if bool_decide (Message.confirmationHash responseMessage
                    = Some (confirmationHashBase64 theirId myId (Some t)))
    then (Returns sessionKey,
          set_sessionKeys
            <[storeKey conversationId :=
                mkKeyData sessionKey (or_number (Some t) now1)
                          (or_number (Some t) now2 + SESSION_KEY_EXPIRY)]> st1)
    else (Throws (Error "Failed to complete key exchange: Confirmation hash mismatch"),
          st1).
Proof.
  intros Hsig Htruthy Hatob Hverify Hclock Hfresh Himport Hts st1 sessionKey.
  unfold completeKeyExchange, rethrowM, bind, lift, get, modify, throw, ret,
    deriveSharedSecret.
  rewrite Hsig, Htruthy, Hatob, Hverify, Hclock. cbv beta iota delta [negb].
  rewrite bool_decide_eq_false_2 by exact Hfresh.
  rewrite Himport, Hts, deriveSessionKeySHA256_returns. fold sessionKey. fold st1.
  destruct (bool_decide (Message.confirmationHash responseMessage = _));
    reflexivity.
Qed.

(** Whatever makes [completeKeyExchange] throw, the session-key store is
    left as it was. *)
Lemma completeKeyExchange_throw_keeps_store now now1 now2 responseMessage
    myECDHPrivateKey theirPublicKeyBase64 myId theirId conversationId st e st' :
  completeKeyExchange now now1 now2 responseMessage myECDHPrivateKey
    theirPublicKeyBase64 myId theirId conversationId st = (Throws e, st') ->
  sessionKeys st' = sessionKeys st.
Proof.
  unfold completeKeyExchange, rethrowM, bind, lift, get, modify, throw, ret.
  destruct (Message.signature responseMessage) as [sig|];
    [destruct (truthy_string sig)|]; cbv beta iota;
    try (intros H; injection H as _ <-; reflexivity).
  destruct (atob sig); cbv beta iota;
    try (intros H; injection H as _ <-; reflexivity).
  destruct (verifySignature _ _ _); cbv beta iota delta [negb];
    try (intros H; injection H as _ <-; reflexivity).
  destruct (out_of_tolerance _ _); cbv beta iota;
    try (intros H; injection H as _ <-; reflexivity).
  destruct (bool_decide (Message.nonce responseMessage ∈ seenNonces st));
    cbv beta iota; try (intros H; injection H as _ <-; reflexivity).
  destruct (importECDHPublicKey _); cbv beta iota;
    try (intros H; injection H as _ <-; reflexivity).
  destruct (deriveSessionKeySHA256 _ _ _ _); cbv beta iota;
    try (intros H; injection H as _ <-; reflexivity).
  destruct (bool_decide (Message.confirmationHash responseMessage = _));
    cbv beta iota delta [negb];
    try (intros H; injection H as _ <-; reflexivity).
  rewrite storeSessionKey_run. cbv beta iota. discriminate.
Qed.

(** A confirmation hash that differs from the expected one never lets
    [completeKeyExchange] return. *)
Lemma completeKeyExchange_mismatch_throws now now1 now2 responseMessage
    myECDHPrivateKey theirPublicKeyBase64 myId theirId conversationId st :
  Message.confirmationHash responseMessage
  <> Some (confirmationHashBase64 theirId myId (Message.timestamp responseMessage)) ->
  is_throw (completeKeyExchange now now1 now2 responseMessage myECDHPrivateKey
              theirPublicKeyBase64 myId theirId conversationId st).1 = true.
Proof.
  intros Hne.
  unfold completeKeyExchange, rethrowM, bind, lift, get, modify, throw, ret.
  destruct (Message.signature responseMessage) as [sig|];
    [destruct (truthy_string sig)|]; cbv beta iota; try reflexivity.
  destruct (atob sig); cbv beta iota; try reflexivity.
  destruct (verifySignature _ _ _); cbv beta iota delta [negb]; try reflexivity.
  destruct (out_of_tolerance _ _); cbv beta iota; try reflexivity.
  destruct (bool_decide (Message.nonce responseMessage ∈ seenNonces st));
    cbv beta iota; try reflexivity.
  destruct (importECDHPublicKey _); cbv beta iota; try reflexivity.
  destruct (deriveSessionKeySHA256 _ _ _ _); cbv beta iota; try reflexivity.
  rewrite bool_decide_eq_false_2 by exact Hne. reflexivity.
Qed.

Lemma validateKeyExchangeInit_accepts now message senderPublicKeyBase64 st
    signatureBase64 signature ecdhPublicKey :
  Message.signature message = Some signatureBase64 ->
  truthy_string signatureBase64 = true ->
  atob signatureBase64 = Returns signature ->
  verifySignature senderPublicKeyBase64 signature
    (JSON_stringify (Message.without_signature message)) = true ->
  out_of_tolerance now (Message.timestamp message) = false ->
  Message.nonce message ∉ seenNonces st ->
  importECDHPublicKey (Message.ecdhPublicKey message) = Returns ecdhPublicKey ->
  validateKeyExchangeInit now message senderPublicKeyBase64 st
  = (Valid ecdhPublicKey (Message.senderId message) (Message.conversationId message)
           (Message.timestamp message),
     set_seenNonces (fun seen => seen ∪ {[Message.nonce message]}) st).
Proof.
  intros Hsig Htruthy Hatob Hverify Hclock Hfresh Himport.
  unfold validateKeyExchangeInit, catchM, validateKeyExchangeInit_body,
    bind, lift, get, modify, ret.
  rewrite Hsig, Htruthy, Hatob, Hverify, Hclock. cbv beta iota delta [negb].
  rewrite bool_decide_eq_false_2 by exact Hfresh. rewrite Himport. reflexivity.
Qed.

Lemma validateKeyExchangeInit_bad_signature now message senderPublicKeyBase64 st
    signatureBase64 signature :
  Message.signature message = Some signatureBase64 ->
  truthy_string signatureBase64 = true ->
  atob signatureBase64 = Returns signature ->
  verifySignature senderPublicKeyBase64 signature
    (JSON_stringify (Message.without_signature message)) = false ->
  validateKeyExchangeInit now message senderPublicKeyBase64 st
  = (Invalid "Invalid signature", st).
Proof.
  intros Hsig Htruthy Hatob Hverify.
  unfold validateKeyExchangeInit, catchM, validateKeyExchangeInit_body,
    bind, lift, ret.
  rewrite Hsig, Htruthy, Hatob, Hverify. reflexivity.
Qed.

(** When the validation answers invalid, the hook reports failure and
    creates nothing: the React map of session keys and the client state
    that the validation left are returned as they are. *)
Lemma handleKeyExchangeMessage_invalid authUser privateKeyBase64 nowValidate now
    now1 now2 nonce userAgent myKeyPair serverResponse message senderId
    senderPublicKeyBase64 conversationId hook st error :
  validateKeyExchangeInit nowValidate message senderPublicKeyBase64 st
  = (Invalid error, st) ->
  exists hook',
    handleKeyExchangeMessage authUser privateKeyBase64 nowValidate now now1 now2
      nonce userAgent myKeyPair serverResponse message senderId
      senderPublicKeyBase64 conversationId hook st
    = (false, hook', st) /\
    sessionKeysState hook' = sessionKeysState hook.
Proof.
  intros Hinvalid. unfold handleKeyExchangeMessage.
  destruct authUser as [user|]; [|eauto].
  destruct privateKeyBase64 as [privateKey|]; [|eauto].
  destruct (truthy_string privateKey); simpl; [|eauto].
  rewrite Hinvalid. eauto.
Qed.

(** C2.  An envelope that carries the sender's signature of some content
    while its own signed fields serialise to something else (a substituted
    ephemeral public key, or any other changed field) is rejected by
    [validateKeyExchangeInit] with "Invalid signature"; no nonce is
    recorded and no session key is stored, and [handleKeyExchangeMessage]
    answers false without creating a session key. *)
Theorem tampered_envelope_rejected :
  forall senderPrivateKeyBase64 senderPublicKeyBase64 privateKey
         (covered received : Message.t) now st,
    base64_round_trip ->
    rsa_signature_binds senderPrivateKeyBase64 senderPublicKeyBase64 ->
    importPrivateKey senderPrivateKeyBase64 = Returns privateKey ->
    Message.signature received = Some (signatureBase64_of privateKey covered) ->
    JSON_stringify (Message.without_signature received) <> JSON_stringify covered ->
    validateKeyExchangeInit now received senderPublicKeyBase64 st
    = (Invalid "Invalid signature", st) /\
    (forall authUser privateKeyBase64 nowResponse now1 now2 nonce userAgent
            myKeyPair serverResponse senderId conversationId hook,
        exists hook',
          handleKeyExchangeMessage authUser privateKeyBase64 now nowResponse now1
            now2 nonce userAgent myKeyPair serverResponse received senderId
            senderPublicKeyBase64 conversationId hook st
          = (false, hook', st) /\
          sessionKeysState hook' = sessionKeysState hook).
Proof.
  intros priv pub sk covered received now st Hb64 Hbinds Hsk Hsig Hdiff.
  destruct Hbinds as (sk' & pk & Hsk' & Hpk & Hbind & Hnonempty).
  rewrite Hsk in Hsk'. injection Hsk' as <-.
  assert (Hreject : validateKeyExchangeInit now received pub st
                    = (Invalid "Invalid signature", st)).
  { apply (validateKeyExchangeInit_bad_signature now received pub st
             (signatureBase64_of sk covered)
             (subtle_sign sk (utf8 (JSON_stringify covered)))).
    - exact Hsig.
    - apply Hnonempty.
    - apply Hb64.
    - unfold verifySignature. rewrite Hpk.
      destruct (subtle_verify pk _ _) eqn:Hv; [|reflexivity].
      apply Hbind, utf8_inj in Hv. contradiction. }
  split; [exact Hreject|]. intros.
  apply handleKeyExchangeMessage_invalid with (error := "Invalid signature").
  exact Hreject.
Qed.

(** C8.  When the confirmation hash of the Response differs from the one
    that [completeKeyExchange] recomputes, the call throws and the
    session-key store is unchanged; when the earlier checks (signature,
    timestamp, nonce, key import) have passed, the error is the
    confirmation mismatch. *)
Theorem confirmation_mismatch_aborts :
  forall now now1 now2 responseMessage myECDHPrivateKey theirPublicKeyBase64 myId
         theirId conversationId st,
    Message.confirmationHash responseMessage
    <> Some (confirmationHashBase64 theirId myId (Message.timestamp responseMessage)) ->
    exists e st',
      completeKeyExchange now now1 now2 responseMessage myECDHPrivateKey
        theirPublicKeyBase64 myId theirId conversationId st
      = (Throws e, st') /\
      sessionKeys st' = sessionKeys st /\
      (forall signatureBase64 signature theirECDHPublicKey t,
          Message.signature responseMessage = Some signatureBase64 ->
          truthy_string signatureBase64 = true ->
          atob signatureBase64 = Returns signature ->
          verifySignature theirPublicKeyBase64 signature
            (JSON_stringify (Message.without_signature responseMessage)) = true ->
          out_of_tolerance now (Message.timestamp responseMessage) = false ->
          Message.nonce responseMessage ∉ seenNonces st ->
          importECDHPublicKey (Message.ecdhPublicKey responseMessage)
          = Returns theirECDHPublicKey ->
          Message.timestamp responseMessage = Some t ->
          e = Error "Failed to complete key exchange: Confirmation hash mismatch").
Proof.
  intros now now1 now2 resp myPriv theirPub myId theirId conv st Hne.
  pose proof (completeKeyExchange_mismatch_throws now now1 now2 resp myPriv
                theirPub myId theirId conv st Hne) as Hthrow.
  destruct (completeKeyExchange now now1 now2 resp myPriv theirPub myId theirId
              conv st) as [[k|e] st'] eqn:Hrun; [discriminate|].
  exists e, st'. split; [reflexivity|]. split.
  - exact (completeKeyExchange_throw_keeps_store _ _ _ _ _ _ _ _ _ _ _ _ Hrun).
  - intros sigB64 sig pk t H1 H2 H3 H4 H5 H6 H7 H8.
    rewrite (completeKeyExchange_after_checks now now1 now2 resp myPriv theirPub
               myId theirId conv st sigB64 sig pk t H1 H2 H3 H4 H5 H6 H7 H8)
      in Hrun.
    rewrite H8 in Hne. rewrite bool_decide_eq_false_2 in Hrun by exact Hne.
    injection Hrun as <- _. reflexivity.
Qed.

(** The Response of an honest responder passes every check of
    [completeKeyExchange], whatever ECDH private key the initiator holds:
    the call returns the key derived on the initiator's side and stores
    it. *)
Lemma completeKeyExchange_honest_response now2 now3 now1 now2' nonce userAgent
    (publicB : ECPublic) (privateX : ECPrivate) initiatorId responderId
    conversationId initiatorConversationId responderPublicKeyBase64 privateKey
    publicKey st :
  base64_round_trip ->
  importPublicKey responderPublicKeyBase64 = Returns publicKey ->
  (forall data, subtle_verify publicKey (subtle_sign privateKey data) data = true) ->
  (forall data, truthy_string (btoa (subtle_sign privateKey data)) = true) ->
  spki_round_trip publicB ->
  Z.abs (now3 - now2) <= TIMESTAMP_TOLERANCE ->
  Some nonce ∉ seenNonces st ->
  let unsigned := unsigned_response now2 nonce userAgent publicB initiatorId
                                    responderId conversationId in
  let sessionKey :=
    derived_key (subtle_deriveBits privateX publicB)
                (sort2 responderId initiatorId).1 (sort2 responderId initiatorId).2
                now2 in
  completeKeyExchange now3 now1 now2'
    (Message.with_signature unsigned (signatureBase64_of privateKey unsigned))
    privateX responderPublicKeyBase64 initiatorId responderId
    initiatorConversationId st
  = (Returns sessionKey,
     set_sessionKeys
       <[storeKey initiatorConversationId :=
           mkKeyData sessionKey (or_number (Some now2) now1)
                     (or_number (Some now2) now2' + SESSION_KEY_EXPIRY)]>
       (set_seenNonces (fun seen => seen ∪ {[Some nonce]}) st)).
Proof.
  intros Hb64 Hpk Hverify Hnonempty Hspki Hclock Hfresh unsigned sessionKey.
  rewrite (completeKeyExchange_after_checks now3 now1 now2' _ privateX
             responderPublicKeyBase64 initiatorId responderId
             initiatorConversationId st
             (signatureBase64_of privateKey unsigned)
             (subtle_sign privateKey (utf8 (JSON_stringify unsigned)))
             publicB now2).
  - rewrite bool_decide_eq_true_2 by reflexivity. reflexivity.
  - reflexivity.
  - apply Hnonempty.
  - apply Hb64.
  - apply (verifySignature_own privateKey publicKey); assumption.
  - simpl. rewrite Z.gtb_ltb. apply Z.ltb_ge. exact Hclock.
  - exact Hfresh.
  - apply importECDHPublicKey_exported; assumption.
  - reflexivity.
Qed.

(** C1.  An honest handshake: the initiator's Init is validated by the
    responder, the responder's Response is completed by the initiator, and
    the session key that [completeKeyExchange] returns and stores is the
    very key that [createKeyExchangeResponse] returned and stored: the
    SHA-256 derivation over the common ECDH secret, the two ids in sorted
    order and the responder's timestamp carried in the Response. *)
Theorem honest_handshake_same_session_key :
  forall (initiatorId responderId initiatorConversationId : string)
         (conversationId : option string)
         (initiatorPrivateKeyBase64 initiatorPublicKeyBase64 : string)
         (responderPrivateKeyBase64 responderPublicKeyBase64 : string)
         (publicA : ECPublic) (privateA : ECPrivate)
         (publicB : ECPublic) (privateB : ECPrivate)
         (now0 now1 now2 now3 nowR1 nowR2 nowI1 nowI2 : Z)
         (nonceA nonceB userAgentA userAgentB : string) (stR stI : State),
    base64_round_trip ->
    rsa_key_pair initiatorPrivateKeyBase64 initiatorPublicKeyBase64 ->
    rsa_key_pair responderPrivateKeyBase64 responderPublicKeyBase64 ->
    spki_round_trip publicA ->
    spki_round_trip publicB ->
    ecdh_agree publicA privateA publicB privateB ->
    Z.abs (now1 - now0) <= TIMESTAMP_TOLERANCE ->
    Z.abs (now3 - now2) <= TIMESTAMP_TOLERANCE ->
    Some nonceA ∉ seenNonces stR ->
    Some nonceB ∉ seenNonces stI ->
    exists init result stR1 stR2 stI',
      createKeyExchangeInit now0 nonceA userAgentA publicA responderId
        initiatorPrivateKeyBase64 initiatorId conversationId
      = Returns init /\
      validateKeyExchangeInit now1 init initiatorPublicKeyBase64 stR
      = (Valid publicA initiatorId conversationId (Some now0), stR1) /\
      createKeyExchangeResponse now2 nowR1 nowR2 nonceB userAgentB publicB publicA
        privateB initiatorId responderPrivateKeyBase64 responderId conversationId stR1
      = (Returns result, stR2) /\
      completeKeyExchange now3 nowI1 nowI2 (response result) privateA
        responderPublicKeyBase64 initiatorId responderId initiatorConversationId stI
      = (Returns (sessionKey result), stI') /\
      sessionKey result
      = derived_key (subtle_deriveBits privateB publicA)
                    (sort2 initiatorId responderId).1
                    (sort2 initiatorId responderId).2 now2 /\
      (key <$> sessionKeys stR2
               !! storeKey (or_string conversationId
                                      (initiatorId +:+ "_" +:+ responderId)))
      = Some (sessionKey result) /\
      (key <$> sessionKeys stI' !! storeKey initiatorConversationId)
      = Some (sessionKey result).
Proof.
  intros a b convI conv privA pubA privB pubB publicA privateA publicB privateB
         now0 now1 now2 now3 nowR1 nowR2 nowI1 nowI2 nonceA nonceB uaA uaB stR stI
         Hb64 HrsaA HrsaB HspkiA HspkiB Hdh Hclock1 Hclock3 HfreshA HfreshB.
  destruct HrsaA as (skA & pkA & HskA & HpkA & HverifyA & HnonemptyA).
  destruct HrsaB as (skB & pkB & HskB & HpkB & HverifyB & HnonemptyB).
  eexists _, _, _, _, _.
  split; [apply (createKeyExchangeInit_returns _ _ _ _ _ _ _ _ _ HskA)|].
  split.
  { set (unsigned := unsigned_init now0 nonceA uaA publicA b a conv).
    rewrite (validateKeyExchangeInit_accepts now1
               (Message.with_signature unsigned (signatureBase64_of skA unsigned))
               pubA stR (signatureBase64_of skA unsigned)
               (subtle_sign skA (utf8 (JSON_stringify unsigned))) publicA).
    - reflexivity.
    - reflexivity.
    - apply HnonemptyA.
    - apply Hb64.
    - apply (verifySignature_own skA pkA); assumption.
    - simpl. rewrite Z.gtb_ltb. apply Z.ltb_ge. exact Hclock1.
    - exact HfreshA.
    - apply importECDHPublicKey_exported; assumption. }
  split; [apply (createKeyExchangeResponse_returns _ _ _ _ _ _ _ _ _ _ _ _ _ _ HskB)|].
  cbn [response sessionKey].
  split.
  { rewrite (completeKeyExchange_honest_response now2 now3 nowI1 nowI2 nonceB uaB
               publicB privateA a b conv convI pubB skB pkB stI
               Hb64 HpkB HverifyB HnonemptyB HspkiB Hclock3 HfreshB).
    unfold ecdh_agree in Hdh. rewrite Hdh, (sort2_swap b a). reflexivity. }
  split; [reflexivity|].
  split; simpl; rewrite lookup_insert_eq; reflexivity.
Qed.

(** The confirmation hash of any Response that [createKeyExchangeResponse]
    returns: the base64 SHA-256 of the string built from the responder's
    id, then the initiator's id, then the response timestamp. *)
Lemma createKeyExchangeResponse_confirmationHash now now1 now2 nonce userAgent
    myECDHPublicKey theirECDHPublicKey myECDHPrivateKey senderId
    myPrivateKeyBase64 receiverId conversationId st result st' :
  createKeyExchangeResponse now now1 now2 nonce userAgent myECDHPublicKey
    theirECDHPublicKey myECDHPrivateKey senderId myPrivateKeyBase64 receiverId
    conversationId st = (Returns result, st') ->
  Message.timestamp (response result) = Some now /\
  Message.confirmationHash (response result)
  = Some (confirmationHashBase64 receiverId senderId (Some now)).
Proof.
  unfold createKeyExchangeResponse, rethrowM, bind, lift.
  rewrite deriveSessionKeySHA256_returns.
  destruct (signData myPrivateKeyBase64 _) as [signature|e]; [|discriminate].
  rewrite storeSessionKey_run. unfold ret.
  intros H. injection H as <- _. split; reflexivity.
Qed.

(** The confirmation hash of any Response on which [completeKeyExchange]
    returns. *)
Lemma completeKeyExchange_confirmationHash now now1 now2 responseMessage
    myECDHPrivateKey theirPublicKeyBase64 myId theirId conversationId st
    sessionKey st' :
  completeKeyExchange now now1 now2 responseMessage myECDHPrivateKey
    theirPublicKeyBase64 myId theirId conversationId st
  = (Returns sessionKey, st') ->
  exists t,
    Message.timestamp responseMessage = Some t /\
    Message.confirmationHash responseMessage
    = Some (confirmationHashBase64 theirId myId (Some t)).
Proof.
  intros Hrun.
  destruct (decide (Message.confirmationHash responseMessage
                    = Some (confirmationHashBase64 theirId myId
                              (Message.timestamp responseMessage)))) as [Heq|Hne].
  - destruct (Message.timestamp responseMessage) as [t|] eqn:Hts; [eauto|].
    exfalso. revert Hrun.
    unfold completeKeyExchange, rethrowM, bind, lift, get, modify, throw, ret.
    destruct (Message.signature responseMessage) as [sig|];
      [destruct (truthy_string sig)|]; cbv beta iota; try discriminate.
    destruct (atob sig); cbv beta iota; try discriminate.
    destruct (verifySignature _ _ _); cbv beta iota delta [negb]; try discriminate.
    destruct (out_of_tolerance _ _); cbv beta iota; try discriminate.
    destruct (bool_decide (Message.nonce responseMessage ∈ seenNonces st));
      cbv beta iota; try discriminate.
    destruct (importECDHPublicKey _); cbv beta iota; try discriminate.
    rewrite Hts. unfold deriveSessionKeySHA256, rethrow, obind. discriminate.
  - pose proof (completeKeyExchange_mismatch_throws now now1 now2 responseMessage
                  myECDHPrivateKey theirPublicKeyBase64 myId theirId
                  conversationId st Hne) as Hthrow.
    rewrite Hrun in Hthrow. discriminate.
Qed.

(** C4 (amended).  The confirmation hash carried in a Response is the
    base64 SHA-256 of "KEY_CONFIRMED_", the responder's id, "_", the
    initiator's id, "_" and the response timestamp: the ids in role order,
    not sorted.  The initiator accepts a Response only if its hash equals
    the same formula over (theirId, myId) and the timestamp it carries. *)
Theorem confirmation_tag_role_ordered :
  (forall now now1 now2 nonce userAgent myECDHPublicKey theirECDHPublicKey
          myECDHPrivateKey senderId myPrivateKeyBase64 receiverId conversationId
          st result st',
      createKeyExchangeResponse now now1 now2 nonce userAgent myECDHPublicKey
        theirECDHPublicKey myECDHPrivateKey senderId myPrivateKeyBase64 receiverId
        conversationId st = (Returns result, st') ->
      Message.timestamp (response result) = Some now /\
      Message.confirmationHash (response result)
      = Some (btoa (subtle_digest_SHA256
                      (utf8 ("KEY_CONFIRMED_" +:+ receiverId +:+ "_" +:+ senderId
                             +:+ "_" +:+ Z_to_string now))))) /\
  (forall now now1 now2 responseMessage myECDHPrivateKey theirPublicKeyBase64 myId
          theirId conversationId st sessionKey st',
      completeKeyExchange now now1 now2 responseMessage myECDHPrivateKey
        theirPublicKeyBase64 myId theirId conversationId st
      = (Returns sessionKey, st') ->
      exists t,
        Message.timestamp responseMessage = Some t /\
        Message.confirmationHash responseMessage
        = Some (btoa (subtle_digest_SHA256
                        (utf8 ("KEY_CONFIRMED_" +:+ theirId +:+ "_" +:+ myId
                               +:+ "_" +:+ Z_to_string t))))).
Proof.
  split.
  - intros until st'. apply createKeyExchangeResponse_confirmationHash.
  - intros until st'. apply completeKeyExchange_confirmationHash.
Qed.

(** C10.  Two responder runs with the same two ids and the same timestamp
    put the same confirmation hash in their Responses, whatever ECDH keys
    (hence shared secrets and session keys) they use; and the initiator's
    [completeKeyExchange] returns on either Response whatever ECDH private
    key it holds: the comparison of the hashes never involves a key. *)
Theorem confirmation_tag_ignores_keys :
  forall (initiatorId responderId initiatorConversationId : string)
         (responderPrivateKeyBase64 responderPublicKeyBase64 : string)
         (now2 now3 : Z)
         (conversationId1 conversationId2 : option string)
         (publicB1 publicB2 theirPublic1 theirPublic2 : ECPublic)
         (privateB1 privateB2 privateX1 privateX2 : ECPrivate)
         (nowR1 nowR2 nowR1' nowR2' nowI1 nowI2 nowI1' nowI2' : Z)
         (nonce1 nonce2 userAgent1 userAgent2 : string)
         (stR1 stR2 stI1 stI2 : State),
    base64_round_trip ->
    rsa_key_pair responderPrivateKeyBase64 responderPublicKeyBase64 ->
    spki_round_trip publicB1 ->
    spki_round_trip publicB2 ->
    Z.abs (now3 - now2) <= TIMESTAMP_TOLERANCE ->
    Some nonce1 ∉ seenNonces stI1 ->
    Some nonce2 ∉ seenNonces stI2 ->
    exists result1 result2 stR1' stR2' key1 key2 stI1' stI2',
      createKeyExchangeResponse now2 nowR1 nowR2 nonce1 userAgent1 publicB1
        theirPublic1 privateB1 initiatorId responderPrivateKeyBase64 responderId
        conversationId1 stR1 = (Returns result1, stR1') /\
      createKeyExchangeResponse now2 nowR1' nowR2' nonce2 userAgent2 publicB2
        theirPublic2 privateB2 initiatorId responderPrivateKeyBase64 responderId
        conversationId2 stR2 = (Returns result2, stR2') /\
      Message.confirmationHash (response result1)
      = Message.confirmationHash (response result2) /\
      completeKeyExchange now3 nowI1 nowI2 (response result1) privateX1
        responderPublicKeyBase64 initiatorId responderId initiatorConversationId
        stI1 = (Returns key1, stI1') /\
      completeKeyExchange now3 nowI1' nowI2' (response result2) privateX2
        responderPublicKeyBase64 initiatorId responderId initiatorConversationId
        stI2 = (Returns key2, stI2').
Proof.
  intros a b convI privB pubB now2 now3 conv1 conv2 publicB1 publicB2 their1 their2
         privateB1 privateB2 privateX1 privateX2
         nowR1 nowR2 nowR1' nowR2' nowI1 nowI2 nowI1' nowI2'
         nonce1 nonce2 ua1 ua2 stR1 stR2 stI1 stI2
         Hb64 Hrsa Hspki1 Hspki2 Hclock Hfresh1 Hfresh2.
  destruct Hrsa as (skB & pkB & HskB & HpkB & Hverify & Hnonempty).
  eexists _, _, _, _, _, _, _, _.
  split; [apply (createKeyExchangeResponse_returns _ _ _ _ _ _ _ _ _ _ _ _ _ _ HskB)|].
  split; [apply (createKeyExchangeResponse_returns _ _ _ _ _ _ _ _ _ _ _ _ _ _ HskB)|].
  cbn [response].
  split; [reflexivity|].
  split.
  - apply (completeKeyExchange_honest_response now2 now3 nowI1 nowI2 nonce1 ua1
             publicB1 privateX1 a b conv1 convI pubB skB pkB stI1); assumption.
  - apply (completeKeyExchange_honest_response now2 now3 nowI1' nowI2' nonce2 ua2
             publicB2 privateX2 a b conv2 convI pubB skB pkB stI2); assumption.
Qed.

End HandshakeProofs.

(** ** The small platform satisfies the assumed properties *)

Section ToyLaws.
Import KeyExchange.

Lemma toy_base64_round_trip : base64_round_trip (platform := Toy.platform).
Proof.
  intros bytes. simpl. unfold Toy.atob, Toy.btoa.
  rewrite list_byte_of_string_of_list_byte. reflexivity.
Qed.

Lemma toy_signature_nonempty (name : string) data :
  truthy_string (Toy.btoa (Toy.sign name data)) = true.
Proof.
  unfold Toy.btoa, Toy.sign. destruct (utf8 name); reflexivity.
Qed.

Lemma toy_verify_own (name : string) data :
  Toy.verify name (Toy.sign name data) data = true.
Proof. unfold Toy.verify, Toy.sign. apply bool_decide_eq_true. reflexivity. Qed.

Lemma toy_rsa_key_pair name :
  truthy_string name = true -> rsa_key_pair (platform := Toy.platform) name name.
Proof.
  intros Hname. exists name, name. simpl. unfold Toy.importKey. rewrite Hname.
  repeat split.
  - intros data. unfold Toy.verify, Toy.sign. apply bool_decide_eq_true. reflexivity.
  - apply toy_signature_nonempty.
Qed.

Lemma toy_rsa_signature_binds name :
  truthy_string name = true ->
  rsa_signature_binds (platform := Toy.platform) name name.
Proof.
  intros Hname. exists name, name. simpl. unfold Toy.importKey. rewrite Hname.
  repeat split.
  - intros data data' Hv. unfold Toy.verify, Toy.sign in Hv.
    apply bool_decide_eq_true in Hv.
    apply app_inv_head in Hv. apply app_inv_head in Hv. symmetry. exact Hv.
  - apply toy_signature_nonempty.
Qed.

Lemma toy_spki_round_trip (publicKey : nat) :
  spki_round_trip (platform := Toy.platform) publicKey.
Proof.
  unfold spki_round_trip. simpl. unfold Toy.importKey_spki, Toy.exportKey_spki.
  rewrite repeat_length. reflexivity.
Qed.

Lemma toy_ecdh_agree (privateA privateB : nat) :
  ecdh_agree (platform := Toy.platform)
    (Toy.publicOf privateA) privateA (Toy.publicOf privateB) privateB.
Proof.
  unfold ecdh_agree, Toy.publicOf. simpl. unfold Toy.deriveBits.
  rewrite Nat.mul_comm. reflexivity.
Qed.

End ToyLaws.

(** ** The handshake on concrete inputs *)

Section Runs.
Import KeyExchange Scenario.
#[local] Existing Instance Toy.platform.

(** C1 on concrete inputs: alice and bob complete a handshake for conversation
    "c1"; both end with the same 256-bit key. *)
Lemma honest_handshake_same_session_key_witness :
  base64_round_trip (platform := Toy.platform) /\
  rsa_key_pair (platform := Toy.platform) "alice-rsa" "alice-rsa" /\
  rsa_key_pair (platform := Toy.platform) "bob-rsa" "bob-rsa" /\
  ecdh_agree (platform := Toy.platform)
    (Toy.publicOf alicePrivateECDH) alicePrivateECDH
    (Toy.publicOf bobPrivateECDH) bobPrivateECDH /\
  Z.abs (1700000000100 - 1700000000000) <= TIMESTAMP_TOLERANCE /\
  Z.abs (1700000000300 - 1700000000200) <= TIMESTAMP_TOLERANCE /\
  exists init result stR1 stR2 stI',
    createKeyExchangeInit (platform := Toy.platform) 1700000000000 "nonce-a"
      "Mozilla" (Toy.publicOf alicePrivateECDH) "bob" "alice-rsa" "alice" (Some "c1")
    = Returns init /\
    validateKeyExchangeInit 1700000000100 init "alice-rsa" empty_state
    = (Valid (Toy.publicOf alicePrivateECDH) "alice" (Some "c1")
             (Some 1700000000000), stR1) /\
    createKeyExchangeResponse 1700000000200 1700000000201 1700000000202 "nonce-b"
      "Mozilla" (Toy.publicOf bobPrivateECDH) (Toy.publicOf alicePrivateECDH)
      bobPrivateECDH "alice" "bob-rsa" "bob" (Some "c1") stR1
    = (Returns result, stR2) /\
    completeKeyExchange 1700000000300 1700000000301 1700000000302 (response result)
      alicePrivateECDH "bob-rsa" "alice" "bob" "c1" empty_state
    = (Returns (sessionKey result), stI') /\
    sessionKey result
    = derived_key (subtle_deriveBits (Platform := Toy.platform) bobPrivateECDH
                     (Toy.publicOf alicePrivateECDH))
                  (sort2 "alice" "bob").1 (sort2 "alice" "bob").2 1700000000200 /\
    (key <$> sessionKeys stR2
             !! storeKey (or_string (Some "c1") ("alice" +:+ "_" +:+ "bob")))
    = Some (sessionKey result) /\
    (key <$> sessionKeys stI' !! storeKey "c1") = Some (sessionKey result).
Proof.
  assert (Hclock1 : Z.abs (1700000000100 - 1700000000000) <= TIMESTAMP_TOLERANCE)
    by (vm_compute; discriminate).
  assert (Hclock3 : Z.abs (1700000000300 - 1700000000200) <= TIMESTAMP_TOLERANCE)
    by (vm_compute; discriminate).
  split; [exact toy_base64_round_trip|].
  split; [exact (toy_rsa_key_pair "alice-rsa" eq_refl)|].
  split; [exact (toy_rsa_key_pair "bob-rsa" eq_refl)|].
  split; [exact (toy_ecdh_agree alicePrivateECDH bobPrivateECDH)|].
  split; [exact Hclock1|]. split; [exact Hclock3|].
  apply (honest_handshake_same_session_key (platform := Toy.platform)
           "alice" "bob" "c1" (Some "c1") "alice-rsa" "alice-rsa" "bob-rsa" "bob-rsa"
           (Toy.publicOf alicePrivateECDH) alicePrivateECDH
           (Toy.publicOf bobPrivateECDH) bobPrivateECDH
           1700000000000 1700000000100 1700000000200 1700000000300
           1700000000201 1700000000202 1700000000301 1700000000302
           "nonce-a" "nonce-b" "Mozilla" "Mozilla" empty_state empty_state
           toy_base64_round_trip
           (toy_rsa_key_pair "alice-rsa" eq_refl)
           (toy_rsa_key_pair "bob-rsa" eq_refl)
           (toy_spki_round_trip _) (toy_spki_round_trip _)
           (toy_ecdh_agree alicePrivateECDH bobPrivateECDH)
           Hclock1 Hclock3).
  - apply not_elem_of_empty.
  - apply not_elem_of_empty.
Defined.

(** C2 on concrete inputs: mallory replaces the ephemeral public key of alice's
    Init and forwards alice's signature unchanged. *)
Lemma tampered_envelope_rejected_witness :
  Message.signature tampered_init
  = Some (signatureBase64_of (platform := Toy.platform) "alice-rsa" init_content) /\
  Toy.JSON_stringify (Message.without_signature tampered_init)
  <> Toy.JSON_stringify init_content /\
  validateKeyExchangeInit (platform := Toy.platform) 1700000000100 tampered_init
    "alice-rsa" empty_state
  = (Invalid "Invalid signature", empty_state) /\
  exists hook',
    handleKeyExchangeMessage (platform := Toy.platform) (Some "bob") (Some "bob-rsa")
      1700000000100 1700000000200 1700000000201 1700000000202 "nonce-b" "Mozilla"
      (Returns (Toy.publicOf bobPrivateECDH, bobPrivateECDH)) FetchOk
      tampered_init "alice" "alice-rsa" (Some "c1")
      (mkHookState ∅ None false) empty_state
    = (false, hook', empty_state) /\
    sessionKeysState hook' = ∅.
Proof.
  assert (Hdiff : Toy.JSON_stringify (Message.without_signature tampered_init)
                  <> Toy.JSON_stringify init_content)
    by (vm_compute; discriminate).
  pose proof (tampered_envelope_rejected (platform := Toy.platform)
                "alice-rsa" "alice-rsa" "alice-rsa" init_content tampered_init
                1700000000100 empty_state
                toy_base64_round_trip (toy_rsa_signature_binds "alice-rsa" eq_refl)
                eq_refl eq_refl Hdiff) as [Hreject Hhook].
  split; [reflexivity|]. split; [exact Hdiff|]. split; [exact Hreject|].
  apply Hhook.
Defined.

(** C8 on concrete inputs: bob signs a Response whose confirmation hash is
    "bogus"; alice's [completeKeyExchange] throws and her store stays
    empty. *)
Lemma confirmation_mismatch_aborts_witness :
  Message.confirmationHash wrong_tag_response
  <> Some (confirmationHashBase64 "bob" "alice"
             (Message.timestamp wrong_tag_response)) /\
  exists st',
    completeKeyExchange 1700000000300 1700000000301 1700000000302
      wrong_tag_response alicePrivateECDH "bob-rsa" "alice" "bob" "c1" empty_state
    = (Throws (Error "Failed to complete key exchange: Confirmation hash mismatch"),
       st') /\
    sessionKeys st' = ∅.
Proof.
  assert (Hne : Message.confirmationHash wrong_tag_response
                <> Some (confirmationHashBase64 "bob" "alice"
                           (Message.timestamp wrong_tag_response)))
    by (vm_compute; discriminate).
  split; [exact Hne|].
  destruct (confirmation_mismatch_aborts (platform := Toy.platform)
              1700000000300 1700000000301 1700000000302
              wrong_tag_response alicePrivateECDH "bob-rsa" "alice" "bob" "c1"
              empty_state Hne) as (e & st' & Hrun & Hstore & Hwhy).
  exists st'. split; [|exact Hstore].
  rewrite Hrun. f_equal. f_equal.
  apply (Hwhy (signatureBase64_of (platform := Toy.platform) "bob-rsa"
                 wrong_tag_content)
              (Toy.sign "bob-rsa" (utf8 (Toy.JSON_stringify wrong_tag_content)))
              (Toy.publicOf bobPrivateECDH) 1700000000200).
  - reflexivity.
  - apply toy_signature_nonempty.
  - apply toy_base64_round_trip.
  - vm_compute; reflexivity.
  - vm_compute; reflexivity.
  - apply not_elem_of_empty.
  - apply (importECDHPublicKey_exported (platform := Toy.platform)
             (Toy.publicOf bobPrivateECDH)
             toy_base64_round_trip (toy_spki_round_trip _)).
  - reflexivity.
Defined.

(** C10 on concrete inputs: bob answers once with the ECDH private key 5 and once
    with 11, at the same timestamp.  The two session keys differ, the two
    confirmation hashes are the same, and alice's call returns on both
    Responses, with her own key 3 and with the unrelated key 7. *)
Lemma confirmation_tag_ignores_keys_witness :
  exists result1 result2 stR1' stR2' key1 key2 stI1' stI2',
    createKeyExchangeResponse 1700000000200 1700000000201 1700000000202 "nonce-b"
      "Mozilla" (Toy.publicOf bobPrivateECDH) (Toy.publicOf alicePrivateECDH)
      bobPrivateECDH "alice" "bob-rsa" "bob" (Some "c1") empty_state
    = (Returns result1, stR1') /\
    createKeyExchangeResponse 1700000000200 1700000000201 1700000000202 "nonce-c"
      "Mozilla" (Toy.publicOf 11%nat) (Toy.publicOf alicePrivateECDH)
      11%nat "alice" "bob-rsa" "bob" (Some "c1") empty_state
    = (Returns result2, stR2') /\
    Message.confirmationHash (response result1)
    = Message.confirmationHash (response result2) /\
    completeKeyExchange 1700000000300 1700000000301 1700000000302 (response result1)
      alicePrivateECDH "bob-rsa" "alice" "bob" "c1" empty_state
    = (Returns key1, stI1') /\
    completeKeyExchange 1700000000300 1700000000301 1700000000302 (response result2)
      mallorysPrivateECDH "bob-rsa" "alice" "bob" "c1" empty_state
    = (Returns key2, stI2').
Proof.
  apply (confirmation_tag_ignores_keys (platform := Toy.platform)
           "alice" "bob" "c1" "bob-rsa" "bob-rsa"
           1700000000200 1700000000300 (Some "c1") (Some "c1")
           (Toy.publicOf bobPrivateECDH) (Toy.publicOf 11%nat)
           (Toy.publicOf alicePrivateECDH) (Toy.publicOf alicePrivateECDH)
           bobPrivateECDH 11%nat alicePrivateECDH mallorysPrivateECDH
           1700000000201 1700000000202 1700000000201 1700000000202
           1700000000301 1700000000302 1700000000301 1700000000302
           "nonce-b" "nonce-c" "Mozilla" "Mozilla"
           empty_state empty_state empty_state empty_state
           toy_base64_round_trip (toy_rsa_key_pair "bob-rsa" eq_refl)
           (toy_spki_round_trip _) (toy_spki_round_trip _)).
  - vm_compute; discriminate.
  - apply not_elem_of_empty.
  - apply not_elem_of_empty.
Defined.

(** The two runs of the preceding lemma do derive different session keys,
    and the key alice derives from the second Response with the unrelated
    private key is not the responder's. *)
Example different_keys_same_tag :
  derived_key (Toy.deriveBits bobPrivateECDH (Toy.publicOf alicePrivateECDH))
              "alice" "bob" 1700000000200
  <> derived_key (Toy.deriveBits 11%nat (Toy.publicOf alicePrivateECDH))
                 "alice" "bob" 1700000000200 /\
  derived_key (Toy.deriveBits mallorysPrivateECDH (Toy.publicOf 11%nat))
              "alice" "bob" 1700000000200
  <> derived_key (Toy.deriveBits 11%nat (Toy.publicOf alicePrivateECDH))
                 "alice" "bob" 1700000000200.
Proof. split; vm_compute; discriminate. Qed.

(** C4 (amended) on concrete inputs: bob's Response at 1700000000200 and alice's
    acceptance of it. *)
Lemma confirmation_tag_role_ordered_witness :
  exists result stR' key stI',
    createKeyExchangeResponse 1700000000200 1700000000201 1700000000202 "nonce-b"
      "Mozilla" (Toy.publicOf bobPrivateECDH) (Toy.publicOf alicePrivateECDH)
      bobPrivateECDH "alice" "bob-rsa" "bob" (Some "c1") empty_state
    = (Returns result, stR') /\
    completeKeyExchange 1700000000300 1700000000301 1700000000302 (response result)
      alicePrivateECDH "bob-rsa" "alice" "bob" "c1" empty_state
    = (Returns key, stI') /\
    Message.confirmationHash (response result)
    = Some (btoa (subtle_digest_SHA256
                    (utf8 "KEY_CONFIRMED_bob_alice_1700000000200"))) /\
    exists t,
      Message.timestamp (response result) = Some t /\
      Message.confirmationHash (response result)
      = Some (btoa (subtle_digest_SHA256
                      (utf8 ("KEY_CONFIRMED_" +:+ "bob" +:+ "_" +:+ "alice" +:+ "_"
                             +:+ Z_to_string t)))).
Proof.
  pose proof (createKeyExchangeResponse_returns (platform := Toy.platform)
                1700000000200 1700000000201 1700000000202 "nonce-b" "Mozilla"
                (Toy.publicOf bobPrivateECDH) (Toy.publicOf alicePrivateECDH)
                bobPrivateECDH "alice" "bob-rsa" "bob" (Some "c1") "bob-rsa"
                empty_state eq_refl) as Hrun.
  cbv zeta in Hrun.
  assert (Hclock : Z.abs (1700000000300 - 1700000000200) <= TIMESTAMP_TOLERANCE)
    by (vm_compute; discriminate).
  assert (Hfresh : Some "nonce-b" ∉ seenNonces empty_state)
    by apply not_elem_of_empty.
  pose proof (completeKeyExchange_honest_response (platform := Toy.platform)
                1700000000200 1700000000300 1700000000301 1700000000302 "nonce-b"
                "Mozilla" (Toy.publicOf bobPrivateECDH) alicePrivateECDH
                "alice" "bob" (Some "c1") "c1" "bob-rsa" "bob-rsa" "bob-rsa"
                empty_state toy_base64_round_trip eq_refl
                (toy_verify_own "bob-rsa")
                (toy_signature_nonempty "bob-rsa") (toy_spki_round_trip _)
                Hclock Hfresh) as Hcomplete.
  cbv zeta in Hcomplete.
  destruct (confirmation_tag_role_ordered (platform := Toy.platform))
    as [Hresponder Hinitiator].
  destruct (Hresponder _ _ _ _ _ _ _ _ _ _ _ _ _ _ _ Hrun) as [_ Htag].
  pose proof (Hinitiator _ _ _ _ _ _ _ _ _ _ _ _ Hcomplete) as Hexpected.
  eexists _, _, _, _.
  split; [exact Hrun|]. split; [exact Hcomplete|].
  split; [exact Htag|exact Hexpected].
Defined.

(** Counterexample to C4 as stated: with responder "bob" and initiator
    "alice" the hash carried in the Response (computed with the real
    SHA-256 and base64) is that of "KEY_CONFIRMED_bob_alice_...", not the
    hash of the sorted pair "alice", "bob". *)
Lemma confirmation_tag_not_sorted :
  exists result st',
    createKeyExchangeResponse (platform := Toy.platform_base64)
      1700000000200 1700000000201 1700000000202 "nonce-b" "Mozilla"
      (Toy.publicOf bobPrivateECDH) (Toy.publicOf alicePrivateECDH)
      bobPrivateECDH "alice" "bob-rsa" "bob" (Some "c1") empty_state
    = (Returns result, st') /\
    Message.confirmationHash (response result)
    = Some "UuXRc0FukxO4Ab0MAObRnsZWoGsZMBSnfN9xqOkUiR0=" /\
    spec_confirmationTag Base64.btoa "alice" "bob" 1700000000200
    = "jxZG/hYU6nFFuojJxOJ2SVzs8GnOFE3N8mfMHJ3Jiyo=" /\
    Message.confirmationHash (response result)
    <> Some (spec_confirmationTag Base64.btoa "alice" "bob" 1700000000200).
Proof.
  eexists _, _. split; [vm_compute; reflexivity|].
  split; [vm_compute; reflexivity|].
  split; [vm_compute; reflexivity|].
  vm_compute; discriminate.
Qed.

End Runs.

(** * Further properties of the replay guard *)

Section ReplayGuardFrames.
Import ReplayProtection.

Ltac run := unfold bind, ret, get, modify, throw, logReplayAttack; simpl.

(** What each check leaves alone. *)
Lemma validateNonce_frame conversationId nonce st :
  seenTimestamps (validateNonce conversationId nonce st).2 = seenTimestamps st /\
  sequenceNumbers (validateNonce conversationId nonce st).2 = sequenceNumbers st /\
  messageHistory (validateNonce conversationId nonce st).2 = messageHistory st.
Proof.
  unfold validateNonce.
  destruct (negb (truthy_string conversationId) || negb (truthy_string nonce));
    [auto|]. run.
  destruct (seenNonces st !! conversationId) eqn:E; simpl.
  - rewrite E. destruct (bool_decide _); auto.
  - rewrite lookup_insert_eq. destruct (bool_decide _); auto.
Qed.

Lemma validateTimestamp_frame now conversationId t st :
  seenNonces (validateTimestamp now conversationId t st).2 = seenNonces st /\
  sequenceNumbers (validateTimestamp now conversationId t st).2 = sequenceNumbers st /\
  messageHistory (validateTimestamp now conversationId t st).2 = messageHistory st.
Proof.
  unfold validateTimestamp.
  destruct (negb (truthy_string conversationId) || negb (truthy_number t)); [auto|].
  simpl. destruct (t >? _); [auto|]. destruct (t <? _); [auto|]. run.
  destruct (seenTimestamps st !! conversationId) eqn:E; simpl.
  - rewrite E. auto.
  - rewrite lookup_insert_eq. auto.
Qed.

Lemma validateSequenceNumber_frame ctx sequenceNumber messageId st :
  seenNonces (validateSequenceNumber ctx sequenceNumber messageId st).2
  = seenNonces st /\
  seenTimestamps (validateSequenceNumber ctx sequenceNumber messageId st).2
  = seenTimestamps st.
Proof.
  unfold validateSequenceNumber. destruct sequenceNumber as [n|]; [|auto].
  destruct (negb (truthy_string ctx)); [auto|]. run.
  destruct (sequenceNumbers st !! ctx) eqn:E; simpl.
  - rewrite E. destruct (messageHistory st !! ctx); [|auto].
    destruct (bool_decide _); [auto|]. destruct (n <? _); [auto|].
    destruct (n >? _); auto.
  - rewrite !lookup_insert_eq. destruct (bool_decide _); [auto|].
    destruct (n <? _); [auto|]. destruct (n >? _); auto.
Qed.

(** A context that has never carried a sequence number behaves as one
    with high-water mark 0 and an empty history. *)
Lemma validateSequenceNumber_first_use ctx n messageId st :
  truthy_string ctx = true ->
  sequenceNumbers st !! ctx = None ->
  validateSequenceNumber ctx (Some n) messageId st
  = validateSequenceNumber ctx (Some n) messageId
      (set_messageHistory <[ctx := ∅]> (set_sequenceNumbers <[ctx := 0]> st)).
Proof.
  intros Hc Hnone. unfold validateSequenceNumber. rewrite Hc. run.
  rewrite Hnone. unfold set_messageHistory, set_sequenceNumbers. simpl.
  rewrite !lookup_insert_eq. simpl. rewrite !lookup_insert_eq. reflexivity.
Qed.

(** The three answers of [validateSequenceNumber] on an initialised
    context: a seen number is refused, an unseen number within the window
    below the high-water mark, or above it, is accepted. *)
Lemma validateSequenceNumber_duplicate ctx n messageId st lastSequence history :
  truthy_string ctx = true ->
  sequenceNumbers st !! ctx = Some lastSequence ->
  messageHistory st !! ctx = Some history ->
  is_Some (history !! n) ->
  validateSequenceNumber ctx (Some n) messageId st
  = (Returns false,
     set_securityLog
       (fun log => log ++ [ReplayAttackEntry ctx "sequence"
                             "Duplicate sequence number detected"]) st).
Proof.
  intros Hc Hlast Hhist Hseen. unfold validateSequenceNumber. rewrite Hc. run.
  rewrite Hlast. simpl. rewrite Hlast, Hhist.
  rewrite bool_decide_eq_true_2 by exact Hseen. reflexivity.
Qed.

Lemma validateSequenceNumber_accepts ctx n messageId st lastSequence history :
  truthy_string ctx = true ->
  sequenceNumbers st !! ctx = Some lastSequence ->
  messageHistory st !! ctx = Some history ->
  history !! n = None ->
  lastSequence - SEQUENCE_WINDOW <= n ->
  validateSequenceNumber ctx (Some n) messageId st
  = (Returns true,
     set_messageHistory
       <[ctx := filter (fun kv => n - SEQUENCE_WINDOW <= kv.1)
                       (<[n := messageId]> history)]>
       (if n >? lastSequence then set_sequenceNumbers <[ctx := n]> st else st)).
Proof.
  intros Hc Hlast Hhist Hnew Hwin. unfold validateSequenceNumber. rewrite Hc. run.
  rewrite Hlast. simpl. rewrite Hlast, Hhist, Hnew.
  rewrite bool_decide_eq_false_2 by (intros [? ?]; discriminate).
  assert (Hnb : (n <? lastSequence - SEQUENCE_WINDOW) = false)
    by (apply Z.ltb_ge; exact Hwin).
  rewrite Hnb. destruct (n >? lastSequence); reflexivity.
Qed.

Lemma validateSequenceNumber_no_history ctx n messageId st lastSequence :
  truthy_string ctx = true ->
  sequenceNumbers st !! ctx = Some lastSequence ->
  messageHistory st !! ctx = None ->
  validateSequenceNumber ctx (Some n) messageId st
  = (Throws (TypeError "history is undefined"), st).
Proof.
  intros Hc Hlast Hhist. unfold validateSequenceNumber. rewrite Hc. run.
  rewrite Hlast. simpl. rewrite Hlast, Hhist. reflexivity.
Qed.

Lemma sequence_consumed_ext st st' ctx n :
  sequenceNumbers st' !! ctx = sequenceNumbers st !! ctx ->
  messageHistory st' !! ctx = messageHistory st !! ctx ->
  sequence_consumed st ctx n -> sequence_consumed st' ctx n.
Proof.
  intros H1 H2 (last & Hlast & Hcase). exists last. rewrite H1, H2. auto.
Qed.

Lemma validateSequenceNumber_initialised_preserves_consumed ctx' n' messageId st
    lastSequence ctx n :
  truthy_string ctx' = true ->
  sequenceNumbers st !! ctx' = Some lastSequence ->
  sequence_consumed st ctx n ->
  sequence_consumed (validateSequenceNumber ctx' (Some n') messageId st).2 ctx n.
Proof.
  intros Hc Hlast Hcons.
  destruct (messageHistory st !! ctx') as [history|] eqn:Hhist.
  2: { rewrite (validateSequenceNumber_no_history _ _ _ _ _ Hc Hlast Hhist).
       exact Hcons. }
  destruct (history !! n') as [seen|] eqn:Hseen.
  { rewrite (validateSequenceNumber_duplicate _ _ _ _ _ _ Hc Hlast Hhist)
      by (rewrite Hseen; eauto).
    revert Hcons. apply sequence_consumed_ext; reflexivity. }
  destruct (decide (n' < lastSequence - SEQUENCE_WINDOW)) as [Hlow|Hwin].
  { rewrite (validateSequenceNumber_below_window _ _ _ _ _ _ Hc Hlast Hhist Hseen Hlow).
    exact Hcons. }
  rewrite (validateSequenceNumber_accepts _ _ _ _ _ _ Hc Hlast Hhist Hseen)
    by lia.
  cbn [snd].
  destruct (decide (ctx = ctx')) as [->|Hne].
  - destruct Hcons as (last & Hlast' & Hcase).
    rewrite Hlast in Hlast'. injection Hlast' as <-.
    set (mark := if n' >? lastSequence then n' else lastSequence).
    assert (Hmark : lastSequence <= mark /\ n' <= mark).
    { subst mark. destruct (n' >? lastSequence) eqn:G; rewrite Z.gtb_ltb in G.
      - apply Z.ltb_lt in G. lia.
      - apply Z.ltb_ge in G. lia. }
    exists mark. split.
    { subst mark. destruct (n' >? lastSequence); simpl.
      - apply lookup_insert_eq.
      - exact Hlast. }
    destruct Hcase as [(h & Hh & Hin)|Hbelow]; [|right; lia].
    rewrite Hhist in Hh. injection Hh as <-.
    destruct (decide (n' - SEQUENCE_WINDOW <= n)) as [Hkeep|Hevict]; [|right; lia].
    left. eexists. split.
    { destruct (n' >? lastSequence); simpl; apply lookup_insert_eq. }
    destruct Hin as [m Hm].
    exists m. apply map_lookup_filter_Some. split; [|exact Hkeep].
    rewrite lookup_insert_ne; [exact Hm|]. intros ->. congruence.
  - revert Hcons. apply sequence_consumed_ext.
    + destruct (n' >? lastSequence); simpl; [|reflexivity].
      apply lookup_insert_ne. congruence.
    + destruct (n' >? lastSequence); simpl; apply lookup_insert_ne; congruence.
Qed.

Lemma validateSequenceNumber_preserves_consumed ctx' sequenceNumber messageId st
    ctx n :
  sequence_consumed st ctx n ->
  sequence_consumed (validateSequenceNumber ctx' sequenceNumber messageId st).2 ctx n.
Proof.
  intros Hcons. destruct sequenceNumber as [n'|]; [|exact Hcons].
  destruct (truthy_string ctx') eqn:Hc.
  2: { unfold validateSequenceNumber. rewrite Hc. exact Hcons. }
  destruct (sequenceNumbers st !! ctx') as [last|] eqn:Hlast.
  - eapply validateSequenceNumber_initialised_preserves_consumed; eauto.
  - rewrite (validateSequenceNumber_first_use _ _ _ _ Hc Hlast).
    apply (validateSequenceNumber_initialised_preserves_consumed ctx' n' messageId
             _ 0); [exact Hc|simpl; apply lookup_insert_eq|].
    assert (Hne : ctx' <> ctx).
    { intros ->. destruct Hcons as (l & Hl & _). congruence. }
    revert Hcons. apply sequence_consumed_ext; simpl; apply lookup_insert_ne;
      exact Hne.
Qed.

Lemma validateSequenceNumber_accepted_consumed ctx n messageId st st' :
  validateSequenceNumber ctx (Some n) messageId st = (Returns true, st') ->
  sequence_consumed st' ctx n.
Proof.
  assert (Hinit : forall s last,
             truthy_string ctx = true ->
             sequenceNumbers s !! ctx = Some last ->
             validateSequenceNumber ctx (Some n) messageId s = (Returns true, st') ->
             sequence_consumed st' ctx n).
  { intros s last Hc Hlast Hrun.
    destruct (messageHistory s !! ctx) as [history|] eqn:Hhist.
    2: { rewrite (validateSequenceNumber_no_history _ _ _ _ _ Hc Hlast Hhist) in Hrun.
         discriminate. }
    destruct (history !! n) as [seen|] eqn:Hseen.
    { rewrite (validateSequenceNumber_duplicate _ _ _ _ _ _ Hc Hlast Hhist) in Hrun
        by (rewrite Hseen; eauto). discriminate. }
    destruct (decide (n < last - SEQUENCE_WINDOW)) as [Hlow|Hwin].
    { rewrite (validateSequenceNumber_below_window _ _ _ _ _ _ Hc Hlast Hhist Hseen
                 Hlow) in Hrun. discriminate. }
    rewrite (validateSequenceNumber_accepts _ _ _ _ _ _ Hc Hlast Hhist Hseen) in Hrun
      by lia.
    injection Hrun as <-.
    exists (if n >? last then n else last). split.
    { destruct (n >? last); simpl; [apply lookup_insert_eq|exact Hlast]. }
    left. eexists. split.
    { destruct (n >? last); simpl; apply lookup_insert_eq. }
    exists messageId. apply map_lookup_filter_Some. split.
    - apply lookup_insert_eq.
    - simpl. unfold SEQUENCE_WINDOW. lia. }
  intros Hrun.
  destruct (truthy_string ctx) eqn:Hc.
  2: { unfold validateSequenceNumber in Hrun. rewrite Hc in Hrun. discriminate. }
  destruct (sequenceNumbers st !! ctx) as [last|] eqn:Hlast.
  - exact (Hinit st last eq_refl Hlast Hrun).
  - rewrite (validateSequenceNumber_first_use _ _ _ _ Hc Hlast) in Hrun.
    refine (Hinit _ 0 eq_refl _ Hrun). simpl. apply lookup_insert_eq.
Qed.

Lemma sequence_consumed_not_accepted ctx n messageId st :
  sequence_consumed st ctx n ->
  (validateSequenceNumber ctx (Some n) messageId st).1 <> Returns true.
Proof.
  intros (last & Hlast & Hcase).
  destruct (truthy_string ctx) eqn:Hc.
  2: { unfold validateSequenceNumber. rewrite Hc. discriminate. }
  destruct (messageHistory st !! ctx) as [history|] eqn:Hhist.
  2: { rewrite (validateSequenceNumber_no_history _ _ _ _ _ Hc Hlast Hhist).
       discriminate. }
  destruct (history !! n) as [seen|] eqn:Hseen.
  { rewrite (validateSequenceNumber_duplicate _ _ _ _ _ _ Hc Hlast Hhist)
      by (rewrite Hseen; eauto). discriminate. }
  destruct Hcase as [(h & Hh & Hin)|Hlow].
  - injection Hh as <-. rewrite Hseen in Hin.
    destruct Hin; discriminate.
  - rewrite (validateSequenceNumber_below_window _ _ _ _ _ _ Hc Hlast Hhist Hseen
               Hlow). discriminate.
Qed.

(** [validateReplayProtection] seen from the sequence maps: the nonce and
    timestamp checks lead to a state [st2] with the same sequence maps;
    the call then either stops there without accepting, or accepts there
    (no sequence number), or hands over to [validateSequenceNumber]. *)
Lemma validateReplayProtection_shape now conversationId nonce timestamp
    sequenceNumber messageId sequenceContextId st :
  exists st2,
    sequenceNumbers st2 = sequenceNumbers st /\
    messageHistory st2 = messageHistory st /\
    let r := validateReplayProtection now conversationId nonce timestamp
               sequenceNumber messageId sequenceContextId st in
    (r.1 <> Returns Accepted /\ r.2 = st2) \/
    (sequenceNumber = None /\ r = (Returns Accepted, st2)) \/
    (exists n,
        sequenceNumber = Some n /\
        let v := validateSequenceNumber (or_string sequenceContextId conversationId)
                   (Some n) messageId st2 in
        r.2 = v.2 /\ (r.1 = Returns Accepted <-> v.1 = Returns true)).
Proof.
  unfold validateReplayProtection.
  set (nonceStep :=
         match nonce with
         | Some n => if truthy_string n then validateNonce conversationId n
                     else ret true
         | None => ret true
         end).
  set (timestampStep :=
         match timestamp with
         | Some t => if truthy_number t then validateTimestamp now conversationId t
                     else ret true
         | None => ret true
         end).
  assert (Hn : forall s, sequenceNumbers (nonceStep s).2 = sequenceNumbers s /\
                         messageHistory (nonceStep s).2 = messageHistory s).
  { intros s. subst nonceStep. destruct nonce as [n|]; [|auto].
    destruct (truthy_string n); [|auto].
    destruct (validateNonce_frame conversationId n s) as (_ & ? & ?). auto. }
  assert (Ht : forall s, sequenceNumbers (timestampStep s).2 = sequenceNumbers s /\
                         messageHistory (timestampStep s).2 = messageHistory s).
  { intros s. subst timestampStep. destruct timestamp as [t|]; [|auto].
    destruct (truthy_number t); [|auto].
    destruct (validateTimestamp_frame now conversationId t s) as (_ & ? & ?). auto. }
  change (match sequenceContextId with
          | Some c => if truthy_string c then c else conversationId
          | None => conversationId
          end) with (or_string sequenceContextId conversationId).
  unfold bind. cbv beta zeta.
  specialize (Hn st).
  destruct (nonceStep st) as [[nonceOk|e] st1]; simpl in Hn; destruct Hn as [Hn1 Hn2].
  2: { exists st1. split; [exact Hn1|]. split; [exact Hn2|].
       left. split; [intros H; simpl in H; discriminate|reflexivity]. }
  destruct nonceOk; cbv beta iota delta [negb].
  2: { exists st1. split; [exact Hn1|]. split; [exact Hn2|].
       left. split; [intros H; simpl in H; discriminate|reflexivity]. }
  specialize (Ht st1).
  destruct (timestampStep st1) as [[timestampOk|e] st2]; simpl in Ht;
    destruct Ht as [Ht1 Ht2]; exists st2;
    (split; [congruence|]); (split; [congruence|]).
  2: { left. split; [intros H; simpl in H; discriminate|reflexivity]. }
  destruct timestampOk; cbv beta iota delta [negb].
  2: { left. split; [intros H; simpl in H; discriminate|reflexivity]. }
  destruct sequenceNumber as [n|].
  2: { right. left. split; reflexivity. }
  right. right. exists n. split; [reflexivity|].
  destruct (validateSequenceNumber (or_string sequenceContextId conversationId)
              (Some n) messageId st2) as [[[]|e] st3]; simpl;
    (split; [reflexivity|]); split; intros H; try reflexivity; discriminate.
Qed.

Lemma run_call_preserves_consumed c st ctx n :
  sequence_consumed st ctx n -> sequence_consumed (run_call c st).2 ctx n.
Proof.
  intros Hcons. unfold run_call.
  destruct (validateReplayProtection_shape (call_now c) (call_conversationId c)
              (call_nonce c) (call_timestamp c) (call_sequenceNumber c)
              (call_messageId c) (call_sequenceContextId c) st)
    as (st2 & H1 & H2 & Hshape).
  assert (Hcons2 : sequence_consumed st2 ctx n).
  { revert Hcons. apply sequence_consumed_ext; congruence. }
  cbv zeta in Hshape.
  destruct Hshape as [[_ ->]|[[_ ->]|(m & _ & -> & _)]]; try exact Hcons2.
  apply validateSequenceNumber_preserves_consumed. exact Hcons2.
Qed.

Lemma run_calls_preserve_consumed calls st ctx n :
  sequence_consumed st ctx n -> sequence_consumed (run_calls calls st) ctx n.
Proof.
  revert st. induction calls as [|c calls IH]; intros st Hcons; [exact Hcons|].
  simpl. apply IH, run_call_preserves_consumed, Hcons.
Qed.

(** X1.  No sequence number is accepted twice for a context.  Once a call
    of [validateReplayProtection] carrying sequence number [n] has been
    accepted, no later call with the same sequence context and the same
    [n] is accepted, whatever calls (of any conversation, accepted,
    rejected or failed) came in between: the number stays in the history
    until the window has moved past it, and from then on it is below the
    window. *)
Theorem sequence_number_accepted_once :
  forall (first : Call) (between : list Call) (again : Call) n st st1,
    call_sequenceNumber first = Some n ->
    run_call first st = (Returns Accepted, st1) ->
    call_sequenceNumber again = Some n ->
    sequence_context again = sequence_context first ->
    (run_call again (run_calls between st1)).1 <> Returns Accepted.
Proof.
  intros first between again n st st1 Hn Hrun Hn' Hctx.
  assert (Hcons : sequence_consumed st1 (sequence_context first) n).
  { unfold run_call in Hrun.
    destruct (validateReplayProtection_shape (call_now first)
                (call_conversationId first) (call_nonce first)
                (call_timestamp first) (call_sequenceNumber first)
                (call_messageId first) (call_sequenceContextId first) st)
      as (st2 & _ & _ & Hshape).
    cbv zeta in Hshape. rewrite Hrun in Hshape. cbn [fst snd] in Hshape.
    destruct Hshape as [[Hno _]|[[Hnone _]|(m & Hm & Hst & Hacc)]].
    - contradiction.
    - congruence.
    - rewrite Hn in Hm. injection Hm as <-.
      destruct (validateSequenceNumber _ _ _ st2) as [o s] eqn:Hv.
      cbn [fst snd] in *.
      subst s. assert (o = Returns true) by (apply Hacc; reflexivity). subst o.
      exact (validateSequenceNumber_accepted_consumed _ _ _ _ _ Hv). }
  apply (run_calls_preserve_consumed between) in Hcons.
  set (st' := run_calls between st1) in *.
  unfold run_call.
  destruct (validateReplayProtection_shape (call_now again)
              (call_conversationId again) (call_nonce again)
              (call_timestamp again) (call_sequenceNumber again)
              (call_messageId again) (call_sequenceContextId again) st')
    as (st2 & H1 & H2 & Hshape).
  cbv zeta in Hshape.
  destruct Hshape as [[Hno _]|[[Hnone _]|(m & Hm & _ & Hacc)]].
  - exact Hno.
  - congruence.
  - rewrite Hn' in Hm. injection Hm as <-. intros Haccepted.
    apply Hacc in Haccepted. revert Haccepted.
    apply sequence_consumed_not_accepted.
    fold (sequence_context again). rewrite Hctx.
    revert Hcons. apply sequence_consumed_ext; congruence.
Qed.

(** An invariant rule: what the three checks preserve is preserved by
    [validateReplayProtection], whatever it answers, and by any series of
    calls. *)
Lemma validateReplayProtection_preserves (P : State -> Prop) now conversationId
    nonce timestamp sequenceNumber messageId sequenceContextId st :
  (forall n s, P s -> P (validateNonce conversationId n s).2) ->
  (forall t s, P s -> P (validateTimestamp now conversationId t s).2) ->
  (forall s, P s ->
             P (validateSequenceNumber (or_string sequenceContextId conversationId)
                  sequenceNumber messageId s).2) ->
  P st ->
  P (validateReplayProtection now conversationId nonce timestamp sequenceNumber
       messageId sequenceContextId st).2.
Proof.
  intros Hnonce Htime Hseq HP.
  unfold validateReplayProtection.
  set (nonceStep :=
         match nonce with
         | Some n => if truthy_string n then validateNonce conversationId n
                     else ret true
         | None => ret true
         end).
  set (timestampStep :=
         match timestamp with
         | Some t => if truthy_number t then validateTimestamp now conversationId t
                     else ret true
         | None => ret true
         end).
  assert (Hn : forall s, P s -> P (nonceStep s).2).
  { intros s Hs. subst nonceStep. destruct nonce as [n|]; [|exact Hs].
    destruct (truthy_string n); [apply Hnonce|]; exact Hs. }
  assert (Ht : forall s, P s -> P (timestampStep s).2).
  { intros s Hs. subst timestampStep. destruct timestamp as [t|]; [|exact Hs].
    destruct (truthy_number t); [apply Htime|]; exact Hs. }
  change (match sequenceContextId with
          | Some c => if truthy_string c then c else conversationId
          | None => conversationId
          end) with (or_string sequenceContextId conversationId).
  unfold bind. cbv beta zeta.
  specialize (Hn st HP).
  destruct (nonceStep st) as [[nonceOk|e] st1]; cbn [snd] in Hn; [|exact Hn].
  destruct nonceOk; cbv beta iota delta [negb]; [|exact Hn].
  specialize (Ht st1 Hn).
  destruct (timestampStep st1) as [[timestampOk|e] st2]; cbn [snd] in Ht; [|exact Ht].
  destruct timestampOk; cbv beta iota delta [negb]; [|exact Ht].
  specialize (Hseq st2 Ht).
  destruct sequenceNumber as [n|]; [|exact Ht].
  destruct (validateSequenceNumber (or_string sequenceContextId conversationId)
              (Some n) messageId st2) as [[[]|e] st3]; exact Hseq.
Qed.

Lemma run_calls_preserve (P : State -> Prop) :
  (forall c n s, P s -> P (validateNonce c n s).2) ->
  (forall now c t s, P s -> P (validateTimestamp now c t s).2) ->
  (forall c q m s, P s -> P (validateSequenceNumber c q m s).2) ->
  forall calls st, P st -> P (run_calls calls st).
Proof.
  intros Hnonce Htime Hseq calls.
  induction calls as [|c calls IH]; intros st HP; [exact HP|].
  simpl. apply IH. unfold run_call.
  apply validateReplayProtection_preserves; auto.
Qed.

(** X2.  In every state that the replay guard reaches from the empty one,
    by any series of calls, each conversation keeps at most 1000
    timestamps. *)
Theorem timestamps_stay_bounded :
  forall calls, timestamps_bounded (run_calls calls empty_state).
Proof.
  intros calls. apply run_calls_preserve.
  - intros c n s Hs conv l Hl.
    destruct (validateNonce_frame c n s) as (E & _). rewrite E in Hl. eauto.
  - intros now c t s Hs conv l. unfold validateTimestamp.
    destruct (negb (truthy_string c) || negb (truthy_number t)); [apply Hs|].
    simpl. destruct (t >? _); [apply Hs|]. destruct (t <? _); [apply Hs|].
    run.
    assert (Hpush : forall old,
               (length old <= MAX_TIMESTAMPS_PER_CONVERSATION)%nat ->
               (length (if (MAX_TIMESTAMPS_PER_CONVERSATION
                            <? length (old ++ [t]))%nat
                        then tail (old ++ [t]) else old ++ [t])
                <= MAX_TIMESTAMPS_PER_CONVERSATION)%nat).
    { intros old Hold.
      destruct (MAX_TIMESTAMPS_PER_CONVERSATION <? length (old ++ [t]))%nat eqn:E.
      - rewrite length_tl, length_app. simpl. lia.
      - apply Nat.ltb_ge in E. exact E. }
    destruct (seenTimestamps s !! c) as [old|] eqn:E; simpl.
    + rewrite E. simpl. intros Hl.
      destruct (decide (conv = c)) as [->|Hne].
      * rewrite lookup_insert_eq in Hl. injection Hl as <-.
        apply Hpush. eapply Hs; eauto.
      * rewrite lookup_insert_ne in Hl by congruence. eapply Hs; eauto.
    + rewrite lookup_insert_eq. simpl. intros Hl.
      destruct (decide (conv = c)) as [->|Hne].
      * rewrite lookup_insert_eq in Hl. injection Hl as <-.
        apply (Hpush []). simpl. unfold MAX_TIMESTAMPS_PER_CONVERSATION. lia.
      * rewrite !lookup_insert_ne in Hl by congruence. eapply Hs; eauto.
  - intros c q m s Hs conv l Hl.
    destruct (validateSequenceNumber_frame c q m s) as (_ & E). rewrite E in Hl. eauto.
  - intros conv l Hl. simpl in Hl. rewrite lookup_empty in Hl. discriminate.
Qed.

Lemma validateSequenceNumber_initialised_ok ctx' n' messageId st lastSequence :
  truthy_string ctx' = true ->
  sequenceNumbers st !! ctx' = Some lastSequence ->
  sequence_state_ok st ->
  sequence_state_ok (validateSequenceNumber ctx' (Some n') messageId st).2.
Proof.
  intros Hc Hlast Hok.
  pose proof (Hok ctx') as Hctx. rewrite Hlast in Hctx.
  destruct (messageHistory st !! ctx') as [history|] eqn:Hhist; [|contradiction].
  destruct (history !! n') as [seen|] eqn:Hseen.
  { rewrite (validateSequenceNumber_duplicate _ _ _ _ _ _ Hc Hlast Hhist)
      by (rewrite Hseen; eauto). exact Hok. }
  destruct (decide (n' < lastSequence - SEQUENCE_WINDOW)) as [Hlow|Hwin].
  { rewrite (validateSequenceNumber_below_window _ _ _ _ _ _ Hc Hlast Hhist Hseen Hlow).
    exact Hok. }
  rewrite (validateSequenceNumber_accepts _ _ _ _ _ _ Hc Hlast Hhist Hseen) by lia.
  cbn [snd]. unfold SEQUENCE_WINDOW in *.
  set (mark := if n' >? lastSequence then n' else lastSequence).
  assert (Hmark : (lastSequence <= mark /\ n' <= mark) /\
                  (mark = lastSequence \/ mark = n')).
  { subst mark. destruct (n' >? lastSequence) eqn:G; rewrite Z.gtb_ltb in G.
    - apply Z.ltb_lt in G. lia.
    - apply Z.ltb_ge in G. lia. }
  intros ctx. destruct (decide (ctx = ctx')) as [->|Hne].
  - assert (Hs : sequenceNumbers
                   (set_messageHistory
                      <[ctx' := filter (fun kv => n' - 100 <= kv.1)
                                       (<[n' := messageId]> history)]>
                      (if n' >? lastSequence
                       then set_sequenceNumbers <[ctx' := n']> st else st))
                 !! ctx' = Some mark).
    { subst mark. destruct (n' >? lastSequence); simpl;
        [apply lookup_insert_eq|exact Hlast]. }
    rewrite Hs.
    assert (Hh : messageHistory
                   (set_messageHistory
                      <[ctx' := filter (fun kv => n' - 100 <= kv.1)
                                       (<[n' := messageId]> history)]>
                      (if n' >? lastSequence
                       then set_sequenceNumbers <[ctx' := n']> st else st))
                 !! ctx'
                 = Some (filter (fun kv => n' - 100 <= kv.1)
                                (<[n' := messageId]> history))).
    { destruct (n' >? lastSequence); simpl; apply lookup_insert_eq. }
    rewrite Hh. intros k [x Hx].
    apply map_lookup_filter_Some in Hx. destruct Hx as [Hx Hk]. simpl in Hk.
    destruct (decide (k = n')) as [->|Hkn]; [lia|].
    rewrite lookup_insert_ne in Hx by congruence.
    specialize (Hctx k (ex_intro _ x Hx)). lia.
  - specialize (Hok ctx).
    assert (Hs : sequenceNumbers
                   (set_messageHistory
                      <[ctx' := filter (fun kv => n' - 100 <= kv.1)
                                       (<[n' := messageId]> history)]>
                      (if n' >? lastSequence
                       then set_sequenceNumbers <[ctx' := n']> st else st))
                 !! ctx = sequenceNumbers st !! ctx).
    { destruct (n' >? lastSequence); simpl; [|reflexivity].
      apply lookup_insert_ne. congruence. }
    assert (Hh : messageHistory
                   (set_messageHistory
                      <[ctx' := filter (fun kv => n' - 100 <= kv.1)
                                       (<[n' := messageId]> history)]>
                      (if n' >? lastSequence
                       then set_sequenceNumbers <[ctx' := n']> st else st))
                 !! ctx = messageHistory st !! ctx).
    { destruct (n' >? lastSequence); simpl; apply lookup_insert_ne; congruence. }
    rewrite Hs, Hh. exact Hok.
Qed.

Lemma validateSequenceNumber_ok ctx' sequenceNumber messageId st :
  sequence_state_ok st ->
  sequence_state_ok (validateSequenceNumber ctx' sequenceNumber messageId st).2.
Proof.
  intros Hok. destruct sequenceNumber as [n'|]; [|exact Hok].
  destruct (truthy_string ctx') eqn:Hc.
  2: { unfold validateSequenceNumber. rewrite Hc. exact Hok. }
  destruct (sequenceNumbers st !! ctx') as [last|] eqn:Hlast.
  - eapply validateSequenceNumber_initialised_ok; eauto.
  - rewrite (validateSequenceNumber_first_use _ _ _ _ Hc Hlast).
    apply (validateSequenceNumber_initialised_ok ctx' n' messageId _ 0);
      [exact Hc|simpl; apply lookup_insert_eq|].
    intros ctx. simpl. destruct (decide (ctx = ctx')) as [->|Hne].
    + rewrite !lookup_insert_eq. intros k [x Hx]. rewrite lookup_empty in Hx.
      discriminate.
    + rewrite !lookup_insert_ne by congruence. apply Hok.
Qed.

(** X3.  In every state that the replay guard reaches from the empty one,
    a context has a history of sequence numbers exactly when it has a
    high-water mark, and every number in the history lies between the
    mark minus 200 and the mark: a history never holds more than 201
    entries, and the sequence check never meets an undefined history. *)
Theorem sequence_history_stays_in_window :
  forall calls, sequence_state_ok (run_calls calls empty_state).
Proof.
  intros calls. apply run_calls_preserve.
  - intros c n s Hs ctx.
    destruct (validateNonce_frame c n s) as (_ & E1 & E2). rewrite E1, E2. apply Hs.
  - intros now c t s Hs ctx.
    destruct (validateTimestamp_frame now c t s) as (_ & E1 & E2).
    rewrite E1, E2. apply Hs.
  - intros c q m s Hs. apply validateSequenceNumber_ok, Hs.
  - intros ctx. simpl. rewrite !lookup_empty. exact I.
Qed.

(** X4.  An unseen sequence number that is not more than 100 below the
    context's high-water mark is accepted, also when it is lower than the
    mark (out of order).  The mark becomes the larger of the two, the
    number is recorded with the message id, and every number more than
    100 below the accepted one is dropped from the history. *)
Theorem sequence_within_window_accepted :
  forall ctx n messageId st lastSequence history,
    truthy_string ctx = true ->
    sequenceNumbers st !! ctx = Some lastSequence ->
    messageHistory st !! ctx = Some history ->
    history !! n = None ->
    lastSequence - SEQUENCE_WINDOW <= n ->
    exists st' history',
      validateSequenceNumber ctx (Some n) messageId st = (Returns true, st') /\
      sequenceNumbers st' !! ctx = Some (Z.max lastSequence n) /\
      messageHistory st' !! ctx = Some history' /\
      history' !! n = Some messageId /\
      (forall k, k <> n ->
                 history' !! k
                 = if decide (n - SEQUENCE_WINDOW <= k) then history !! k else None).
Proof.
  intros ctx n mid st last history Hc Hlast Hhist Hnew Hwin.
  rewrite (validateSequenceNumber_accepts _ _ _ _ _ _ Hc Hlast Hhist Hnew Hwin).
  eexists _, _. split; [reflexivity|]. split.
  { destruct (n >? last) eqn:G; rewrite Z.gtb_ltb in G; simpl.
    - apply Z.ltb_lt in G. rewrite lookup_insert_eq. f_equal. lia.
    - apply Z.ltb_ge in G. rewrite Hlast. f_equal. lia. }
  split.
  { destruct (n >? last); simpl; apply lookup_insert_eq. }
  split.
  { apply map_lookup_filter_Some. split; [apply lookup_insert_eq|].
    simpl. unfold SEQUENCE_WINDOW. lia. }
  intros k Hk. destruct (decide (n - SEQUENCE_WINDOW <= k)) as [Hkeep|Hdrop].
  - destruct (history !! k) as [x|] eqn:Hx.
    + apply map_lookup_filter_Some. split; [|exact Hkeep].
      rewrite lookup_insert_ne by congruence. exact Hx.
    + apply map_lookup_filter_None. left.
      rewrite lookup_insert_ne by congruence. exact Hx.
  - apply map_lookup_filter_None. right. intros x _. exact Hdrop.
Qed.

Lemma validateNonce_other conversationId nonce st other :
  other <> conversationId ->
  seenNonces (validateNonce conversationId nonce st).2 !! other
  = seenNonces st !! other.
Proof.
  intros Hne. unfold validateNonce.
  destruct (negb (truthy_string conversationId) || negb (truthy_string nonce));
    [reflexivity|]. run.
  destruct (seenNonces st !! conversationId) eqn:E; simpl.
  - rewrite E. destruct (bool_decide _); simpl; [reflexivity|].
    apply lookup_insert_ne. congruence.
  - rewrite lookup_insert_eq. destruct (bool_decide _); simpl;
      rewrite ?lookup_insert_ne by congruence; reflexivity.
Qed.

Lemma validateTimestamp_other now conversationId t st other :
  other <> conversationId ->
  seenTimestamps (validateTimestamp now conversationId t st).2 !! other
  = seenTimestamps st !! other.
Proof.
  intros Hne. unfold validateTimestamp.
  destruct (negb (truthy_string conversationId) || negb (truthy_number t));
    [reflexivity|].
  simpl. destruct (t >? _); [reflexivity|]. destruct (t <? _); [reflexivity|]. run.
  destruct (seenTimestamps st !! conversationId) eqn:E; simpl.
  - rewrite E. simpl. apply lookup_insert_ne. congruence.
  - rewrite lookup_insert_eq. simpl. rewrite !lookup_insert_ne by congruence.
    reflexivity.
Qed.

Lemma validateSequenceNumber_other ctx sequenceNumber messageId st other :
  other <> ctx ->
  sequenceNumbers (validateSequenceNumber ctx sequenceNumber messageId st).2 !! other
  = sequenceNumbers st !! other /\
  messageHistory (validateSequenceNumber ctx sequenceNumber messageId st).2 !! other
  = messageHistory st !! other.
Proof.
  intros Hne. unfold validateSequenceNumber.
  destruct sequenceNumber as [n|]; [|auto].
  destruct (negb (truthy_string ctx)); [auto|]. run.
  destruct (sequenceNumbers st !! ctx) eqn:E; simpl.
  - rewrite E. destruct (messageHistory st !! ctx); [|auto].
    destruct (bool_decide _); [auto|]. destruct (n <? _); [auto|].
    destruct (n >? _); simpl; rewrite ?lookup_insert_ne by congruence; auto.
  - rewrite !lookup_insert_eq. destruct (bool_decide _); simpl.
    + rewrite !lookup_insert_ne by congruence. auto.
    + destruct (n <? _); simpl.
      * rewrite !lookup_insert_ne by congruence. auto.
      * destruct (n >? _); simpl; rewrite !lookup_insert_ne by congruence; auto.
Qed.

(** X5.  Replay state is kept per conversation: a call does not touch the
    nonces and timestamps of any other conversation, nor the high-water
    mark and history of any sequence context other than its own. *)
Theorem replay_state_is_per_conversation :
  forall (c : Call) st other,
    (other <> call_conversationId c ->
     seenNonces (run_call c st).2 !! other = seenNonces st !! other /\
     seenTimestamps (run_call c st).2 !! other = seenTimestamps st !! other) /\
    (other <> sequence_context c ->
     sequenceNumbers (run_call c st).2 !! other = sequenceNumbers st !! other /\
     messageHistory (run_call c st).2 !! other = messageHistory st !! other).
Proof.
  intros c st other. split; intros Hne; unfold run_call.
  - apply (validateReplayProtection_preserves
             (fun s => seenNonces s !! other = seenNonces st !! other /\
                       seenTimestamps s !! other = seenTimestamps st !! other)).
    + intros n s [H1 H2]. rewrite validateNonce_other by exact Hne.
      destruct (validateNonce_frame (call_conversationId c) n s) as (E & _).
      rewrite E. auto.
    + intros t s [H1 H2]. rewrite validateTimestamp_other by exact Hne.
      destruct (validateTimestamp_frame (call_now c) (call_conversationId c) t s)
        as (E & _). rewrite E. auto.
    + intros s [H1 H2].
      destruct (validateSequenceNumber_frame
                  (or_string (call_sequenceContextId c) (call_conversationId c))
                  (call_sequenceNumber c) (call_messageId c) s) as (E1 & E2).
      rewrite E1, E2. auto.
    + auto.
  - apply (validateReplayProtection_preserves
             (fun s => sequenceNumbers s !! other = sequenceNumbers st !! other /\
                       messageHistory s !! other = messageHistory st !! other)).
    + intros n s [H1 H2].
      destruct (validateNonce_frame (call_conversationId c) n s) as (_ & E1 & E2).
      rewrite E1, E2. auto.
    + intros t s [H1 H2].
      destruct (validateTimestamp_frame (call_now c) (call_conversationId c) t s)
        as (_ & E1 & E2). rewrite E1, E2. auto.
    + intros s [H1 H2].
      destruct (validateSequenceNumber_other
                  (or_string (call_sequenceContextId c) (call_conversationId c))
                  (call_sequenceNumber c) (call_messageId c) s other Hne)
        as (E1 & E2).
      rewrite E1, E2. auto.
    + auto.
Qed.

(** X6.  [resetReplayProtection] forgets a conversation and nothing else:
    its statistics are all zero afterwards, any non-empty nonce is
    accepted for it again, and the statistics of every other conversation
    are what they were. *)
Theorem reset_forgets_one_conversation :
  forall conversationId st,
    getReplayProtectionStats conversationId
      (resetReplayProtection conversationId st) = mkStats 0 0 0 0 /\
    (forall other,
        other <> conversationId ->
        getReplayProtectionStats other (resetReplayProtection conversationId st)
        = getReplayProtectionStats other st) /\
    (forall nonce,
        truthy_string conversationId = true ->
        truthy_string nonce = true ->
        (validateNonce conversationId nonce
           (resetReplayProtection conversationId st)).1 = Returns true).
Proof.
  intros conv st. split; [|split].
  - unfold getReplayProtectionStats, resetReplayProtection. simpl.
    rewrite !lookup_delete_eq. reflexivity.
  - intros other Hne. unfold getReplayProtectionStats, resetReplayProtection. simpl.
    rewrite !lookup_delete_ne by congruence. reflexivity.
  - intros nonce Hc Hn.
    destruct (validateNonce_fresh (resetReplayProtection conv st) conv nonce Hc Hn)
      as (st' & Hv & _).
    + unfold nonce_recorded, resetReplayProtection. simpl.
      rewrite lookup_delete_eq. reflexivity.
    + rewrite Hv. reflexivity.
Qed.

End ReplayGuardFrames.

(** * The message endpoint *)

Section MessageEndpoint.
Import ReplayProtection.

(** An answer of [validateReplayProtection] with [valid] set is
    [{valid: true}]. *)
Lemma validateReplayProtection_valid_accepted now conversationId nonce timestamp
    sequenceNumber messageId sequenceContextId st v st' :
  validateReplayProtection now conversationId nonce timestamp sequenceNumber
    messageId sequenceContextId st = (Returns v, st') ->
  valid v = true -> v = Accepted.
Proof.
  unfold validateReplayProtection, bind.
  destruct (match nonce with
            | Some n => if truthy_string n then validateNonce conversationId n
                        else ret true
            | None => ret true
            end st) as [[[]|e] st1]; cbv beta iota delta [negb];
    try (intros H; inversion H; subst; simpl; intros; discriminate).
  destruct (match timestamp with
            | Some t => if truthy_number t then validateTimestamp now conversationId t
                        else ret true
            | None => ret true
            end st1) as [[[]|e] st2]; cbv beta iota delta [negb];
    try (intros H; inversion H; subst; simpl; intros; discriminate).
  destruct sequenceNumber as [n|].
  2: { intros H; inversion H; reflexivity. }
  destruct (validateSequenceNumber _ (Some n) messageId st2) as [[[]|e] st3];
    cbv beta iota delta [negb]; intros H; inversion H; subst; simpl; intros;
    try reflexivity; discriminate.
Qed.

(** An accepted call that carries a sequence number ends with an accepting
    run of [validateSequenceNumber]. *)
Lemma validateReplayProtection_accepted_sequence now conversationId nonce timestamp
    n messageId sequenceContextId st rp :
  validateReplayProtection now conversationId nonce timestamp (Some n) messageId
    sequenceContextId st = (Returns Accepted, rp) ->
  exists st2,
    validateSequenceNumber (or_string sequenceContextId conversationId) (Some n)
      messageId st2 = (Returns true, rp).
Proof.
  intros Hrun.
  destruct (validateReplayProtection_shape now conversationId nonce timestamp
              (Some n) messageId sequenceContextId st) as (st2 & _ & _ & Hshape).
  cbv zeta in Hshape. rewrite Hrun in Hshape. cbn [fst snd] in Hshape.
  destruct Hshape as [[Hno _]|[[Hnone _]|(m & Hm & Hst & Hacc)]].
  - contradiction.
  - discriminate.
  - injection Hm as <-. exists st2.
    destruct (validateSequenceNumber _ _ _ st2) as [o s]. cbn [fst snd] in *.
    subst s. f_equal. apply Hacc. reflexivity.
Qed.

(** What an accepting run of [validateSequenceNumber] leaves behind. *)
Lemma validateSequenceNumber_accepted_records ctx n messageId st st' :
  validateSequenceNumber ctx (Some n) messageId st = (Returns true, st') ->
  truthy_string ctx = true /\
  securityLog st' = securityLog st /\
  exists lastSequence history,
    sequenceNumbers st' !! ctx = Some lastSequence /\
    messageHistory st' !! ctx = Some history /\
    history !! n = Some messageId.
Proof.
  assert (Hinit : forall s last,
             truthy_string ctx = true ->
             sequenceNumbers s !! ctx = Some last ->
             validateSequenceNumber ctx (Some n) messageId s = (Returns true, st') ->
             securityLog st' = securityLog s /\
             exists lastSequence history,
               sequenceNumbers st' !! ctx = Some lastSequence /\
               messageHistory st' !! ctx = Some history /\
               history !! n = Some messageId).
  { intros s last Hc Hlast Hrun.
    destruct (messageHistory s !! ctx) as [history|] eqn:Hhist.
    2: { rewrite (validateSequenceNumber_no_history _ _ _ _ _ Hc Hlast Hhist) in Hrun.
         discriminate. }
    destruct (history !! n) as [seen|] eqn:Hseen.
    { rewrite (validateSequenceNumber_duplicate _ _ _ _ _ _ Hc Hlast Hhist) in Hrun
        by (rewrite Hseen; eauto). discriminate. }
    destruct (decide (n < last - SEQUENCE_WINDOW)) as [Hlow|Hwin].
    { rewrite (validateSequenceNumber_below_window _ _ _ _ _ _ Hc Hlast Hhist Hseen
                 Hlow) in Hrun. discriminate. }
    rewrite (validateSequenceNumber_accepts _ _ _ _ _ _ Hc Hlast Hhist Hseen) in Hrun
      by lia.
    injection Hrun as <-. split.
    { destruct (n >? last); reflexivity. }
    exists (if n >? last then n else last). eexists. split.
    { destruct (n >? last); simpl; [apply lookup_insert_eq|exact Hlast]. }
    split.
    { destruct (n >? last); simpl; apply lookup_insert_eq. }
    apply map_lookup_filter_Some. split.
    - apply lookup_insert_eq.
    - simpl. unfold SEQUENCE_WINDOW. lia. }
  intros Hrun.
  destruct (truthy_string ctx) eqn:Hc.
  2: { unfold validateSequenceNumber in Hrun. rewrite Hc in Hrun. discriminate. }
  split; [reflexivity|].
  destruct (sequenceNumbers st !! ctx) as [last|] eqn:Hlast.
  - exact (Hinit st last eq_refl Hlast Hrun).
  - rewrite (validateSequenceNumber_first_use _ _ _ _ Hc Hlast) in Hrun.
    refine (Hinit _ 0 eq_refl _ Hrun). simpl. apply lookup_insert_eq.
Qed.

(** The second run of [validateSequenceNumber] in [sendMessage], on the
    state that the accepted validation left. *)
Lemma revalidation_is_duplicate conversationId nonce timestamp now n senderId
    newMessageId st rp :
  validateReplayProtection now conversationId nonce timestamp (Some n) None
    (Some (conversationId +:+ "_" +:+ senderId)) st = (Returns Accepted, rp) ->
  validateSequenceNumber (conversationId +:+ "_" +:+ senderId) (Some n)
    (Some newMessageId) rp
  = (Returns false,
     set_securityLog
       (fun log => log ++ [ReplayAttackEntry (conversationId +:+ "_" +:+ senderId)
                             "sequence" "Duplicate sequence number detected"]) rp) /\
  exists history,
    messageHistory rp !! (conversationId +:+ "_" +:+ senderId) = Some history /\
    history !! n = Some None.
Proof.
  intros Hrun.
  apply validateReplayProtection_accepted_sequence in Hrun as (st2 & Hseq).
  unfold or_string in Hseq. rewrite truthy_joined in Hseq.
  apply validateSequenceNumber_accepted_records in Hseq
    as (Hc & _ & last & history & Hlast & Hhist & Hn).
  split; [|eauto].
  apply (validateSequenceNumber_duplicate _ _ _ _ last history Hc Hlast Hhist).
  rewrite Hn. eauto.
Qed.

(** The answers of [sendMessage]: status 201 with the message appended to
    the conversation, or another status with the messages as they were. *)
Lemma sendMessage_answers nowDefault nowValidate nowStored conversationId
    newMessageId body receiverId senderId st :
  let r := MessageController.sendMessage nowDefault nowValidate nowStored
             conversationId newMessageId body receiverId senderId st in
  (MessageController.status r.1 <> 201 /\
   MessageController.body r.1 = None /\
   MessageController.messages r.2 = MessageController.messages st /\
   (forall rp,
       validateReplayProtection nowValidate conversationId
         (MessageController.nonce body)
         (Some (or_number (MessageController.messageTimestamp body) nowDefault))
         (MessageController.sequenceNumber body) None
         (Some (conversationId +:+ "_" +:+ senderId)) (MessageController.replay st)
       = (Returns Accepted, rp) ->
       MessageController.falsy_opt_string (MessageController.ciphertext body)
       || MessageController.falsy_opt_string (MessageController.iv body)
       || MessageController.falsy_opt_string (MessageController.authTag body)
       || truthy_opt truthy_string (MessageController.message body) = true)) \/
  (exists rp newMessage,
      validateReplayProtection nowValidate conversationId
        (MessageController.nonce body)
        (Some (or_number (MessageController.messageTimestamp body) nowDefault))
        (MessageController.sequenceNumber body) None
        (Some (conversationId +:+ "_" +:+ senderId)) (MessageController.replay st)
      = (Returns Accepted, rp) /\
      MessageController.status r.1 = 201 /\
      MessageController.body r.1 = Some newMessage /\
      MessageController.stored_id newMessage = newMessageId /\
      MessageController.messages r.2
      = <[conversationId :=
            default [] (MessageController.messages st !! conversationId)
            ++ [newMessage]]> (MessageController.messages st) /\
      MessageController.replay r.2
      = match MessageController.sequenceNumber body with
        | None => rp
        | Some _ =>
            set_securityLog
              (fun log => log ++ [ReplayAttackEntry
                                    (conversationId +:+ "_" +:+ senderId)
                                    "sequence" "Duplicate sequence number detected"])
              rp
        end).
Proof.
  intros r. subst r. unfold MessageController.sendMessage.
  destruct (MessageController.falsy_opt_string (MessageController.ciphertext body)
            || MessageController.falsy_opt_string (MessageController.iv body)
            || MessageController.falsy_opt_string (MessageController.authTag body))
    eqn:Hmissing.
  { left. simpl. repeat split; try reflexivity. lia. }
  destruct (truthy_opt truthy_string (MessageController.message body)) eqn:Hplain.
  { left. simpl. repeat split; try reflexivity. lia. }
  destruct (validateReplayProtection nowValidate conversationId
              (MessageController.nonce body)
              (Some (or_number (MessageController.messageTimestamp body) nowDefault))
              (MessageController.sequenceNumber body) None
              (Some (conversationId +:+ "_" +:+ senderId))
              (MessageController.replay st)) as [[v|e] rp] eqn:Hv.
  2: { left. simpl. repeat split; try reflexivity; [lia|]. intros; discriminate. }
  destruct (valid v) eqn:Hvalid; cbv beta iota delta [negb].
  2: { left. simpl. repeat split; try reflexivity; [lia|].
       intros rp' H. injection H as -> _. discriminate. }
  assert (v = Accepted) by (eapply validateReplayProtection_valid_accepted; eauto).
  subst v. right. exists rp.
  exists (MessageController.mkStoredMessage newMessageId senderId receiverId
            (default "" (MessageController.ciphertext body))
            (default "" (MessageController.iv body))
            (default "" (MessageController.authTag body))
            (default "text" (MessageController.messageType body))
            (or_number (MessageController.sequenceNumber body) 0)
            (or_number (MessageController.messageTimestamp body) nowStored)
            (MessageController.or_null_string (MessageController.fileName body))
            (MessageController.or_null_string (MessageController.fileType body))
            (MessageController.or_null_number (MessageController.fileSize body))).
  split; [reflexivity|].
  destruct (MessageController.sequenceNumber body) as [n|] eqn:Hn.
  2: { simpl. repeat split; reflexivity. }
  destruct (revalidation_is_duplicate _ _ _ _ _ _ newMessageId _ _ Hv) as [Hre _].
  rewrite Hre. simpl. repeat split; reflexivity.
Qed.

(** X7.  [sendMessage] reports each message that carries a sequence number
    as its own replay.  When such a request is answered 201, the second
    run of [validateSequenceNumber] (meant to attach the new message id)
    finds the number that the first run has just recorded: the last entry
    of the security log is a "Duplicate sequence number detected" replay
    entry for the sender's sequence context, and the history keeps null,
    not the message id, for that number. *)
Theorem sendMessage_logs_own_sequence_as_duplicate :
  forall nowDefault nowValidate nowStored conversationId newMessageId body
         receiverId senderId st n,
    MessageController.sequenceNumber body = Some n ->
    MessageController.status
      (MessageController.sendMessage nowDefault nowValidate nowStored conversationId
         newMessageId body receiverId senderId st).1 = 201 ->
    let st' := (MessageController.sendMessage nowDefault nowValidate nowStored
                  conversationId newMessageId body receiverId senderId st).2 in
    let ctx := conversationId +:+ "_" +:+ senderId in
    last (securityLog (MessageController.replay st'))
    = Some (ReplayAttackEntry ctx "sequence" "Duplicate sequence number detected") /\
    exists history,
      messageHistory (MessageController.replay st') !! ctx = Some history /\
      history !! n = Some None.
Proof.
  intros nd nv ns conv newId body recv sender st n Hn Hstatus st' ctx.
  subst st'.
  destruct (sendMessage_answers nd nv ns conv newId body recv sender st)
    as [(Hno & _)|(rp & m & Hv & _ & _ & _ & _ & Hrp)]; [contradiction|].
  rewrite Hrp, Hn. rewrite Hn in Hv.
  destruct (revalidation_is_duplicate _ _ _ _ _ _ newId _ _ Hv)
    as [_ (history & Hhist & Hnull)].
  split.
  - simpl. apply last_snoc.
  - exists history. simpl. auto.
Qed.

(** X7 on concrete inputs: the first message of "alice" in conversation
    "c1", with sequence number 1. *)
Lemma sendMessage_logs_own_sequence_as_duplicate_witness :
  let st' := (MessageController.sendMessage 1700000000000 1700000000001
                1700000000002 "c1" "m-1" (encrypted_body "nonce-1" 1700000000000 1)
                "bob" "alice" (MessageController.mkState empty_state ∅)).2 in
  last (securityLog (MessageController.replay st'))
  = Some (ReplayAttackEntry "c1_alice" "sequence" "Duplicate sequence number detected") /\
  exists history,
    messageHistory (MessageController.replay st') !! "c1_alice" = Some history /\
    history !! 1 = Some None.
Proof.
  apply (sendMessage_logs_own_sequence_as_duplicate 1700000000000 1700000000001
           1700000000002 "c1" "m-1" (encrypted_body "nonce-1" 1700000000000 1)
           "bob" "alice" (MessageController.mkState empty_state ∅) 1).
  - reflexivity.
  - vm_compute. reflexivity.
Defined.

(** The same with the sequence maps of the intermediate state. *)
Lemma validateReplayProtection_accepted_from now conversationId nonce timestamp
    n messageId sequenceContextId st rp :
  validateReplayProtection now conversationId nonce timestamp (Some n) messageId
    sequenceContextId st = (Returns Accepted, rp) ->
  exists st2,
    sequenceNumbers st2 = sequenceNumbers st /\
    messageHistory st2 = messageHistory st /\
    validateSequenceNumber (or_string sequenceContextId conversationId) (Some n)
      messageId st2 = (Returns true, rp).
Proof.
  intros Hrun.
  destruct (validateReplayProtection_shape now conversationId nonce timestamp
              (Some n) messageId sequenceContextId st) as (st2 & H1 & H2 & Hshape).
  cbv zeta in Hshape. rewrite Hrun in Hshape. cbn [fst snd] in Hshape.
  destruct Hshape as [[Hno _]|[[Hnone _]|(m & Hm & Hst & Hacc)]].
  - contradiction.
  - discriminate.
  - injection Hm as <-. exists st2. split; [exact H1|]. split; [exact H2|].
    destruct (validateSequenceNumber _ _ _ st2) as [o s]. cbn [fst snd] in *.
    subst s. f_equal. apply Hacc. reflexivity.
Qed.

(** What is preserved by [validateReplayProtection] and by
    [validateSequenceNumber] is preserved by [sendMessage]. *)
Lemma sendMessage_replay_preserves (P : State -> Prop) nowDefault nowValidate
    nowStored conversationId newMessageId body receiverId senderId st :
  (forall nonce timestamp sequenceNumber s,
      P s ->
      P (validateReplayProtection nowValidate conversationId nonce timestamp
           sequenceNumber None (Some (conversationId +:+ "_" +:+ senderId)) s).2) ->
  (forall sequenceNumber messageId s,
      P s ->
      P (validateSequenceNumber (conversationId +:+ "_" +:+ senderId) sequenceNumber
           messageId s).2) ->
  P (MessageController.replay st) ->
  P (MessageController.replay
       (MessageController.sendMessage nowDefault nowValidate nowStored conversationId
          newMessageId body receiverId senderId st).2).
Proof.
  intros Hcall Hseq HP. unfold MessageController.sendMessage.
  destruct (_ || _); [exact HP|].
  destruct (truthy_opt truthy_string (MessageController.message body)); [exact HP|].
  specialize (Hcall (MessageController.nonce body)
                (Some (or_number (MessageController.messageTimestamp body) nowDefault))
                (MessageController.sequenceNumber body) _ HP).
  destruct (validateReplayProtection _ _ _ _ _ _ _ _) as [[v|e] rp];
    cbn [snd] in Hcall; [|exact Hcall].
  destruct (negb (valid v)); [exact Hcall|].
  destruct (MessageController.sequenceNumber body) as [n|]; [|exact Hcall].
  specialize (Hseq (Some n) (Some newMessageId) rp Hcall).
  destruct (validateSequenceNumber _ _ _ rp) as [[b|e] rp']; exact Hseq.
Qed.

Lemma serve_preserves_consumed r st ctx n :
  sequence_consumed (MessageController.replay st) ctx n ->
  sequence_consumed (MessageController.replay (serve r st).2) ctx n.
Proof.
  intros Hcons. unfold serve. apply sendMessage_replay_preserves; [| |exact Hcons].
  - intros nonce timestamp q s Hs.
    exact (run_call_preserves_consumed
             (mkCall (req_nowValidate r) (req_conversationId r) nonce timestamp q None
                     (Some (req_conversationId r +:+ "_" +:+ req_senderId r)))
             s ctx n Hs).
  - intros q m s Hs. apply validateSequenceNumber_preserves_consumed. exact Hs.
Qed.

Lemma serve_all_preserves_consumed requests st ctx n :
  sequence_consumed (MessageController.replay st) ctx n ->
  sequence_consumed (MessageController.replay (serve_all requests st)) ctx n.
Proof.
  revert st. induction requests as [|r requests IH]; intros st Hcons; [exact Hcons|].
  simpl. apply IH, serve_preserves_consumed, Hcons.
Qed.

(** X8.  A sender's sequence number stores at most one message per
    conversation.  Once [sendMessage] has answered 201 to a request with
    sequence number [n], every later request of the same sender in the same
    conversation with the same [n] is refused or fails (400 or 500, never
    201) and stores nothing, whatever requests were served in between. *)
Theorem sequence_number_stores_one_message :
  forall (first : Request) (between : list Request) (again : Request) n st,
    MessageController.sequenceNumber (req_body first) = Some n ->
    MessageController.status (serve first st).1 = 201 ->
    MessageController.sequenceNumber (req_body again) = Some n ->
    req_conversationId again = req_conversationId first ->
    req_senderId again = req_senderId first ->
    let st' := serve_all between (serve first st).2 in
    MessageController.status (serve again st').1 <> 201 /\
    MessageController.body (serve again st').1 = None /\
    MessageController.messages (serve again st').2 = MessageController.messages st'.
Proof.
  intros first between again n st Hn Hcreated Hn' Hconv Hsender st'.
  set (ctx := req_conversationId first +:+ "_" +:+ req_senderId first).
  assert (Hcons : sequence_consumed (MessageController.replay (serve first st).2)
                    ctx n).
  { unfold serve in *.
    destruct (sendMessage_answers (req_nowDefault first) (req_nowValidate first)
                (req_nowStored first) (req_conversationId first)
                (req_newMessageId first) (req_body first) (req_receiverId first)
                (req_senderId first) st)
      as [(Hno & _)|(rp & m & Hv & _ & _ & _ & _ & Hrp)]; [contradiction|].
    rewrite Hrp, Hn. rewrite Hn in Hv.
    apply validateReplayProtection_accepted_sequence in Hv as (st2 & Hseq).
    unfold or_string in Hseq. rewrite truthy_joined in Hseq.
    apply validateSequenceNumber_accepted_consumed in Hseq.
    revert Hseq. apply sequence_consumed_ext; reflexivity. }
  apply (serve_all_preserves_consumed between) in Hcons. fold st' in Hcons.
  unfold serve.
  destruct (sendMessage_answers (req_nowDefault again) (req_nowValidate again)
              (req_nowStored again) (req_conversationId again)
              (req_newMessageId again) (req_body again) (req_receiverId again)
              (req_senderId again) st')
    as [(Hno & Hbody & Hmsg & _)|(rp & m & Hv & _)]; [auto|].
  exfalso. rewrite Hn' in Hv.
  apply validateReplayProtection_accepted_from in Hv as (st2 & H1 & H2 & Hseq).
  unfold or_string in Hseq. rewrite truthy_joined in Hseq.
  rewrite Hconv, Hsender in Hseq. fold ctx in Hseq.
  apply (sequence_consumed_not_accepted ctx n None st2).
  - revert Hcons. apply sequence_consumed_ext; congruence.
  - rewrite Hseq. reflexivity.
Qed.

(** X8 on concrete inputs: "alice" sends sequence number 1 in "c1", "bob"
    sends his own number 1, then "alice" sends number 1 again with a fresh
    nonce. *)
Lemma sequence_number_stores_one_message_witness :
  let first := mkRequest 1700000000000 1700000000001 1700000000002 "c1" "m-1"
                 (encrypted_body "nonce-1" 1700000000000 1) "bob" "alice" in
  let other := mkRequest 1700000000100 1700000000101 1700000000102 "c1" "m-2"
                 (encrypted_body "nonce-2" 1700000000100 1) "alice" "bob" in
  let again := mkRequest 1700000000200 1700000000201 1700000000202 "c1" "m-3"
                 (encrypted_body "nonce-3" 1700000000200 1) "bob" "alice" in
  let st' := serve_all [other]
               (serve first (MessageController.mkState empty_state ∅)).2 in
  MessageController.status (serve again st').1 <> 201 /\
  MessageController.body (serve again st').1 = None /\
  MessageController.messages (serve again st').2 = MessageController.messages st'.
Proof.
  intros first other again.
  apply (sequence_number_stores_one_message first [other] again 1
           (MessageController.mkState empty_state ∅)).
  - reflexivity.
  - vm_compute. reflexivity.
  - reflexivity.
  - reflexivity.
  - reflexivity.
Defined.


End MessageEndpoint.

(** * The key-exchange endpoints *)

Section KeyExchangeEndpoints.
Import ReplayProtection.

Lemma validateNonce_keeps_recorded conversationId n st c nonce :
  nonce_recorded st c nonce = true ->
  nonce_recorded (validateNonce conversationId n st).2 c nonce = true.
Proof.
  intros Hrec. unfold validateNonce.
  destruct (negb (truthy_string conversationId) || negb (truthy_string n));
    [exact Hrec|].
  unfold bind, ret, get, modify, throw, logReplayAttack; simpl.
  unfold nonce_recorded in *.
  destruct (seenNonces st !! conversationId) as [nonceSet|] eqn:E; simpl.
  - rewrite E. destruct (bool_decide (n ∈ nonceSet)); simpl; [exact Hrec|].
    destruct (decide (c = conversationId)) as [->|Hne].
    + rewrite lookup_insert_eq. rewrite E in Hrec.
      apply bool_decide_eq_true. apply bool_decide_eq_true in Hrec. set_solver.
    + rewrite lookup_insert_ne by congruence. exact Hrec.
  - rewrite lookup_insert_eq.
    assert (c <> conversationId) by (intros ->; rewrite E in Hrec; discriminate).
    destruct (bool_decide _); simpl; rewrite ?lookup_insert_ne by congruence;
      exact Hrec.
Qed.

Lemma validateNonce_true_recorded conversationId nonce st st' :
  validateNonce conversationId nonce st = (Returns true, st') ->
  nonce_recorded st' conversationId nonce = true.
Proof.
  intros Hv.
  destruct (truthy_string conversationId) eqn:Hc.
  2: { unfold validateNonce in Hv. rewrite Hc in Hv. discriminate. }
  destruct (truthy_string nonce) eqn:Hn.
  2: { unfold validateNonce in Hv. rewrite Hc, Hn in Hv. discriminate. }
  destruct (nonce_recorded st conversationId nonce) eqn:Hrec.
  - destruct (validateNonce_recorded st conversationId nonce Hn Hrec)
      as (s & Hv' & _). congruence.
  - destruct (validateNonce_fresh st conversationId nonce Hc Hn Hrec)
      as (s & Hv' & Hrec' & _). congruence.
Qed.

(** An accepted call has recorded its non-empty nonce. *)
Lemma accepted_call_records_nonce now conversationId nonce timestamp sequenceNumber
    messageId sequenceContextId st rp :
  truthy_string nonce = true ->
  validateReplayProtection now conversationId (Some nonce) timestamp sequenceNumber
    messageId sequenceContextId st = (Returns Accepted, rp) ->
  nonce_recorded rp conversationId nonce = true.
Proof.
  intros Hn Hrun.
  destruct (validateNonce conversationId nonce st) as [[[]|e] s1] eqn:Hv.
  - assert (Hrest : validateReplayProtection now conversationId (Some nonce) timestamp
                      sequenceNumber messageId sequenceContextId st
                    = validateReplayProtection now conversationId None timestamp
                        sequenceNumber messageId sequenceContextId s1).
    { unfold validateReplayProtection. rewrite Hn. unfold bind at 1. rewrite Hv.
      reflexivity. }
    rewrite Hrest in Hrun.
    change rp with (Returns Accepted, rp).2. rewrite <- Hrun.
    apply (validateReplayProtection_preserves
             (fun s => nonce_recorded s conversationId nonce = true)).
    + intros n s Hs. apply validateNonce_keeps_recorded. exact Hs.
    + intros t s Hs. unfold nonce_recorded in *.
      destruct (validateTimestamp_frame now conversationId t s) as (E & _).
      rewrite E. exact Hs.
    + intros s Hs. unfold nonce_recorded in *.
      destruct (validateSequenceNumber_frame
                  (or_string sequenceContextId conversationId) sequenceNumber
                  messageId s) as (E & _).
      rewrite E. exact Hs.
    + apply validateNonce_true_recorded in Hv. exact Hv.
  - unfold validateReplayProtection in Hrun. rewrite Hn in Hrun.
    unfold bind at 1 in Hrun. rewrite Hv in Hrun. discriminate.
  - unfold validateReplayProtection in Hrun. rewrite Hn in Hrun.
    unfold bind at 1 in Hrun. rewrite Hv in Hrun. discriminate.
Qed.

(** A call whose non-empty nonce is recorded is rejected for the nonce. *)
Lemma recorded_nonce_call_rejected now conversationId nonce timestamp sequenceNumber
    messageId sequenceContextId st :
  truthy_string nonce = true ->
  nonce_recorded st conversationId nonce = true ->
  exists st',
    validateReplayProtection now conversationId (Some nonce) timestamp sequenceNumber
      messageId sequenceContextId st = (Returns (Rejected reason_nonce), st').
Proof.
  intros Hn Hrec.
  destruct (validateNonce_recorded st conversationId nonce Hn Hrec) as (st' & Hv & _).
  exists st'. unfold validateReplayProtection. rewrite Hn. unfold bind at 1.
  rewrite Hv. reflexivity.
Qed.

(** The answers of the two POST endpoints: status 200 with the envelope
    written into the conversation's entry (the other half of the entry is
    kept), or another status with the store as it was. *)
Lemma initiateKeyExchange_answers nowDefault nowValidate nowStore message authUserId st :
  let r := Controller.initiateKeyExchange nowDefault nowValidate nowStore message
             authUserId st in
  let conversationId :=
    or_string (Message.conversationId message)
              (Message.senderId message +:+ "_" +:+ Message.receiverId message) in
  (Controller.status r.1 <> 200 /\
   Controller.keyExchangeStore r.2 = Controller.keyExchangeStore st) \/
  (exists rp,
      Message.type message = "KEY_EXCHANGE_INIT" /\
      Message.senderId message = authUserId /\
      validateReplayProtection nowValidate conversationId (Message.nonce message)
        (Some (or_number (Message.timestamp message) nowDefault)) None None None
        (Controller.replay st) = (Returns Accepted, rp) /\
      r = (Controller.mkResponse 200 None (Some conversationId),
           Controller.mkState
             (Controller.logKeyExchangeAttempt (Message.senderId message)
                (Message.receiverId message) conversationId true rp)
             (<[conversationId :=
                  let store := default Controller.empty_exchange
                                 (Controller.keyExchangeStore st !! conversationId) in
                  Controller.mkExchange (Some message) (Some nowStore)
                    (Controller.response store) (Controller.responseTimestamp store)]>
                (Controller.keyExchangeStore st)))).
Proof.
  intros r conv. subst r. unfold Controller.initiateKeyExchange. fold conv.
  destruct (negb (truthy_string (Message.type message))
            || negb (Message.type message =? "KEY_EXCHANGE_INIT")%string) eqn:Htype.
  { left. simpl. split; [lia|reflexivity]. }
  destruct (Message.senderId message =? authUserId)%string eqn:Hsender;
    cbv beta iota delta [negb].
  2: { left. simpl. split; [lia|reflexivity]. }
  apply orb_false_iff in Htype as [_ Htype].
  apply negb_false_iff, String.eqb_eq in Htype. apply String.eqb_eq in Hsender.
  destruct (validateReplayProtection _ _ _ _ _ _ _ _) as [[v|e] rp] eqn:Hv.
  2: { left. simpl. split; [lia|reflexivity]. }
  destruct (valid v) eqn:Hvalid; cbv beta iota delta [negb].
  2: { left. simpl. split; [lia|reflexivity]. }
  assert (v = Accepted) by (eapply validateReplayProtection_valid_accepted; eauto).
  subst v. right. exists rp. auto.
Qed.

Lemma respondToKeyExchange_answers nowDefault nowValidate nowStore message authUserId st :
  let r := Controller.respondToKeyExchange nowDefault nowValidate nowStore message
             authUserId st in
  let conversationId :=
    or_string (Message.conversationId message)
              (Message.receiverId message +:+ "_" +:+ Message.senderId message) in
  (Controller.status r.1 <> 200 /\
   Controller.keyExchangeStore r.2 = Controller.keyExchangeStore st) \/
  (exists rp,
      Message.type message = "KEY_EXCHANGE_RESPONSE" /\
      Message.senderId message = authUserId /\
      validateReplayProtection nowValidate conversationId (Message.nonce message)
        (Some (or_number (Message.timestamp message) nowDefault)) None None None
        (Controller.replay st) = (Returns Accepted, rp) /\
      r = (Controller.mkResponse 200 None (Some conversationId),
           Controller.mkState
             (Controller.logKeyExchangeAttempt (Message.senderId message)
                (Message.receiverId message) conversationId true rp)
             (<[conversationId :=
                  let store := default Controller.empty_exchange
                                 (Controller.keyExchangeStore st !! conversationId) in
                  Controller.mkExchange (Controller.init store)
                    (Controller.initTimestamp store) (Some message) (Some nowStore)]>
                (Controller.keyExchangeStore st)))).
Proof.
  intros r conv. subst r. unfold Controller.respondToKeyExchange. fold conv.
  destruct (negb (truthy_string (Message.type message))
            || negb (Message.type message =? "KEY_EXCHANGE_RESPONSE")%string) eqn:Htype.
  { left. simpl. split; [lia|reflexivity]. }
  destruct (Message.senderId message =? authUserId)%string eqn:Hsender;
    cbv beta iota delta [negb].
  2: { left. simpl. split; [lia|reflexivity]. }
  apply orb_false_iff in Htype as [_ Htype].
  apply negb_false_iff, String.eqb_eq in Htype. apply String.eqb_eq in Hsender.
  destruct (validateReplayProtection _ _ _ _ _ _ _ _) as [[v|e] rp] eqn:Hv.
  2: { left. simpl. split; [lia|reflexivity]. }
  destruct (valid v) eqn:Hvalid; cbv beta iota delta [negb].
  2: { left. simpl. split; [lia|reflexivity]. }
  assert (v = Accepted) by (eapply validateReplayProtection_valid_accepted; eauto).
  subst v. right. exists rp. auto.
Qed.

(** X10.  The key-exchange endpoints refuse a replayed envelope.  After an
    Init (a Response) with a non-empty nonce has been answered 200, the
    same envelope posted again by the same user is answered 400 with the
    nonce reason, whatever the clocks read, and the stored exchanges are
    not changed. *)
Theorem key_exchange_replay_refused :
  forall nowDefault nowValidate nowStore message authUserId st nonce
         nowDefault' nowValidate' nowStore',
    Message.nonce message = Some nonce ->
    truthy_string nonce = true ->
    (let first := Controller.initiateKeyExchange nowDefault nowValidate nowStore
                    message authUserId st in
     let again := Controller.initiateKeyExchange nowDefault' nowValidate' nowStore'
                    message authUserId first.2 in
     Controller.status first.1 = 200 ->
     again.1 = Controller.mkResponse 400
                 (Some "Replay attack detected in key exchange: Invalid or duplicate nonce")
                 None /\
     Controller.keyExchangeStore again.2 = Controller.keyExchangeStore first.2) /\
    (let first := Controller.respondToKeyExchange nowDefault nowValidate nowStore
                    message authUserId st in
     let again := Controller.respondToKeyExchange nowDefault' nowValidate' nowStore'
                    message authUserId first.2 in
     Controller.status first.1 = 200 ->
     again.1 = Controller.mkResponse 400
                 (Some "Replay attack detected in key exchange response: Invalid or duplicate nonce")
                 None /\
     Controller.keyExchangeStore again.2 = Controller.keyExchangeStore first.2).
Proof.
  intros nd nv ns message user st nonce nd' nv' ns' Hnonce Hn. split.
  - intros first again Hok. subst again first.
    destruct (initiateKeyExchange_answers nd nv ns message user st)
      as [(Hno & _)|(rp & Htype & Hsender & Hv & Hr)]; [contradiction|].
    rewrite Hr. cbn [snd].
    rewrite Hnonce in Hv. apply accepted_call_records_nonce in Hv; [|exact Hn].
    unfold Controller.initiateKeyExchange.
    rewrite Htype, Hsender, !String.eqb_refl, Hnonce. simpl negb. simpl orb.
    cbv iota. cbn [Controller.replay Controller.keyExchangeStore].
    set (conv := or_string (Message.conversationId message)
                   (user +:+ "_" +:+ Message.receiverId message)) in *.
    rewrite Hsender in Hv. fold conv in Hv.
    destruct (recorded_nonce_call_rejected nv' conv nonce
                (Some (or_number (Message.timestamp message) nd')) None None None
                (Controller.logKeyExchangeAttempt user (Message.receiverId message)
                   conv true rp) Hn Hv) as (rp' & Hrej).
    rewrite Hrej. split; reflexivity.
  - intros first again Hok. subst again first.
    destruct (respondToKeyExchange_answers nd nv ns message user st)
      as [(Hno & _)|(rp & Htype & Hsender & Hv & Hr)]; [contradiction|].
    rewrite Hr. cbn [snd].
    rewrite Hnonce in Hv. apply accepted_call_records_nonce in Hv; [|exact Hn].
    unfold Controller.respondToKeyExchange.
    rewrite Htype, Hsender, !String.eqb_refl, Hnonce. simpl negb. simpl orb.
    cbv iota. cbn [Controller.replay Controller.keyExchangeStore].
    set (conv := or_string (Message.conversationId message)
                   (Message.receiverId message +:+ "_" +:+ user)) in *.
    rewrite Hsender in Hv. fold conv in Hv.
    destruct (recorded_nonce_call_rejected nv' conv nonce
                (Some (or_number (Message.timestamp message) nd')) None None None
                (Controller.logKeyExchangeAttempt user (Message.receiverId message)
                   conv true rp) Hn Hv) as (rp' & Hrej).
    rewrite Hrej. split; reflexivity.
Qed.

(** X10 on concrete inputs: the Init of "alice" for "bob", posted twice to a
    server that starts empty. *)
Lemma key_exchange_replay_refused_witness :
  let first := Controller.initiateKeyExchange 1700000000001 1700000000002
                 1700000000003 Scenario.init_content "alice"
                 (Controller.mkState empty_state ∅) in
  let again := Controller.initiateKeyExchange 1700000000011 1700000000012
                 1700000000013 Scenario.init_content "alice" first.2 in
  again.1 = Controller.mkResponse 400
              (Some "Replay attack detected in key exchange: Invalid or duplicate nonce")
              None /\
  Controller.keyExchangeStore again.2 = Controller.keyExchangeStore first.2.
Proof.
  apply (proj1 (key_exchange_replay_refused 1700000000001 1700000000002
                  1700000000003 Scenario.init_content "alice"
                  (Controller.mkState empty_state ∅) "nonce-a"
                  1700000000011 1700000000012 1700000000013 eq_refl eq_refl)).
  vm_compute. reflexivity.
Defined.

(** X11.  A stored Response is handed out once, to its receiver.  After
    [respondToKeyExchange] has answered 200 for conversation [c], a poll
    of [c] by the Response's receiver returns that Response with
    [found: true] and deletes the whole entry of [c], so that every later
    poll of [c] answers [{response: null}]; a poll by anybody else
    deletes nothing. *)
Theorem response_delivered_once :
  forall nowDefault nowValidate nowStore message authUserId st c,
    let r := Controller.respondToKeyExchange nowDefault nowValidate nowStore message
               authUserId st in
    Controller.status r.1 = 200 ->
    Controller.conversationId r.1 = Some c ->
    let p := Controller.getKeyExchangeResponse c (Message.receiverId message) r.2 in
    p.1 = Controller.mkPollResult None (Some (Some message)) (Some true) /\
    Controller.keyExchangeStore p.2 !! c = None /\
    (forall user,
        Controller.getKeyExchangeResponse c user p.2
        = (Controller.mkPollResult None (Some None) None, p.2)) /\
    (forall other,
        other <> Message.receiverId message ->
        (Controller.getKeyExchangeResponse c other r.2).2 = r.2).
Proof.
  intros nd nv ns message user st c r Hok Hc p. subst p r.
  destruct (respondToKeyExchange_answers nd nv ns message user st)
    as [(Hno & _)|(rp & Htype & Hsender & Hv & Hr)]; [contradiction|].
  rewrite Hr in Hc |- *. cbn [fst snd Controller.conversationId] in Hc |- *.
  injection Hc as Hc. rewrite Hc.
  set (entry := Controller.mkExchange _ _ (Some message) (Some ns)).
  set (rp' := Controller.logKeyExchangeAttempt _ _ _ _ rp).
  assert (Hpoll : forall u,
             Controller.getKeyExchangeResponse c u
               (Controller.mkState rp' (<[c := entry]> (Controller.keyExchangeStore st)))
             = if (Message.receiverId message =? u)%string
               then (Controller.mkPollResult None (Some (Some message)) (Some true),
                     Controller.mkState rp'
                       (delete c (<[c := entry]> (Controller.keyExchangeStore st))))
               else match Controller.init entry with
                    | Some i =>
                        (Controller.mkPollResult (Some i) (Some (Some message))
                           (Some true),
                         Controller.mkState rp'
                           (<[c := entry]> (Controller.keyExchangeStore st)))
                    | None =>
                        (Controller.mkPollResult None (Some None) (Some false),
                         Controller.mkState rp'
                           (<[c := entry]> (Controller.keyExchangeStore st)))
                    end).
  { intros u. unfold Controller.getKeyExchangeResponse.
    cbn [Controller.keyExchangeStore Controller.replay]. rewrite lookup_insert_eq.
    cbn [Controller.response entry]. subst entry. cbn [Controller.response].
    destruct (Message.receiverId message =? u)%string; [reflexivity|].
    destruct (Controller.init _); [|reflexivity].
    rewrite bool_decide_eq_true_2 by eauto. reflexivity. }
  rewrite (Hpoll (Message.receiverId message)), String.eqb_refl. cbn [fst snd].
  split; [reflexivity|]. split.
  { cbn [Controller.keyExchangeStore]. apply lookup_delete_eq. }
  split.
  - intros u. unfold Controller.getKeyExchangeResponse.
    cbn [Controller.keyExchangeStore]. rewrite lookup_delete_eq. reflexivity.
  - intros other Hother. rewrite (Hpoll other).
    destruct (Message.receiverId message =? other)%string eqn:E.
    + apply String.eqb_eq in E. congruence.
    + destruct (Controller.init entry); reflexivity.
Qed.

(** X11 on concrete inputs: the signed Response of "bob" to "alice" with a
    wrong confirmation hash (the server does not look at it), polled by
    "alice". *)
Lemma response_delivered_once_witness :
  let r := Controller.respondToKeyExchange 1700000000201 1700000000202
             1700000000203 Scenario.wrong_tag_response "bob"
             (Controller.mkState empty_state ∅) in
  let p := Controller.getKeyExchangeResponse "c1" "alice" r.2 in
  p.1 = Controller.mkPollResult None (Some (Some Scenario.wrong_tag_response))
          (Some true) /\
  Controller.keyExchangeStore p.2 !! "c1" = None.
Proof.
  intros r p.
  destruct (response_delivered_once 1700000000201 1700000000202 1700000000203
              Scenario.wrong_tag_response "bob" (Controller.mkState empty_state ∅)
              "c1") as (H1 & H2 & _).
  - vm_compute. reflexivity.
  - vm_compute. reflexivity.
  - split; [exact H1|exact H2].
Defined.

(** X12.  An Init is pending for its receiver until a Response is stored.
    After [initiateKeyExchange] has answered 200 for a conversation [c]
    that holds no Response, [getPendingKeyExchanges] lists the Init under
    [c] for the Init's receiver; once [respondToKeyExchange] has answered
    200 for [c], nobody's list has an entry for [c]. *)
Theorem init_pending_until_response :
  forall nowDefault nowValidate nowStore message authUserId st c,
    let r := Controller.initiateKeyExchange nowDefault nowValidate nowStore message
               authUserId st in
    Controller.status r.1 = 200 ->
    Controller.conversationId r.1 = Some c ->
    (forall entry, Controller.keyExchangeStore st !! c = Some entry ->
                   Controller.response entry = None) ->
    Controller.getPendingKeyExchanges (Message.receiverId message) r.2 !! c
    = Some message /\
    (forall nowDefault' nowValidate' nowStore' response authUserId',
        let r' := Controller.respondToKeyExchange nowDefault' nowValidate' nowStore'
                    response authUserId' r.2 in
        Controller.status r'.1 = 200 ->
        Controller.conversationId r'.1 = Some c ->
        forall user, Controller.getPendingKeyExchanges user r'.2 !! c = None).
Proof.
  intros nd nv ns message user st c r Hok Hc Hfree. subst r.
  destruct (initiateKeyExchange_answers nd nv ns message user st)
    as [(Hno & _)|(rp & Htype & Hsender & Hv & Hr)]; [contradiction|].
  rewrite Hr in Hc |- *. cbn [fst snd Controller.conversationId] in Hc |- *.
  injection Hc as Hc. rewrite Hc. split.
  - unfold Controller.getPendingKeyExchanges. cbn [Controller.keyExchangeStore].
    rewrite lookup_omap, lookup_insert_eq. cbn.
    assert (Hresp : Controller.response
                      (default Controller.empty_exchange
                         (Controller.keyExchangeStore st !! c)) = None).
    { destruct (Controller.keyExchangeStore st !! c) as [entry|] eqn:E; simpl.
      - apply Hfree. reflexivity.
      - reflexivity. }
    rewrite Hresp, String.eqb_refl. reflexivity.
  - intros nd' nv' ns' response user'. cbv zeta. intros Hok' Hc' u.
    match type of Hok' with
    | context [Controller.respondToKeyExchange _ _ _ _ _ ?s] =>
        destruct (respondToKeyExchange_answers nd' nv' ns' response user' s)
          as [(Hno & _)|(rp' & _ & _ & _ & Hr')]; [contradiction|]
    end.
    rewrite Hr' in Hc' |- *. cbn [fst snd Controller.conversationId] in Hc' |- *.
    injection Hc' as Hc'. rewrite Hc'.
    unfold Controller.getPendingKeyExchanges. cbn [Controller.keyExchangeStore].
    rewrite lookup_omap, lookup_insert_eq. cbn.
    destruct (Controller.init _); reflexivity.
Qed.

(** X12 on concrete inputs: the Init of "alice" for "bob" in conversation
    "c1" on an empty server. *)
Lemma init_pending_until_response_witness :
  Controller.getPendingKeyExchanges "bob"
    (Controller.initiateKeyExchange 1700000000001 1700000000002 1700000000003
       Scenario.init_content "alice" (Controller.mkState empty_state ∅)).2 !! "c1"
  = Some Scenario.init_content.
Proof.
  apply (init_pending_until_response 1700000000001 1700000000002 1700000000003
           Scenario.init_content "alice" (Controller.mkState empty_state ∅) "c1").
  - vm_compute. reflexivity.
  - vm_compute. reflexivity.
  - intros entry H. vm_compute in H. discriminate.
Defined.

(** X13.  A new Init does not clear an undelivered Response.  When the
    entry of conversation [c] holds a Response addressed to the user who
    now posts an Init for [c], the Init is answered 200 and the user's
    next poll of [c] is answered with that earlier Response,
    [found: true]. *)
Theorem stale_response_answers_new_init :
  forall nowDefault nowValidate nowStore message authUserId st c entry earlier,
    Controller.keyExchangeStore st !! c = Some entry ->
    Controller.response entry = Some earlier ->
    Message.receiverId earlier = authUserId ->
    let r := Controller.initiateKeyExchange nowDefault nowValidate nowStore message
               authUserId st in
    Controller.status r.1 = 200 ->
    Controller.conversationId r.1 = Some c ->
    (Controller.getKeyExchangeResponse c authUserId r.2).1
    = Controller.mkPollResult None (Some (Some earlier)) (Some true).
Proof.
  intros nd nv ns message user st c entry earlier Hentry Hearlier Hrecv r Hok Hc.
  subst r.
  destruct (initiateKeyExchange_answers nd nv ns message user st)
    as [(Hno & _)|(rp & Htype & Hsender & Hv & Hr)]; [contradiction|].
  rewrite Hr in Hc |- *. cbn [fst snd Controller.conversationId] in Hc |- *.
  injection Hc as Hc. rewrite Hc.
  unfold Controller.getKeyExchangeResponse. cbn [Controller.keyExchangeStore].
  rewrite lookup_insert_eq, Hentry. cbn. rewrite Hearlier, Hrecv, String.eqb_refl.
  reflexivity.
Qed.

(** X13 on concrete inputs: conversation "c1" still holds a Response of
    "bob" for "alice" when "alice" posts a new Init. *)
Lemma stale_response_answers_new_init_witness :
  let entry := Controller.mkExchange None None (Some Scenario.wrong_tag_response)
                 (Some 1700000000203) in
  let st := Controller.mkState empty_state {[ "c1" := entry ]} in
  (Controller.getKeyExchangeResponse "c1" "alice"
     (Controller.initiateKeyExchange 1700000200001 1700000200002 1700000200003
        Scenario.init_content "alice" st).2).1
  = Controller.mkPollResult None (Some (Some Scenario.wrong_tag_response)) (Some true).
Proof.
  intros entry st.
  apply (stale_response_answers_new_init 1700000200001 1700000200002 1700000200003
           Scenario.init_content "alice" st "c1" entry Scenario.wrong_tag_response).
  - vm_compute. reflexivity.
  - reflexivity.
  - reflexivity.
  - vm_compute. reflexivity.
  - vm_compute. reflexivity.
Defined.

End KeyExchangeEndpoints.

(** * Runs of the replay guard *)

Section ReplayGuardRuns.
Import ReplayProtection.

(** X1 on concrete inputs: sequence number 200 of context "c1_alice" is
    accepted, 500 moves the window past it, and 200 comes again. *)
Lemma sequence_number_accepted_once_witness :
  (run_call call_200_again
     (run_calls [call_500] (run_call call_200 empty_state).2)).1
  <> Returns Accepted.
Proof.
  apply (sequence_number_accepted_once call_200 [call_500] call_200_again 200
           empty_state (run_call call_200 empty_state).2).
  - reflexivity.
  - vm_compute. reflexivity.
  - reflexivity.
  - reflexivity.
Defined.

(** X4 on concrete inputs: after 200 and 500, the unseen number 450 lies
    within the window below the mark 500. *)
Lemma sequence_within_window_accepted_witness :
  let st := run_calls [call_200; call_500] empty_state in
  exists st' history',
    validateSequenceNumber "c1_alice" (Some 450) (Some "m-450") st
    = (Returns true, st') /\
    sequenceNumbers st' !! "c1_alice" = Some (Z.max 500 450) /\
    messageHistory st' !! "c1_alice" = Some history' /\
    history' !! 450 = Some (Some "m-450") /\
    (forall k, k <> 450 ->
               history' !! k
               = if decide (450 - SEQUENCE_WINDOW <= k)
                 then ({[ 500 := None ]} : gmap Z (option string)) !! k else None).
Proof.
  intros st.
  apply (sequence_within_window_accepted "c1_alice" 450 (Some "m-450") st 500
           {[ 500 := None ]}).
  - reflexivity.
  - vm_compute. reflexivity.
  - vm_compute. reflexivity.
  - vm_compute. reflexivity.
  - vm_compute. discriminate.
Defined.

(** X5 on concrete inputs: the call for "c1" and the context "c1_alice"
    leaves "c2" and "c2_alice" alone. *)
Lemma replay_state_is_per_conversation_witness :
  (seenNonces (run_call call_500 state_after_200).2 !! "c2"
   = seenNonces state_after_200 !! "c2" /\
   seenTimestamps (run_call call_500 state_after_200).2 !! "c2"
   = seenTimestamps state_after_200 !! "c2") /\
  (sequenceNumbers (run_call call_500 state_after_200).2 !! "c2_alice"
   = sequenceNumbers state_after_200 !! "c2_alice" /\
   messageHistory (run_call call_500 state_after_200).2 !! "c2_alice"
   = messageHistory state_after_200 !! "c2_alice").
Proof.
  split.
  - apply (proj1 (replay_state_is_per_conversation call_500 state_after_200 "c2")).
    vm_compute. discriminate.
  - apply (proj2 (replay_state_is_per_conversation call_500 state_after_200
                    "c2_alice")).
    vm_compute. discriminate.
Defined.

(** X6 on concrete inputs: after the reset of "c1", its recorded nonce
    "nonce-1" is accepted again. *)
Lemma reset_forgets_one_conversation_witness :
  getReplayProtectionStats "c1" (resetReplayProtection "c1" state_after_200)
  = mkStats 0 0 0 0 /\
  getReplayProtectionStats "c1_alice" (resetReplayProtection "c1" state_after_200)
  = getReplayProtectionStats "c1_alice" state_after_200 /\
  (validateNonce "c1" "nonce-1" (resetReplayProtection "c1" state_after_200)).1
  = Returns true.
Proof.
  destruct (reset_forgets_one_conversation "c1" state_after_200) as (H1 & H2 & H3).
  split; [exact H1|]. split.
  - apply H2. vm_compute. discriminate.
  - apply H3; reflexivity.
Defined.

End ReplayGuardRuns.

(** * The client: nonces, session keys and the hook *)

Section ClientProofs.
Import KeyExchange.
Context {platform : Platform}.

Ltac run_client :=
  unfold validateKeyExchangeInit, catchM, validateKeyExchangeInit_body,
    completeKeyExchange, rethrowM, bind, lift, get, modify, throw, ret.

(** A valid answer of [validateKeyExchangeInit] has recorded the nonce and
    changed nothing else. *)
Lemma validateKeyExchangeInit_valid_state now message senderPublicKeyBase64 st :
  valid (validateKeyExchangeInit now message senderPublicKeyBase64 st).1 = true ->
  (validateKeyExchangeInit now message senderPublicKeyBase64 st).2
  = set_seenNonces (fun seen => seen ∪ {[Message.nonce message]}) st.
Proof.
  run_client.
  destruct (Message.signature message) as [sig|]; [|discriminate].
  destruct (truthy_string sig); cbv beta iota delta [negb]; [|discriminate].
  destruct (atob sig); cbv beta iota; [|discriminate].
  destruct (verifySignature _ _ _); cbv beta iota delta [negb]; [|discriminate].
  destruct (out_of_tolerance _ _); cbv beta iota; [discriminate|].
  destruct (bool_decide (Message.nonce message ∈ seenNonces st));
    cbv beta iota; [discriminate|].
  destruct (importECDHPublicKey _); cbv beta iota; [reflexivity|discriminate].
Qed.

(** With the nonce in the set, [validateKeyExchangeInit] answers invalid
    and [completeKeyExchange] throws; neither changes the state. *)
Lemma validateKeyExchangeInit_seen_nonce now message senderPublicKeyBase64 st :
  Message.nonce message ∈ seenNonces st ->
  valid (validateKeyExchangeInit now message senderPublicKeyBase64 st).1 = false /\
  (validateKeyExchangeInit now message senderPublicKeyBase64 st).2 = st.
Proof.
  intros Hseen. run_client.
  destruct (Message.signature message) as [sig|]; [|auto].
  destruct (truthy_string sig); cbv beta iota delta [negb]; [|auto].
  destruct (atob sig); cbv beta iota; [|auto].
  destruct (verifySignature _ _ _); cbv beta iota delta [negb]; [|auto].
  destruct (out_of_tolerance _ _); cbv beta iota; [auto|].
  rewrite bool_decide_eq_true_2 by exact Hseen. auto.
Qed.

Lemma completeKeyExchange_seen_nonce now now1 now2 responseMessage myECDHPrivateKey
    theirPublicKeyBase64 myId theirId conversationId st :
  Message.nonce responseMessage ∈ seenNonces st ->
  is_throw (completeKeyExchange now now1 now2 responseMessage myECDHPrivateKey
              theirPublicKeyBase64 myId theirId conversationId st).1 = true /\
  (completeKeyExchange now now1 now2 responseMessage myECDHPrivateKey
     theirPublicKeyBase64 myId theirId conversationId st).2 = st.
Proof.
  intros Hseen. run_client.
  destruct (Message.signature responseMessage) as [sig|];
    [destruct (truthy_string sig)|]; cbv beta iota; auto.
  destruct (atob sig); cbv beta iota; auto.
  destruct (verifySignature _ _ _); cbv beta iota delta [negb]; auto.
  destruct (out_of_tolerance _ _); cbv beta iota; auto.
  rewrite bool_decide_eq_true_2 by exact Hseen. auto.
Qed.

(** X14.  The client accepts a nonce once.  After [validateKeyExchangeInit]
    has answered valid for an envelope, every envelope with the same nonce
    property (a missing nonce counts as the value undefined) is answered
    invalid by [validateKeyExchangeInit] and makes [completeKeyExchange]
    throw, whoever signed it and whatever the clock reads. *)
Theorem client_nonce_accepted_once :
  forall now message senderPublicKeyBase64 st,
    valid (validateKeyExchangeInit now message senderPublicKeyBase64 st).1 = true ->
    let st1 := (validateKeyExchangeInit now message senderPublicKeyBase64 st).2 in
    (forall now' message' senderPublicKeyBase64',
        Message.nonce message' = Message.nonce message ->
        valid (validateKeyExchangeInit now' message' senderPublicKeyBase64' st1).1
        = false) /\
    (forall now' now1 now2 responseMessage myECDHPrivateKey theirPublicKeyBase64
            myId theirId conversationId,
        Message.nonce responseMessage = Message.nonce message ->
        is_throw (completeKeyExchange now' now1 now2 responseMessage
                    myECDHPrivateKey theirPublicKeyBase64 myId theirId
                    conversationId st1).1 = true).
Proof.
  intros now message pk st Hvalid st1.
  assert (Hseen : Message.nonce message ∈ seenNonces st1).
  { subst st1. rewrite (validateKeyExchangeInit_valid_state _ _ _ _ Hvalid).
    simpl. set_solver. }
  split.
  - intros now' message' pk' Hsame.
    apply validateKeyExchangeInit_seen_nonce. rewrite Hsame. exact Hseen.
  - intros now' n1 n2 response sk pk' myId theirId conv Hsame.
    apply completeKeyExchange_seen_nonce. rewrite Hsame. exact Hseen.
Qed.

Lemma storeKey_inj c c' : storeKey c = storeKey c' -> c = c'.
Proof. unfold storeKey. simpl. intros H. injection H as H. exact H. Qed.

(** X15.  Session keys are stored per conversation.  Storing a key for
    one conversation does not change what [retrieveSessionKey] answers for
    any other conversation, and looking another conversation up (even when
    that deletes its expired record) leaves the stored record in place. *)
Theorem session_keys_per_conversation :
  forall now1 now2 conversationId (sessionKey : CryptoKey) timestamp st other now,
    other <> conversationId ->
    let stored := (storeSessionKey now1 now2 conversationId sessionKey timestamp st).2 in
    (retrieveSessionKey now other stored).1 = (retrieveSessionKey now other st).1 /\
    sessionKeys (retrieveSessionKey now other stored).2 !! storeKey conversationId
    = Some (mkKeyData sessionKey (or_number timestamp now1)
                      (or_number timestamp now2 + SESSION_KEY_EXPIRY)).
Proof.
  intros now1 now2 conv k ts st other now Hne stored. subst stored.
  rewrite storeSessionKey_run. cbn [snd].
  assert (Hkey : storeKey conv <> storeKey other).
  { intros H. apply storeKey_inj in H. congruence. }
  unfold retrieveSessionKey, bind, get, modify, ret.
  cbn [sessionKeys set_sessionKeys].
  rewrite lookup_insert_ne by exact Hkey.
  destruct (sessionKeys st !! storeKey other) as [data|]; cbn.
  2: { split; [reflexivity|apply lookup_insert_eq]. }
  destruct (truthy_number (expiresAt data) && (now >? expiresAt data)); cbn.
  { split; [reflexivity|].
    rewrite lookup_delete_ne by congruence. apply lookup_insert_eq. }
  destruct (importKey_raw_AES (key data)); cbn;
    (split; [reflexivity|apply lookup_insert_eq]).
Qed.

(** The hook answers false exactly when it leaves the React map of session
    keys as it was. *)
Lemma handleKeyExchangeMessage_invalid_any authUser privateKeyBase64 nowValidate now
    now1 now2 nonce userAgent myKeyPair serverResponse message senderId
    senderPublicKeyBase64 conversationId hook st :
  valid (validateKeyExchangeInit nowValidate message senderPublicKeyBase64 st).1
  = false ->
  let r := handleKeyExchangeMessage authUser privateKeyBase64 nowValidate now now1
             now2 nonce userAgent myKeyPair serverResponse message senderId
             senderPublicKeyBase64 conversationId hook st in
  r.1.1 = false /\ sessionKeysState r.1.2 = sessionKeysState hook.
Proof.
  intros Hinvalid r. subst r. unfold handleKeyExchangeMessage.
  destruct authUser as [user|]; [|auto].
  destruct privateKeyBase64 as [privateKey|]; [|auto].
  destruct (truthy_string privateKey); cbv beta iota delta [negb]; [|auto].
  destruct (validateKeyExchangeInit nowValidate message senderPublicKeyBase64 st)
    as [[error|k sid cid ts] st1]; [auto|discriminate].
Qed.

(** X16.  A Response that the server does not take leaves the handshake
    half done on the responder.  When the Init is valid and the POST of the
    Response comes back without [ok], [handleKeyExchangeMessage] answers
    false and puts no key into the React state, but the session key that
    [createKeyExchangeResponse] derived is already in the IndexedDB store
    and the Init's nonce is used up: handling the same Init again answers
    false, whatever the server would say then. *)
Theorem undelivered_response_is_not_retried :
  forall authUserId privateKeyBase64 privateKey nowValidate now now1 now2 nonce
         userAgent myECDHPublicKey myECDHPrivateKey serverError message senderId
         senderPublicKeyBase64 conversationId hook st theirECDHPublicKey
         validSenderId validConversationId validTimestamp st1,
    truthy_string privateKeyBase64 = true ->
    importPrivateKey privateKeyBase64 = Returns privateKey ->
    validateKeyExchangeInit nowValidate message senderPublicKeyBase64 st
    = (Valid theirECDHPublicKey validSenderId validConversationId validTimestamp,
       st1) ->
    let r := handleKeyExchangeMessage (Some authUserId) (Some privateKeyBase64)
               nowValidate now now1 now2 nonce userAgent
               (Returns (myECDHPublicKey, myECDHPrivateKey))
               (FetchNotOk serverError) message senderId senderPublicKeyBase64
               conversationId hook st in
    r.1.1 = false /\
    sessionKeysState r.1.2 = sessionKeysState hook /\
    (key <$> sessionKeys r.2
             !! storeKey (or_string (or_opt_string conversationId validConversationId)
                                    (senderId +:+ "_" +:+ authUserId)))
    = Some (derived_key (subtle_deriveBits myECDHPrivateKey theirECDHPublicKey)
                        (sort2 senderId authUserId).1 (sort2 senderId authUserId).2
                        now) /\
    (forall nowValidate' now' now1' now2' nonce' userAgent' myKeyPair'
            serverResponse',
        let r' := handleKeyExchangeMessage (Some authUserId) (Some privateKeyBase64)
                    nowValidate' now' now1' now2' nonce' userAgent' myKeyPair'
                    serverResponse' message senderId senderPublicKeyBase64
                    conversationId r.1.2 r.2 in
        r'.1.1 = false /\ sessionKeysState r'.1.2 = sessionKeysState hook).
Proof.
  intros user priv sk nowV now now1 now2 nonce ua myPub myPriv err message sender pk
         conv hook st their vs vc vt st1 Htruthy Hsk Hvalid r.
  assert (Hst1 : st1 = set_seenNonces (fun seen => seen ∪ {[Message.nonce message]}) st).
  { pose proof (validateKeyExchangeInit_valid_state nowV message pk st) as H.
    rewrite Hvalid in H. apply H. reflexivity. }
  assert (Hr : r = (false,
                    mkHookState (sessionKeysState hook)
                      (Some (message_of
                               (Error (or_string err
                                         "Failed to send key exchange response"))))
                      false,
                    set_sessionKeys
                      <[storeKey (or_string (or_opt_string conv vc)
                                            (sender +:+ "_" +:+ user)) :=
                          mkKeyData
                            (derived_key (subtle_deriveBits myPriv their)
                               (sort2 sender user).1 (sort2 sender user).2 now)
                            (or_number (Some now) now1)
                            (or_number (Some now) now2 + SESSION_KEY_EXPIRY)]> st1)).
  { subst r. unfold handleKeyExchangeMessage. rewrite Htruthy, Hvalid.
    cbv beta iota delta [negb].
    rewrite (createKeyExchangeResponse_returns now now1 now2 nonce ua myPub their
               myPriv sender priv user (or_opt_string conv vc) sk st1 Hsk).
    reflexivity. }
  rewrite Hr. cbn [fst snd sessionKeysState].
  split; [reflexivity|]. split; [reflexivity|]. split.
  { cbn [sessionKeys set_sessionKeys]. rewrite lookup_insert_eq. reflexivity. }
  intros nowV' now' now1' now2' nonce' ua' pair' server'.
  apply (handleKeyExchangeMessage_invalid_any (Some user) (Some priv) nowV' now' now1'
           now2' nonce' ua' pair' server' message sender pk conv
           (mkHookState (sessionKeysState hook) _ false)).
  apply validateKeyExchangeInit_seen_nonce. rewrite Hst1. simpl. set_solver.
Qed.

End ClientProofs.

(** * The hook's cache of session keys *)

Section HookCache.
Import KeyExchange.

(** X17.  A session key cached in the hook's React state does not expire.
    A key stored at [createdAt] and first looked up through
    [getSessionKey] before its expiry is copied into the React state; from
    then on [getSessionKey] returns it without reading the clock or the
    store, so that after [createdAt + SESSION_KEY_EXPIRY] the hook still
    hands the key out and [needsKeyExchange] answers false, while
    [retrieveSessionKey] answers null. *)
Theorem cached_session_key_outlives_expiry :
  forall now1 now2 conversationId (sessionKey : CryptoKey) timestamp hook st
         early late,
    let createdAt := or_number timestamp now1 in
    let stored := (storeSessionKey now1 now2 conversationId sessionKey timestamp st).2 in
    or_number timestamp now2 = createdAt ->
    0 <= createdAt ->
    importKey_raw_AES sessionKey = Returns sessionKey ->
    sessionKeysState hook !! conversationId = None ->
    early <= createdAt + SESSION_KEY_EXPIRY ->
    createdAt + SESSION_KEY_EXPIRY < late ->
    let first := getSessionKey early conversationId hook stored in
    first.1.1 = Some sessionKey /\
    getSessionKey late conversationId first.1.2 first.2
    = (Some sessionKey, first.1.2, first.2) /\
    (needsKeyExchange late conversationId first.1.2 first.2).1.1 = false /\
    (retrieveSessionKey late conversationId first.2).1 = Returns None.
Proof.
  intros now1 now2 conv k ts hook st early late createdAt stored Hsame Hpos Hvalid
         Hmiss Hearly Hlate first.
  subst stored first. rewrite storeSessionKey_run. cbn [snd]. fold createdAt.
  set (data := mkKeyData k createdAt (or_number ts now2 + SESSION_KEY_EXPIRY)).
  set (st1 := set_sessionKeys _ st).
  assert (Hget : sessionKeys st1 !! storeKey conv = Some data)
    by (subst st1; simpl; apply lookup_insert_eq).
  assert (Hexp : expiresAt data = createdAt + SESSION_KEY_EXPIRY)
    by (simpl; rewrite Hsame; reflexivity).
  assert (Hnz : expiresAt data <> 0)
    by (rewrite Hexp; unfold SESSION_KEY_EXPIRY; lia).
  assert (Hread : forall now,
             retrieveSessionKey now conv st1
             = if now >? createdAt + SESSION_KEY_EXPIRY
               then (Returns None, set_sessionKeys (delete (storeKey conv)) st1)
               else (Returns (Some k), st1)).
  { intros now.
    rewrite (retrieveSessionKey_stored now conv st1 data Hget Hnz Hvalid), Hexp.
    reflexivity. }
  assert (E1 : (early >? createdAt + SESSION_KEY_EXPIRY) = false).
  { rewrite Z.gtb_ltb. apply Z.ltb_ge. exact Hearly. }
  assert (E2 : (late >? createdAt + SESSION_KEY_EXPIRY) = true).
  { rewrite Z.gtb_ltb. apply Z.ltb_lt. exact Hlate. }
  unfold needsKeyExchange, getSessionKey. rewrite Hmiss, (Hread early), E1.
  cbn [fst snd sessionKeysState]. rewrite lookup_insert_eq.
  split; [reflexivity|]. split; [reflexivity|]. split; [reflexivity|].
  rewrite (Hread late), E2. reflexivity.
Qed.

(** X17 on concrete inputs: a key stored at 1700000000000, looked up one
    second later and again eight days later. *)
Lemma cached_session_key_outlives_expiry_witness :
  let stored := (storeSessionKey 1700000000005 1700000000007 "c1" example_key
                   (Some 1700000000000) empty_state).2 in
  let first := getSessionKey 1700000001000 "c1" (mkHookState ∅ None false) stored in
  first.1.1 = Some example_key /\
  getSessionKey 1700691200000 "c1" first.1.2 first.2
  = (Some example_key, first.1.2, first.2) /\
  (needsKeyExchange 1700691200000 "c1" first.1.2 first.2).1.1 = false /\
  (retrieveSessionKey 1700691200000 "c1" first.2).1 = Returns None.
Proof.
  apply (cached_session_key_outlives_expiry 1700000000005 1700000000007 "c1"
           example_key (Some 1700000000000) (mkHookState ∅ None false) empty_state
           1700000001000 1700691200000).
  - reflexivity.
  - vm_compute. discriminate.
  - reflexivity.
  - reflexivity.
  - vm_compute. discriminate.
  - vm_compute. reflexivity.
Defined.

End HookCache.

(** * Timestamps and nonces of the replay guard *)

Section TimestampsAndNonces.
Import ReplayProtection.

Lemma last_after_shift (l : list Z) t :
  (1 < length (l ++ [t]))%nat -> last (tail (l ++ [t])) = Some t.
Proof.
  destruct l as [|a l]; simpl; [lia|]. intros _. apply last_snoc.
Qed.

Opaque Nat.ltb.

(** X18.  [validateTimestamp] accepts exactly the timestamps within five
    minutes of the server clock, both bounds included.  An accepted
    timestamp becomes the newest recorded timestamp of the conversation; a
    rejected one leaves the recorded timestamps as they were. *)
Theorem timestamp_accepted_exactly_within_window :
  forall now conversationId t st,
    truthy_string conversationId = true ->
    t <> 0 ->
    let r := validateTimestamp now conversationId t st in
    (r.1 = Returns true <->
     now - TIMESTAMP_TOLERANCE <= t <= now + TIMESTAMP_TOLERANCE) /\
    (r.1 = Returns true ->
     exists timestamps,
       seenTimestamps r.2 !! conversationId = Some timestamps /\
       last timestamps = Some t) /\
    (r.1 <> Returns true -> seenTimestamps r.2 = seenTimestamps st).
Proof.
  intros now conv t st Hc Ht r. subst r.
  unfold validateTimestamp, truthy_number. rewrite Hc.
  apply Z.eqb_neq in Ht. rewrite Ht. cbv beta iota delta [negb orb].
  destruct (t >? now + TIMESTAMP_TOLERANCE) eqn:Hfuture.
  { rewrite Z.gtb_ltb in Hfuture. apply Z.ltb_lt in Hfuture.
    unfold bind, ret, logReplayAttack, modify. cbn [fst snd].
    split; [split; [discriminate|lia]|]. split; [discriminate|reflexivity]. }
  destruct (t <? now - TIMESTAMP_TOLERANCE) eqn:Hold.
  { apply Z.ltb_lt in Hold.
    unfold bind, ret, logReplayAttack, modify. cbn [fst snd].
    split; [split; [discriminate|lia]|]. split; [discriminate|reflexivity]. }
  rewrite Z.gtb_ltb in Hfuture. apply Z.ltb_ge in Hfuture. apply Z.ltb_ge in Hold.
  unfold bind, ret, get, modify, throw. cbn [fst snd].
  destruct (seenTimestamps st !! conv) as [timestamps|] eqn:E; cbn.
  - rewrite E. cbn. split; [split; [lia|reflexivity]|].
    split; [|intros H; contradiction H; reflexivity].
    intros _. rewrite lookup_insert_eq. eexists. split; [reflexivity|].
    match goal with |- context [if ?c then _ else _] => destruct c eqn:Hlen end.
    + apply last_after_shift. apply Nat.ltb_lt in Hlen.
      unfold MAX_TIMESTAMPS_PER_CONVERSATION in Hlen. lia.
    + apply last_snoc.
  - rewrite lookup_insert_eq. cbn. split; [split; [lia|reflexivity]|].
    split; [|intros H; contradiction H; reflexivity].
    intros _. rewrite lookup_insert_eq. eexists. split; reflexivity.
Qed.

Transparent Nat.ltb.

(** X18 on concrete inputs: a timestamp exactly five minutes behind the
    clock. *)
Lemma timestamp_accepted_exactly_within_window_witness :
  (validateTimestamp 1700000300000 "c1" 1700000000000 state_after_200).1
  = Returns true.
Proof.
  apply (proj1 (timestamp_accepted_exactly_within_window 1700000300000 "c1"
                  1700000000000 state_after_200 eq_refl
                  ltac:(vm_compute; discriminate))).
  vm_compute. split; discriminate.
Defined.

Lemma hex_of_byte_inj a b : hex_of_byte a = hex_of_byte b -> a = b.
Proof.
  pose (value := fun c : ascii =>
          match c with
          | "0" => 0 | "1" => 1 | "2" => 2 | "3" => 3 | "4" => 4 | "5" => 5
          | "6" => 6 | "7" => 7 | "8" => 8 | "9" => 9 | "a" => 10 | "b" => 11
          | "c" => 12 | "d" => 13 | "e" => 14 | _ => 15
          end%char%N).
  pose (decode := fun s : string =>
          match s with
          | String h (String l EmptyString) => Byte.of_N (16 * value h + value l)
          | _ => None
          end).
  assert (Hdecode : forall x, decode (hex_of_byte x) = Some x)
    by (intros x; destruct x; vm_compute; reflexivity).
  intros H. apply (f_equal decode) in H. rewrite !Hdecode in H.
  injection H as H. exact H.
Qed.

Lemma generateNonce_cons b bytes :
  generateNonce (b :: bytes)
  = String (hex_digit (Byte.to_N b / 16))
      (String (hex_digit (Byte.to_N b mod 16)) (generateNonce bytes)).
Proof.
  unfold generateNonce. destruct bytes as [|b' bytes]; reflexivity.
Qed.

Lemma generateNonce_inj bytes :
  String.length (generateNonce bytes) = (2 * length bytes)%nat /\
  (forall bytes', generateNonce bytes = generateNonce bytes' -> bytes = bytes').
Proof.
  induction bytes as [|b bytes [IHlen IHinj]].
  - split; [reflexivity|]. intros [|b' bytes']; [reflexivity|].
    rewrite generateNonce_cons. discriminate.
  - rewrite generateNonce_cons. split.
    + cbn [String.length length]. rewrite IHlen. lia.
    + intros [|b' bytes']; [discriminate|]. rewrite generateNonce_cons.
      intros H. injection H as H1 H2 H3.
      assert (b = b').
      { apply hex_of_byte_inj. unfold hex_of_byte. congruence. }
      subst b'. f_equal. apply IHinj. exact H3.
Qed.

(** X19.  [generateNonce] prints the random bytes without loss: the nonce
    has two characters per byte (32 for the 16 bytes that the code
    draws), and two arrays of random bytes that differ give different
    nonces. *)
Theorem generateNonce_is_faithful :
  forall bytes,
    String.length (generateNonce bytes) = (2 * length bytes)%nat /\
    (forall bytes', bytes <> bytes' -> generateNonce bytes <> generateNonce bytes').
Proof.
  intros bytes. destruct (generateNonce_inj bytes) as [Hlen Hinj].
  split; [exact Hlen|]. intros bytes' Hne Heq. apply Hne, Hinj, Heq.
Qed.

(** X19 on concrete inputs: two arrays of sixteen bytes that differ in the
    last byte. *)
Lemma generateNonce_is_faithful_witness :
  generateNonce (repeat x0f 15 ++ [xa0]) = "0f0f0f0f0f0f0f0f0f0f0f0f0f0f0fa0" /\
  String.length (generateNonce (repeat x0f 15 ++ [xa0])) = 32%nat /\
  generateNonce (repeat x0f 15 ++ [xa0]) <> generateNonce (repeat x0f 15 ++ [xa1]).
Proof.
  split; [reflexivity|].
  destruct (generateNonce_is_faithful (repeat x0f 15 ++ [xa0])) as [Hlen Hne].
  split; [exact Hlen|].
  apply Hne. vm_compute. discriminate.
Defined.

End TimestampsAndNonces.

(** * Runs of the client *)

Section ClientRuns.
Import KeyExchange Scenario.
#[local] Existing Instance Toy.platform.

(** The Init of alice, signed by her. *)
Lemma signed_init_valid :
  let signed := Message.with_signature init_content
                  (signatureBase64_of (platform := Toy.platform) "alice-rsa"
                     init_content) in
  validateKeyExchangeInit (platform := Toy.platform) 1700000000100 signed
    "alice-rsa" empty_state
  = (Valid (Toy.publicOf alicePrivateECDH) "alice" (Some "c1") (Some 1700000000000),
     set_seenNonces (fun seen => seen ∪ {[Some "nonce-a"]}) empty_state).
Proof.
  intros signed.
  apply (validateKeyExchangeInit_accepts (platform := Toy.platform) 1700000000100
           signed "alice-rsa" empty_state
           (signatureBase64_of (platform := Toy.platform) "alice-rsa" init_content)
           (Toy.sign "alice-rsa" (utf8 (Toy.JSON_stringify init_content)))
           (Toy.publicOf alicePrivateECDH)).
  - reflexivity.
  - apply toy_signature_nonempty.
  - apply toy_base64_round_trip.
  - vm_compute; reflexivity.
  - vm_compute; reflexivity.
  - apply not_elem_of_empty.
  - apply (importECDHPublicKey_exported (platform := Toy.platform)
             (Toy.publicOf alicePrivateECDH)
             toy_base64_round_trip (toy_spki_round_trip _)).
Qed.

(** X14 on concrete inputs: bob validates alice's signed Init, and then
    sees the same Init again a second later. *)
Lemma client_nonce_accepted_once_witness :
  let signed := Message.with_signature init_content
                  (signatureBase64_of (platform := Toy.platform) "alice-rsa"
                     init_content) in
  let st1 := (validateKeyExchangeInit (platform := Toy.platform) 1700000000100
                signed "alice-rsa" empty_state).2 in
  valid (validateKeyExchangeInit (platform := Toy.platform) 1700000001100 signed
           "alice-rsa" st1).1 = false /\
  is_throw (completeKeyExchange (platform := Toy.platform) 1700000001100
              1700000001101 1700000001102 signed bobPrivateECDH "alice-rsa" "bob"
              "alice" "c1" st1).1 = true.
Proof.
  intros signed st1.
  destruct (client_nonce_accepted_once (platform := Toy.platform) 1700000000100
              signed "alice-rsa" empty_state) as [Hinit Hresponse].
  - subst signed. rewrite signed_init_valid. reflexivity.
  - split.
    + apply Hinit. reflexivity.
    + apply Hresponse. reflexivity.
Defined.

(** X15 on concrete inputs: a key stored for "c1" and a lookup of "c2". *)
Lemma session_keys_per_conversation_witness :
  let stored := (storeSessionKey 1700000000005 1700000000007 "c1" example_key
                   (Some 1700000000000) empty_state).2 in
  (retrieveSessionKey 1700000000100 "c2" stored).1
  = (retrieveSessionKey 1700000000100 "c2" empty_state).1 /\
  sessionKeys (retrieveSessionKey 1700000000100 "c2" stored).2 !! storeKey "c1"
  = Some (mkKeyData example_key (or_number (Some 1700000000000) 1700000000005)
                    (or_number (Some 1700000000000) 1700000000007
                     + SESSION_KEY_EXPIRY)).
Proof.
  apply (session_keys_per_conversation 1700000000005 1700000000007 "c1" example_key
           (Some 1700000000000) empty_state "c2" 1700000000100).
  vm_compute. discriminate.
Defined.

(** X16 on concrete inputs: bob handles alice's signed Init, the server
    answers the POST of his Response with an error, and bob handles the
    Init again. *)
Lemma undelivered_response_is_not_retried_witness :
  let signed := Message.with_signature init_content
                  (signatureBase64_of (platform := Toy.platform) "alice-rsa"
                     init_content) in
  let r := handleKeyExchangeMessage (platform := Toy.platform) (Some "bob")
             (Some "bob-rsa") 1700000000100 1700000000200 1700000000201
             1700000000202 "nonce-b" "Mozilla"
             (Returns (Toy.publicOf bobPrivateECDH, bobPrivateECDH))
             (FetchNotOk (Some "Internal server error")) signed "alice" "alice-rsa"
             (Some "c1") (mkHookState ∅ None false) empty_state in
  r.1.1 = false /\
  sessionKeysState r.1.2 = ∅ /\
  (key <$> sessionKeys r.2 !! storeKey "c1")
  = Some (derived_key (Toy.deriveBits bobPrivateECDH (Toy.publicOf alicePrivateECDH))
                      "alice" "bob" 1700000000200) /\
  (handleKeyExchangeMessage (platform := Toy.platform) (Some "bob") (Some "bob-rsa")
     1700000001100 1700000001200 1700000001201 1700000001202 "nonce-c" "Mozilla"
     (Returns (Toy.publicOf bobPrivateECDH, bobPrivateECDH)) FetchOk signed "alice"
     "alice-rsa" (Some "c1") r.1.2 r.2).1.1 = false.
Proof.
  intros signed r.
  destruct (undelivered_response_is_not_retried (platform := Toy.platform)
              "bob" "bob-rsa" "bob-rsa" 1700000000100 1700000000200 1700000000201
              1700000000202 "nonce-b" "Mozilla" (Toy.publicOf bobPrivateECDH)
              bobPrivateECDH (Some "Internal server error") signed "alice"
              "alice-rsa" (Some "c1") (mkHookState ∅ None false) empty_state
              (Toy.publicOf alicePrivateECDH) "alice" (Some "c1")
              (Some 1700000000000)
              (set_seenNonces (fun seen => seen ∪ {[Some "nonce-a"]}) empty_state)
              eq_refl eq_refl signed_init_valid)
    as (H1 & H2 & H3 & H4).
  split; [exact H1|]. split; [exact H2|]. split; [exact H3|].
  exact (proj1 (H4 1700000001100 1700000001200 1700000001201 1700000001202
                  "nonce-c" "Mozilla"
                  (Returns (Toy.publicOf bobPrivateECDH, bobPrivateECDH)) FetchOk)).
Defined.

End ClientRuns.
